(** * Time-zone overlap finder: the overlap engine and the meeting suggester

    A shallow embedding of [TimeZoneConverter], [OverlapCalculator] and
    [MeetingSuggester], together with the part of Luxon's [DateTime] they
    call.  Instants are epoch milliseconds in [Z]; a finite JavaScript
    [number] is carried as its exact value in [Q], and where the code
    computes with numbers the operations round as IEEE binary64 does
    ([Number]); a thrown [Error] is its message. *)

From Stdlib Require Import ZArith QArith Qminmax Qround Qabs Qpower Qreduction.
From Stdlib Require Import Bool List String Ascii Lia Lqa.
From Stdlib Require Uint63 PrimFloat FloatOps.
From Equations Require Import Equations.
Import ListNotations.

Open Scope Z_scope.

(** ** Host environment

    The zone rules come from the JavaScript host ([Intl]) and are not part
    of the repository.  [normalizeZone] resolves a zone specifier to the
    name of a valid zone ([None] when Luxon reports the zone invalid),
    [zoneOffset] is the offset in minutes, east of UTC positive, that the
    named zone observes at an epoch-millisecond instant, [systemZone] is
    Luxon's default zone and [now] is the clock.  Time values are unbounded
    integers: the ECMAScript limit of 8.64e15 ms ([timeValueLimit]), beyond
    which [Date.UTC] yields NaN, is not modelled, so the model speaks for
    dates at least a few days inside that limit. *)

Class Host := {
  normalizeZone : string -> option string;
  zoneOffset : string -> Z -> Z;
  systemZone : string;
  now : Z
}.

(** ** Exceptions *)

Inductive Result (A : Type) : Type :=
| Ok (value : A)
| Throw (message : string).
Arguments Ok {A} value.
Arguments Throw {A} message.

Definition bind {A B} (r : Result A) (k : A -> Result B) : Result B :=
  match r with
  | Ok a => k a
  | Throw m => Throw m
  end.

Notation "x <- r ;; k" := (bind r (fun x => k))
  (at level 61, r at next level, right associativity).

(** [s.includes(sub)] *)
Fixpoint includes (sub s : string) : bool :=
  match s with
  | EmptyString => prefix sub EmptyString
  | String _ rest => prefix sub s || includes sub rest
  end.

(** ** Numbers *)

Definition Qlt_bool (x y : Q) : bool := negb (Qle_bool y x).

(** *** IEEE 754 binary64

    [round x] is the double nearest to the rational [x], ties going to the
    even significand: 53 significant bits, exponents down to that of the
    subnormal numbers, no upper limit (overflow is [Number.ofQ]'s). *)

Module Binary64.

(** The integer part of the binary logarithm of a positive rational. *)
Definition floorLog2 (x : Q) : Z :=
  let k := Z.log2 (Qnum x) - Z.log2 (Zpos (Qden x)) in
  if Qle_bool (2 ^ k) x then k else k - 1.

Definition roundHalfEven (x : Q) : Z :=
  let f := Qfloor x in
  match (x - inject_Z f ?= 1 # 2)%Q with
  | Lt => f
  | Gt => f + 1
  | Eq => if Z.even f then f else f + 1
  end.

(** For positive [x]: the multiple of the unit in the last place
    [2 ^ e] nearest to [x]. *)
Definition nearest (x : Q) : Q :=
  let e := Z.max (floorLog2 x - 52) (-1074) in
  Qred (inject_Z (roundHalfEven (x / 2 ^ e)) * 2 ^ e).

Definition round (x : Q) : Q :=
  match (0 ?= x)%Q with
  | Eq => 0
  | Lt => nearest x
  | Gt => - nearest (- x)
  end.

End Binary64.

(** *** JavaScript numbers

    The arithmetic and relational operators on [number].  The two zeros
    are one: the sign of zero matters only to a division by zero, which
    takes the zero as positive. *)

Module Number.

Inductive t : Type :=
| Finite (value : Q)
| PlusInfinity
| MinusInfinity
| NaN.

(** 2^1024, the least magnitude that is no longer finite. *)
Definition huge : Q := Eval vm_compute in (2 ^ 1024)%Q.

(** The number an exact result becomes. *)
Definition ofQ (x : Q) : t :=
  let y := Binary64.round x in
  if Qle_bool huge y then PlusInfinity
  else if Qle_bool y (- huge) then MinusInfinity
  else Finite y.

Definition opp (a : t) : t :=
  match a with
  | Finite x => Finite (- x)
  | PlusInfinity => MinusInfinity
  | MinusInfinity => PlusInfinity
  | NaN => NaN
  end.

Definition add (a b : t) : t :=
  match a, b with
  | NaN, _ | _, NaN => NaN
  | Finite x, Finite y => ofQ (x + y)
  | PlusInfinity, MinusInfinity | MinusInfinity, PlusInfinity => NaN
  | PlusInfinity, _ | _, PlusInfinity => PlusInfinity
  | MinusInfinity, _ | _, MinusInfinity => MinusInfinity
  end.

Definition sub (a b : t) : t := add a (opp b).

Definition mul (a b : t) : t :=
  match a, b with
  | NaN, _ | _, NaN => NaN
  | Finite x, Finite y => ofQ (x * y)
  | Finite x, inf | inf, Finite x =>
    match (0 ?= x)%Q with
    | Eq => NaN
    | Lt => inf
    | Gt => opp inf
    end
  | PlusInfinity, inf => inf
  | MinusInfinity, inf => opp inf
  end.

Definition div (a b : t) : t :=
  match a, b with
  | NaN, _ | _, NaN => NaN
  | Finite x, Finite y =>
    match (0 ?= y)%Q, (0 ?= x)%Q with
    | Eq, Eq => NaN
    | Eq, Lt => PlusInfinity
    | Eq, Gt => MinusInfinity
    | _, _ => ofQ (x / y)
    end
  | Finite _, _ => Finite 0
  | inf, Finite y => if Qlt_bool y 0 then opp inf else inf
  | _, _ => NaN
  end.

(** [None] when either side is NaN: every comparison is then false. *)
Definition compare (a b : t) : option comparison :=
  match a, b with
  | NaN, _ | _, NaN => None
  | Finite x, Finite y => Some (x ?= y)%Q
  | PlusInfinity, PlusInfinity | MinusInfinity, MinusInfinity => Some Eq
  | PlusInfinity, _ | _, MinusInfinity => Some Gt
  | MinusInfinity, _ | _, PlusInfinity => Some Lt
  end.

Definition lt (a b : t) : bool :=
  match compare a b with Some Lt => true | _ => false end.
Definition ge (a b : t) : bool :=
  match compare a b with Some Gt | Some Eq => true | _ => false end.

(** A field of a DateTime, NaN when the DateTime is invalid. *)
Definition ofField (x : option Z) : t :=
  match x with
  | Some z => Finite (inject_Z z)
  | None => NaN
  end.

End Number.

(** [ToIntegerOrInfinity] of a finite number: truncation towards zero, as
    [Date.UTC] applies it to each of its arguments. *)
Definition toInteger (x : Q) : Z := Z.quot (Qnum x) (Zpos (Qden x)).

(** ** Luxon's DateTime

    A valid [DateTime] is an instant together with the zone it is rendered
    in; the offset and the wall-clock fields Luxon caches are functions of
    the two.  Wall-clock values are "local timestamps": the instant whose
    UTC fields read like the wall clock ([objToLocalTS]).  An instant or a
    local timestamp beyond the largest time value of a [Date], where
    Luxon's arithmetic yields NaN, is not represented: see
    [insideTimeValues]. *)

Inductive DateTime : Type :=
| Valid (ts : Z) (zone : string)
| Invalid.

Module Luxon.
Section WithHost.
Context `{Host}.

Definition msPerMinute : Z := 60 * 1000.
Definition msPerHour : Z := 60 * msPerMinute.
Definition msPerDay : Z := 24 * msPerHour.

Definition isValid (dt : DateTime) : bool :=
  match dt with Valid _ _ => true | Invalid => false end.

(** [valueOf()] / [toMillis()]; [None] is NaN. *)
Definition valueOf (dt : DateTime) : option Z :=
  match dt with Valid ts _ => Some ts | Invalid => None end.

(** Relational operators on DateTimes compare [valueOf()]; a comparison
    with NaN is false. *)
Definition lt (a b : DateTime) : bool :=
  match valueOf a, valueOf b with
  | Some x, Some y => x <? y
  | _, _ => false
  end.
Definition gt (a b : DateTime) : bool := lt b a.
Definition ge (a b : DateTime) : bool :=
  match valueOf a, valueOf b with
  | Some x, Some y => y <=? x
  | _, _ => false
  end.

Definition localTS (zone : string) (ts : Z) : Z :=
  ts + zoneOffset zone ts * msPerMinute.

Definition startOfLocalDay (local : Z) : Z := local / msPerDay * msPerDay.

(** [dt.hour], [dt.minute]; [None] is the NaN of an invalid DateTime. *)
Definition hour (dt : DateTime) : option Z :=
  match dt with
  | Valid ts zone => Some ((localTS zone ts / msPerHour) mod 24)
  | Invalid => None
  end.
Definition minute (dt : DateTime) : option Z :=
  match dt with
  | Valid ts zone => Some ((localTS zone ts / msPerMinute) mod 60)
  | Invalid => None
  end.

(** [fixOffset(localTS, o, tz)]: find the instant whose wall clock in [tz]
    is [localTS], starting from the offset guess [o]. *)
Definition fixOffset (local o : Z) (tz : string) : Z * Z :=
  let utcGuess := local - o * 60 * 1000 in
  let o2 := zoneOffset tz utcGuess in
  if o =? o2 then (utcGuess, o)
  else
    let utcGuess := utcGuess - (o2 - o) * 60 * 1000 in
    let o3 := zoneOffset tz utcGuess in
    if o2 =? o3 then (utcGuess, o2)
    else (local - Z.min o2 o3 * 60 * 1000, Z.max o2 o3).

(** [DateTime.fromJSDate(date)]; a JavaScript [Date] is [Some] time value
    or the Invalid Date [None]. *)
Definition fromJSDate (date : option Z) : DateTime :=
  match date with
  | Some ts => Valid ts systemZone
  | None => Invalid
  end.

(** [DateTime.now()] *)
Definition now_ : DateTime := Valid now systemZone.

(** [dt.setZone(zone, { keepLocalTime })] *)
Definition setZone (dt : DateTime) (zone : string) (keepLocalTime : bool) : DateTime :=
  match dt with
  | Invalid => Invalid
  | Valid ts z =>
    match normalizeZone zone with
    | None => Invalid
    | Some zone =>
      if String.eqb zone z then dt
      else if keepLocalTime then
        let offsetGuess := zoneOffset zone ts in
        Valid (fst (fixOffset (localTS z ts) offsetGuess zone)) zone
      else Valid ts zone
    end
  end.

(** [dt.toUTC()] *)
Definition toUTC (dt : DateTime) : DateTime :=
  match dt with
  | Invalid => Invalid
  | Valid ts _ => Valid ts "UTC"
  end.

(** [dt.set({ hour, minute: 0, second: 0, millisecond: 0 })]: the calendar
    day is kept, the time of day is replaced ([Date.UTC] truncates the
    hour and carries an hour of 24 into the next day). *)
Definition setHour (dt : DateTime) (h : Q) : DateTime :=
  match dt with
  | Invalid => Invalid
  | Valid ts z =>
    let o := zoneOffset z ts in
    let local := startOfLocalDay (localTS z ts) + toInteger h * msPerHour in
    Valid (fst (fixOffset local o z)) z
  end.

(** [dt.startOf('day')], which is [set] with every time field zero. *)
Definition startOfDay (dt : DateTime) : DateTime := setHour dt 0.

(** [adjustTime]: calendar days are added to the wall clock, the smaller
    units to the instant. *)
Definition adjustTime (dt : DateTime) (days millisToAdd : Z) : DateTime :=
  match dt with
  | Invalid => Invalid
  | Valid ts z =>
    let oPre := zoneOffset z ts in
    let local := localTS z ts + days * msPerDay in
    let ts' := fst (fixOffset local oPre z) in
    Valid (if millisToAdd =? 0 then ts' else ts' + millisToAdd) z
  end.

(** [dt.plus({ days })], [dt.plus({ minutes })] *)
Definition plusDays (dt : DateTime) (days : Z) : DateTime := adjustTime dt days 0.
Definition plusMinutes (dt : DateTime) (minutes : Z) : DateTime :=
  adjustTime dt 0 (minutes * msPerMinute).

(** [a.diff(b, 'minutes').minutes]; [None] is the NaN of an invalid
    duration. *)
Definition diffMinutes (a b : DateTime) : option Q :=
  match a, b with
  | Valid ta _, Valid tb _ => Some (Qmake (ta - tb) 60000)
  | _, _ => None
  end.

End WithHost.
End Luxon.

(** ** src/utils/TimeZoneConverter.ts *)

Module TimeZoneConverter.
Section WithHost.
Context `{Host}.

Definition isValidTimezone (timezone : string) : bool :=
  if String.eqb timezone "" then false
  else
    match Luxon.setZone Luxon.now_ timezone false with
    | Valid _ zoneName => String.eqb zoneName timezone
    | Invalid => false
    end.

Definition convertToUTC (time : DateTime) (timezone : string) : Result DateTime :=
  if negb (isValidTimezone timezone) then
    Throw ("Invalid timezone identifier: " ++ timezone)
  else if negb (Luxon.isValid time) then
    Throw "Invalid DateTime object provided for conversion"
  else
    let timeInZone := Luxon.setZone time timezone true in
    if negb (Luxon.isValid timeInZone) then
      Throw ("Failed to convert time to timezone: " ++ timezone)
    else
      let utcTime := Luxon.toUTC timeInZone in
      if negb (Luxon.isValid utcTime) then Throw "Failed to convert time to UTC"
      else Ok utcTime.

Definition convertFromUTC (time : DateTime) (timezone : string) : Result DateTime :=
  if negb (isValidTimezone timezone) then
    Throw ("Invalid timezone identifier: " ++ timezone)
  else if negb (Luxon.isValid time) then
    Throw "Invalid DateTime object provided for conversion"
  else
    let timeInUTC := Luxon.toUTC time in
    if negb (Luxon.isValid timeInUTC) then Throw "Failed to convert time to UTC"
    else
      let convertedTime := Luxon.setZone timeInUTC timezone false in
      if negb (Luxon.isValid convertedTime) then
        Throw ("Failed to convert time to timezone: " ++ timezone)
      else Ok convertedTime.

Definition getTimezoneOffset (timezone : string) (date : option (option Z)) : Result Z :=
  if negb (isValidTimezone timezone) then
    Throw ("Invalid timezone identifier: " ++ timezone)
  else
    let dt :=
      match date with
      | Some d => Luxon.setZone (Luxon.fromJSDate d) timezone false
      | None => Luxon.setZone Luxon.now_ timezone false
      end in
    match dt with
    | Invalid => Throw ("Failed to get timezone offset for: " ++ timezone)
    | Valid ts zone => Ok (zoneOffset zone ts)
    end.

End WithHost.
End TimeZoneConverter.

(** ** src/types/index.ts

    An optional field is an [option].  The hours of a [WorkingHours] are
    JavaScript numbers, not only integers, each carried as its exact
    value; NaN and the infinities, which every comparison of
    [isValidWorkingHours] rejects, are left out.  A duration in minutes is
    [None] when the field is absent or NaN. *)

Record City := {
  name : string;
  country : string;
  timezone : string;
  coordinates : option (Q * Q)
}.

Module WorkingHours.
Record t := { start : Q; end_ : Q }.
End WorkingHours.

Module TimeRange.
Record t := { start : DateTime; end_ : DateTime }.
End TimeRange.

Module OverlapResult.
Record t := {
  hasOverlap : bool;
  overlapInUTC : option TimeRange.t;
  overlapInCityA : option TimeRange.t;
  overlapInCityB : option TimeRange.t;
  durationMinutes : option Q
}.
End OverlapResult.

Inductive MeetingQuality : Type :=
| PerfectTime
| AcceptableTime
| NotRecommended.

Module MeetingSuggestion.
Record t := {
  timeInCityA : DateTime;
  timeInCityB : DateTime;
  quality : MeetingQuality;
  durationMinutes : option Q
}.
End MeetingSuggestion.

(** ** src/calculators/OverlapCalculator.ts *)

Module OverlapCalculator.
Section WithHost.
Context `{Host}.

Definition defaultWorkingHours : WorkingHours.t :=
  {| WorkingHours.start := 9; WorkingHours.end_ := 18 |}.

Definition isValidWorkingHours (hours : WorkingHours.t) : bool :=
  Qle_bool 0 (WorkingHours.start hours) &&
  Qlt_bool (WorkingHours.start hours) 24 &&
  Qle_bool 0 (WorkingHours.end_ hours) &&
  Qle_bool (WorkingHours.end_ hours) 24 &&
  negb (Qeq_bool (WorkingHours.start hours) (WorkingHours.end_ hours)).

Definition workingHoursToUTC (workingHours : WorkingHours.t) (timezone : string)
    (date : option Z) : Result TimeRange.t :=
  let baseDate :=
    Luxon.startOfDay (Luxon.setZone (Luxon.fromJSDate date) timezone false) in
  let start := Luxon.setHour baseDate (WorkingHours.start workingHours) in
  let end_ := Luxon.setHour baseDate (WorkingHours.end_ workingHours) in
  let end_ :=
    if Qle_bool (WorkingHours.end_ workingHours) (WorkingHours.start workingHours)
    then Luxon.plusDays end_ 1
    else end_ in
  startUTC <- TimeZoneConverter.convertToUTC start timezone ;;
  endUTC <- TimeZoneConverter.convertToUTC end_ timezone ;;
  Ok {| TimeRange.start := startUTC; TimeRange.end_ := endUTC |}.

Definition calculateIntersection (rangeA rangeB : TimeRange.t) : option TimeRange.t :=
  let intersectionStart :=
    if Luxon.gt (TimeRange.start rangeA) (TimeRange.start rangeB)
    then TimeRange.start rangeA else TimeRange.start rangeB in
  let intersectionEnd :=
    if Luxon.lt (TimeRange.end_ rangeA) (TimeRange.end_ rangeB)
    then TimeRange.end_ rangeA else TimeRange.end_ rangeB in
  if Luxon.ge intersectionStart intersectionEnd then None
  else Some {| TimeRange.start := intersectionStart; TimeRange.end_ := intersectionEnd |}.

Definition noOverlap : OverlapResult.t :=
  {| OverlapResult.hasOverlap := false;
     OverlapResult.overlapInUTC := None;
     OverlapResult.overlapInCityA := None;
     OverlapResult.overlapInCityB := None;
     OverlapResult.durationMinutes := None |}.

(** The body of the [try] block. *)
Definition tryCalculate (cityA cityB : City) (workingHoursA workingHoursB : WorkingHours.t)
    (date : option Z) : Result OverlapResult.t :=
  rangeA <- workingHoursToUTC workingHoursA (timezone cityA) date ;;
  rangeB <- workingHoursToUTC workingHoursB (timezone cityB) date ;;
  match calculateIntersection rangeA rangeB with
  | None => Ok noOverlap
  | Some intersection =>
    startA <- TimeZoneConverter.convertFromUTC (TimeRange.start intersection) (timezone cityA) ;;
    endA <- TimeZoneConverter.convertFromUTC (TimeRange.end_ intersection) (timezone cityA) ;;
    startB <- TimeZoneConverter.convertFromUTC (TimeRange.start intersection) (timezone cityB) ;;
    endB <- TimeZoneConverter.convertFromUTC (TimeRange.end_ intersection) (timezone cityB) ;;
    let durationMinutes :=
      Luxon.diffMinutes (TimeRange.end_ intersection) (TimeRange.start intersection) in
    Ok {| OverlapResult.hasOverlap := true;
          OverlapResult.overlapInUTC := Some intersection;
          OverlapResult.overlapInCityA :=
            Some {| TimeRange.start := startA; TimeRange.end_ := endA |};
          OverlapResult.overlapInCityB :=
            Some {| TimeRange.start := startB; TimeRange.end_ := endB |};
          OverlapResult.durationMinutes := durationMinutes |}
  end.

Definition calculationFailed : string :=
  "Failed to calculate overlap. Please check your inputs and try again.".

(** The [catch] clause: what is thrown in place of the caught error. *)
Definition rethrow (message : string) : string :=
  if includes "timezone" message then message else calculationFailed.

(** An omitted argument ([None]) takes the parameter's default. *)
Definition calculateOverlap (cityA cityB : City)
    (workingHoursA workingHoursB : option WorkingHours.t)
    (date : option (option Z)) : Result OverlapResult.t :=
  let workingHoursA := match workingHoursA with Some h => h | None => defaultWorkingHours end in
  let workingHoursB := match workingHoursB with Some h => h | None => defaultWorkingHours end in
  let date := match date with Some d => d | None => Some now end in
  if String.eqb (timezone cityA) "" then
    Throw "Invalid city A: Missing timezone information"
  else if String.eqb (timezone cityB) "" then
    Throw "Invalid city B: Missing timezone information"
  else if negb (TimeZoneConverter.isValidTimezone (timezone cityA)) then
    Throw ("Unable to determine timezone for " ++ name cityA ++ ". Please try another city.")
  else if negb (TimeZoneConverter.isValidTimezone (timezone cityB)) then
    Throw ("Unable to determine timezone for " ++ name cityB ++ ". Please try another city.")
  else if negb (isValidWorkingHours workingHoursA) then
    Throw "Invalid working hours for City A"
  else if negb (isValidWorkingHours workingHoursB) then
    Throw "Invalid working hours for City B"
  else
    match tryCalculate cityA cityB workingHoursA workingHoursB date with
    | Ok result => Ok result
    | Throw message => Throw (rethrow message)
    end.

End WithHost.
End OverlapCalculator.

(** ** src/calculators/MeetingSuggester.ts *)

Module MeetingSuggester.
Section WithHost.
Context `{Host}.

Definition MeetingQuality_eqb (a b : MeetingQuality) : bool :=
  match a, b with
  | PerfectTime, PerfectTime => true
  | AcceptableTime, AcceptableTime => true
  | NotRecommended, NotRecommended => true
  | _, _ => false
  end.

(** [array.indexOf(x)] *)
Fixpoint indexOf (x : MeetingQuality) (array : list MeetingQuality) : Z :=
  match array with
  | [] => -1
  | y :: rest =>
    if MeetingQuality_eqb y x then 0
    else let i := indexOf x rest in if i <? 0 then -1 else i + 1
  end.

Definition qualityOrder : list MeetingQuality :=
  [PerfectTime; AcceptableTime; NotRecommended].

(** [qualityOrder[i]]; the index is always within the array
    ([combineQualities_in_range]), so the last argument is never used. *)
Definition combineQualities (qualityA qualityB : MeetingQuality) : MeetingQuality :=
  let indexA := indexOf qualityA qualityOrder in
  let indexB := indexOf qualityB qualityOrder in
  nth (Z.to_nat (Z.max indexA indexB)) qualityOrder NotRecommended.

(** Every operation is the one of JavaScript numbers, rounded to double
    precision.  When the rendered time is invalid, [hour] and [minute] are
    NaN, every comparison below is false and control reaches the last
    [return]. *)
Definition categorizeMeetingTime (time : DateTime) (workingHours : WorkingHours.t)
    (timezone : string) : MeetingQuality :=
  let localTime := Luxon.setZone time timezone false in
  let hour := Number.ofField (Luxon.hour localTime) in
  let minute := Number.ofField (Luxon.minute localTime) in
  let timeInMinutes := Number.add (Number.mul hour (Number.Finite 60)) minute in
  let startMinutes :=
    Number.mul (Number.Finite (WorkingHours.start workingHours)) (Number.Finite 60) in
  let endMinutes :=
    Number.mul (Number.Finite (WorkingHours.end_ workingHours)) (Number.Finite 60) in
  let totalMinutes := Number.sub endMinutes startMinutes in
  if Number.lt timeInMinutes startMinutes || Number.ge timeInMinutes endMinutes then
    NotRecommended
  else
    let positionInDay := Number.div (Number.sub timeInMinutes startMinutes) totalMinutes in
    if Number.ge positionInDay (Number.div (Number.Finite 1) (Number.Finite 3))
       && Number.lt positionInDay (Number.div (Number.Finite 2) (Number.Finite 3))
    then PerfectTime
    else AcceptableTime.

(** [Math.min(x, 60)] where [x] may be NaN. *)
Definition mathMin (x : option Q) (y : Q) : option Q :=
  match x with
  | Some x => Some (Qmin x y)
  | None => None
  end.

Definition intervalMinutes : Z := 30.

(** What is left of the window, the measure that the loop decreases. *)
Definition millisLeft (current end_ : DateTime) : nat :=
  match current, end_ with
  | Valid tc _, Valid te _ => Z.to_nat (te - tc)
  | _, _ => 0%nat
  end.

Lemma fixOffset_id (zone : string) (ts : Z) :
  Luxon.fixOffset (Luxon.localTS zone ts) (zoneOffset zone ts) zone
  = (ts, zoneOffset zone ts).
Proof.
  unfold Luxon.fixOffset, Luxon.localTS, Luxon.msPerMinute.
  replace (ts + zoneOffset zone ts * (60 * 1000) - zoneOffset zone ts * 60 * 1000)
    with ts by lia.
  now rewrite Z.eqb_refl.
Qed.

Lemma plusMinutes_valid (ts : Z) (zone : string) (minutes : Z) :
  Luxon.plusMinutes (Valid ts zone) minutes
  = Valid (ts + minutes * Luxon.msPerMinute) zone.
Proof.
  unfold Luxon.plusMinutes, Luxon.adjustTime.
  replace (Luxon.localTS zone ts + 0 * Luxon.msPerDay) with (Luxon.localTS zone ts) by lia.
  rewrite fixOffset_id. cbn [fst].
  destruct (Z.eqb_spec (minutes * Luxon.msPerMinute) 0) as [E | E]; [rewrite E |]; f_equal; lia.
Qed.

Lemma millisLeft_decreases (current end_ : DateTime) :
  Luxon.lt current end_ = true ->
  (millisLeft (Luxon.plusMinutes current intervalMinutes) end_ < millisLeft current end_)%nat.
Proof.
  destruct current as [tc zc |], end_ as [te ze |]; try discriminate.
  unfold Luxon.lt; cbn [Luxon.valueOf]. intros Hlt. apply Z.ltb_lt in Hlt.
  rewrite plusMinutes_valid. cbn [millisLeft].
  unfold Luxon.msPerMinute, intervalMinutes. lia.
Qed.

Definition inspect {A} (a : A) : {b : A | a = b} := exist _ a eq_refl.

(** The [while] loop of [generateSuggestions]; [window] is
    [overlap.overlapInCityA]. *)
Equations? suggestLoop (window : TimeRange.t) (cityA cityB : City)
    (workingHoursA workingHoursB : WorkingHours.t)
    (currentTimeA currentTimeB : DateTime) : list MeetingSuggestion.t
    by wf (millisLeft currentTimeA (TimeRange.end_ window)) Nat.lt :=
  suggestLoop window cityA cityB workingHoursA workingHoursB currentTimeA currentTimeB
    with inspect (Luxon.lt currentTimeA (TimeRange.end_ window)) := {
    | exist _ true _ =>
      let qualityA := categorizeMeetingTime currentTimeA workingHoursA (timezone cityA) in
      let qualityB := categorizeMeetingTime currentTimeB workingHoursB (timezone cityB) in
      let quality := combineQualities qualityA qualityB in
      let remainingDuration := Luxon.diffMinutes (TimeRange.end_ window) currentTimeA in
      let durationMinutes := mathMin remainingDuration 60 in
      {| MeetingSuggestion.timeInCityA := currentTimeA;
         MeetingSuggestion.timeInCityB := currentTimeB;
         MeetingSuggestion.quality := quality;
         MeetingSuggestion.durationMinutes := durationMinutes |}
      :: suggestLoop window cityA cityB workingHoursA workingHoursB
           (Luxon.plusMinutes currentTimeA intervalMinutes)
           (Luxon.plusMinutes currentTimeB intervalMinutes) ;
    | exist _ false _ => [] }.
Proof.
  now apply millisLeft_decreases.
Qed.

Definition generateSuggestions (overlap : OverlapResult.t) (cityA cityB : City)
    (workingHoursA workingHoursB : WorkingHours.t) : list MeetingSuggestion.t :=
  match OverlapResult.hasOverlap overlap,
        OverlapResult.overlapInCityA overlap,
        OverlapResult.overlapInCityB overlap with
  | true, Some overlapInCityA, Some overlapInCityB =>
    suggestLoop overlapInCityA cityA cityB workingHoursA workingHoursB
      (TimeRange.start overlapInCityA) (TimeRange.start overlapInCityB)
  | _, _, _ => []
  end.

(** [number > number], false when either side is NaN. *)
Definition numberGt (x y : option Q) : bool :=
  match x, y with
  | Some x, Some y => Qlt_bool y x
  | _, _ => false
  end.

(** [suggestions.reduce(f)] without an initial value starts from the first
    element. *)
Definition findLargestOverlap (suggestions : list MeetingSuggestion.t)
    : option MeetingSuggestion.t :=
  match suggestions with
  | [] => None
  | first :: rest =>
    Some (fold_left
            (fun largest current =>
               if numberGt (MeetingSuggestion.durationMinutes current)
                           (MeetingSuggestion.durationMinutes largest)
               then current else largest)
            rest first)
  end.

End WithHost.
End MeetingSuggester.

(** ** A host for the examples

    Zone rules as they are in force during 2024: New York and London with
    their two transitions of that year, Tokyo and Kolkata without any, and
    UTC.  Every other specifier is rejected. *)

Definition knownZones : list string :=
  ["UTC"; "America/New_York"; "Europe/London"; "Asia/Tokyo"; "Asia/Kolkata"]%string.

Definition offset2024 (zone : string) (ts : Z) : Z :=
  if String.eqb zone "America/New_York" then
    if (1710054000000 <=? ts) && (ts <? 1730613600000) then -240 else -300
  else if String.eqb zone "Europe/London" then
    if (1711846800000 <=? ts) && (ts <? 1729990800000) then 60 else 0
  else if String.eqb zone "Asia/Tokyo" then 540
  else if String.eqb zone "Asia/Kolkata" then 330
  else 0.

Definition host2024 : Host := {|
  normalizeZone := fun zone => if existsb (String.eqb zone) knownZones then Some zone else None;
  zoneOffset := offset2024;
  systemZone := "UTC";
  now := 1718452800000
|}.

Definition cityOf (cityName zone : string) : City :=
  {| name := cityName; country := ""; timezone := zone; coordinates := None |}.

Definition newYork : City := cityOf "New York" "America/New_York".
Definition london : City := cityOf "London" "Europe/London".
Definition tokyo : City := cityOf "Tokyo" "Asia/Tokyo".

Definition hours (start end_ : Q) : WorkingHours.t :=
  {| WorkingHours.start := start; WorkingHours.end_ := end_ |}.

Definition range (start end_ : DateTime) : TimeRange.t :=
  {| TimeRange.start := start; TimeRange.end_ := end_ |}.

(** 2024-06-15T12:00:00Z *)
Definition noon20240615 : Z := 1718452800000.

(** 2024-01-15T14:00:00Z, which is 09:00 in New York, and 45 minutes later. *)
Definition nine20240115 : Z := 1705327200000.
Definition nineFortyFive20240115 : Z := 1705329900000.

(** 2024-01-15T18:30:00Z, which is 13:30 in New York. *)
Definition halfPastOne20240115 : Z := 1705343400000.

(** 2024-03-10T17:00:00Z, 13:00 in New York on the day daylight-saving
    time starts there (at 07:00Z). *)
Definition marchTenth2024 : Z := 1710090000000.

(** 2024-01-15T13:54:00Z and 05:06:00Z: 08:54 and 00:06 in New York. *)
Definition sixToNine20240115 : Z := 1705326840000.
Definition sixPastMidnight20240115 : Z := 1705295160000.

(** ** Specification vocabulary *)

(** The result object of an overlap from instant [s] to instant [e]. *)
Definition overlapOf (zoneA zoneB : string) (s e : Z) : OverlapResult.t :=
  {| OverlapResult.hasOverlap := true;
     OverlapResult.overlapInUTC := Some (range (Valid s "UTC") (Valid e "UTC"));
     OverlapResult.overlapInCityA := Some (range (Valid s zoneA) (Valid e zoneA));
     OverlapResult.overlapInCityB := Some (range (Valid s zoneB) (Valid e zoneB));
     OverlapResult.durationMinutes := Some (Qmake (e - s) 60000) |}.

Definition isInteger (x : Q) : bool := Qeq_bool x (inject_Z (Qfloor x)).

(** The malformed-range rule in the words of the specification: a bound
    that is not an integer or lies outside [0,23], or equal bounds. *)
Definition malformedPerSpec (h : WorkingHours.t) : bool :=
  let inRange x := isInteger x && Qle_bool 0 x && Qle_bool x 23 in
  negb (inRange (WorkingHours.start h) && inRange (WorkingHours.end_ h))
  || Qeq_bool (WorkingHours.start h) (WorkingHours.end_ h).

(** What the code accepts. *)
Definition acceptedHours (h : WorkingHours.t) : Prop :=
  (0 <= WorkingHours.start h)%Q /\ (WorkingHours.start h < 24)%Q /\
  (0 <= WorkingHours.end_ h)%Q /\ (WorkingHours.end_ h <= 24)%Q /\
  ~ (WorkingHours.start h == WorkingHours.end_ h)%Q.

(** The pass-through rule of the [catch] clause in the words of the
    specification. *)
Definition passedThroughPerSpec (message : string) : bool :=
  includes "timezone" message || includes "invalid" message.

(** The length of the civil window in minutes. *)
Definition civilSpanMinutes (wh : WorkingHours.t) : Z :=
  (toInteger (WorkingHours.end_ wh) - toInteger (WorkingHours.start wh)
   + (if Qle_bool (WorkingHours.end_ wh) (WorkingHours.start wh) then 24 else 0)) * 60.

(** A 45-minute overlap between New York and London. *)
Definition overlap45 : OverlapResult.t :=
  overlapOf "America/New_York" "Europe/London" nine20240115 nineFortyFive20240115.

Definition suggestionOf (minutes : Q) : MeetingSuggestion.t :=
  {| MeetingSuggestion.timeInCityA := Valid noon20240615 "UTC";
     MeetingSuggestion.timeInCityB := Valid noon20240615 "UTC";
     MeetingSuggestion.quality := PerfectTime;
     MeetingSuggestion.durationMinutes := Some minutes |}.

(** The number of 30-minute steps that start before the end of a window
    from [sA] to [eA]. *)
Definition slotCount (sA eA : Z) : nat :=
  Z.to_nat ((eA - sA + (30 * 60000 - 1)) / (30 * 60000)).

(** *** Double-precision arithmetic

    [categorizeMeetingTime] computes with JavaScript doubles.  On integer
    hours every operand is an integer far below 2^53, so sums, products
    and comparisons are exact and the one rounded operation is the
    division that yields the position; [positionTest64] is that test as
    [categorizeMeetingTime] makes it, [positionTestFloat] the same test on
    the machine's binary64 numbers, [positionTestExact] the same test in the
    rationals. *)

Definition positionTest64 (n d : Z) : bool :=
  let positionInDay :=
    Number.div (Number.Finite (inject_Z n)) (Number.Finite (inject_Z d)) in
  Number.ge positionInDay (Number.div (Number.Finite 1) (Number.Finite 3))
  && Number.lt positionInDay (Number.div (Number.Finite 2) (Number.Finite 3)).

Definition floatOfZ (z : Z) : PrimFloat.float := PrimFloat.of_uint63 (Uint63.of_Z z).

(** The exact value of a machine number; [None] for NaN and the
    infinities. *)
Definition QofFloat (f : PrimFloat.float) : option Q :=
  match FloatOps.Prim2SF f with
  | SpecFloat.S754_zero _ => Some 0%Q
  | SpecFloat.S754_finite negative m e =>
    let magnitude := (inject_Z (Zpos m) * 2 ^ e)%Q in
    Some (Qred (if negative then - magnitude else magnitude))
  | _ => None
  end.

(** The value of a number of the model, [None] likewise. *)
Definition QofNumber (a : Number.t) : option Q :=
  match a with
  | Number.Finite x => Some x
  | _ => None
  end.

(** The arithmetic of [categorizeMeetingTime] on the machine's numbers,
    at minute [timeInMinutes] of the day, to compare the model with. *)
Definition categorizeOnMachine (timeInMinutes : Z) (start end_ : PrimFloat.float)
    : MeetingQuality :=
  let timeInMinutes := floatOfZ timeInMinutes in
  let startMinutes := PrimFloat.mul start (floatOfZ 60) in
  let endMinutes := PrimFloat.mul end_ (floatOfZ 60) in
  let totalMinutes := PrimFloat.sub endMinutes startMinutes in
  if PrimFloat.ltb timeInMinutes startMinutes || PrimFloat.leb endMinutes timeInMinutes then
    NotRecommended
  else
    let positionInDay :=
      PrimFloat.div (PrimFloat.sub timeInMinutes startMinutes) totalMinutes in
    if PrimFloat.leb (PrimFloat.div (floatOfZ 1) (floatOfZ 3)) positionInDay
       && PrimFloat.ltb positionInDay (PrimFloat.div (floatOfZ 2) (floatOfZ 3))
    then PerfectTime
    else AcceptableTime.

(** The decimal literal [k / 10] as JavaScript reads it, on the machine
    and in the model. *)
Definition tenthsFloat (k : Z) : PrimFloat.float := PrimFloat.div (floatOfZ k) (floatOfZ 10).
Definition tenths (k : Z) : Q := Binary64.round (k # 10).

Definition positionTestFloat (n d : Z) : bool :=
  let positionInDay := PrimFloat.div (floatOfZ n) (floatOfZ d) in
  PrimFloat.leb (PrimFloat.div (floatOfZ 1) (floatOfZ 3)) positionInDay
  && PrimFloat.ltb positionInDay (PrimFloat.div (floatOfZ 2) (floatOfZ 3)).

Definition positionTestExact (n d : Z) : bool :=
  let positionInDay := (inject_Z n / inject_Z d)%Q in
  Qle_bool (1 # 3) positionInDay && Qlt_bool positionInDay (2 # 3).

(** [p i] for every [i] below [n]. *)
Fixpoint allBelow (n : nat) (p : nat -> bool) : bool :=
  match n with
  | O => true
  | S m => p m && allBelow m p
  end.

Definition positionTestsAgree (k n : nat) : bool :=
  Bool.eqb (positionTestFloat (Z.of_nat n) (60 * Z.of_nat k))
           (positionTestExact (Z.of_nat n) (60 * Z.of_nat k)).

Definition positionTest64Exact (k n : nat) : bool :=
  Bool.eqb (positionTest64 (Z.of_nat n) (60 * Z.of_nat k))
           (positionTestExact (Z.of_nat n) (60 * Z.of_nat k)).

Definition Q_eqb (x y : Q) : bool :=
  Z.eqb (Qnum x) (Qnum y) && Pos.eqb (Qden x) (Qden y).

Definition optionQ_eqb (x y : option Q) : bool :=
  match x, y with
  | Some x, Some y => Q_eqb x y
  | None, None => true
  | _, _ => false
  end.

(** On [k] tenths of an hour: the literal, its product by 60, and the
    quotient of [k] by twice a number of minutes, on the machine and in
    the model. *)
Definition machineAgrees (k : nat) : bool :=
  let z := Z.of_nat k in
  optionQ_eqb (QofFloat (tenthsFloat z)) (Some (tenths z))
  && optionQ_eqb (QofFloat (PrimFloat.mul (tenthsFloat z) (floatOfZ 60)))
       (QofNumber (Number.mul (Number.Finite (tenths z)) (Number.Finite 60)))
  && optionQ_eqb (QofFloat (PrimFloat.div (floatOfZ z) (floatOfZ 480)))
       (QofNumber (Number.div (Number.Finite (inject_Z z)) (Number.Finite 480))).

Section SpecificationWithHost.
Context `{Host}.

(** The suggestion emitted when the walk stands at [tA] on the A side and
    at [tB] on the B side of a window that ends at [eA]. *)
Definition slotAt (cityA cityB : City) (hA hB : WorkingHours.t) (eA : Z) (zA zB : string)
    (tA tB : Z) : MeetingSuggestion.t :=
  {| MeetingSuggestion.timeInCityA := Valid tA zA;
     MeetingSuggestion.timeInCityB := Valid tB zB;
     MeetingSuggestion.quality :=
       MeetingSuggester.combineQualities
         (MeetingSuggester.categorizeMeetingTime (Valid tA zA) hA (timezone cityA))
         (MeetingSuggester.categorizeMeetingTime (Valid tB zB) hB (timezone cityB));
     MeetingSuggestion.durationMinutes := Some (Qmin (Qmake (eA - tA) 60000) 60) |}.

End SpecificationWithHost.

(** ** src/utils/TimeZoneConverter.ts, [getCurrentTime] *)

Section CurrentTime.
Context `{Host}.

Definition getCurrentTime (timezone : string) : Result DateTime :=
  if negb (TimeZoneConverter.isValidTimezone timezone) then
    Throw ("Invalid timezone identifier: " ++ timezone)
  else
    let dt := Luxon.setZone Luxon.now_ timezone false in
    if negb (Luxon.isValid dt) then
      Throw ("Unable to get current time for timezone: " ++ timezone)
    else Ok dt.

End CurrentTime.

(** Everything [calculateOverlap] can throw. *)
Definition calculatorMessages (cityA cityB : City) : list string :=
  [ "Invalid city A: Missing timezone information";
    "Invalid city B: Missing timezone information";
    "Unable to determine timezone for " ++ name cityA ++ ". Please try another city.";
    "Unable to determine timezone for " ++ name cityB ++ ". Please try another city.";
    "Invalid working hours for City A";
    "Invalid working hours for City B";
    "Failed to calculate overlap. Please check your inputs and try again." ]%string.

(** An overlap result seen from the other city. *)
Definition swapCities (r : OverlapResult.t) : OverlapResult.t :=
  {| OverlapResult.hasOverlap := OverlapResult.hasOverlap r;
     OverlapResult.overlapInUTC := OverlapResult.overlapInUTC r;
     OverlapResult.overlapInCityA := OverlapResult.overlapInCityB r;
     OverlapResult.overlapInCityB := OverlapResult.overlapInCityA r;
     OverlapResult.durationMinutes := OverlapResult.durationMinutes r |}.

(** ** src/App.tsx: the effect that recalculates the overlap *)

Module App.

(** What the effect writes: the error banner, the loading flag, and the
    [overlap] and [suggestions] fields of the state. *)
Record View : Type := {
  error : option string;
  loading : bool;
  overlap : option OverlapResult.t;
  suggestions : list MeetingSuggestion.t
}.

Section WithHost.
Context `{Host}.

Definition validateWorkingHours (hours : WorkingHours.t) : bool :=
  Qlt_bool (WorkingHours.start hours) (WorkingHours.end_ hours).

Definition genericMessage : string :=
  "An error occurred while calculating overlap. Please try again.".

(** The [catch] block: a message is shown as it is when it reads as
    user-friendly. *)
Definition errorMessage (message : string) : string :=
  if includes "timezone" message
     || includes "Unable to determine" message
     || includes "Invalid" message
  then message
  else genericMessage.

(** One run of the effect.  A city not yet selected is [None]; the
    selected date is a [Date], [None] when it is an Invalid Date. *)
Definition recalculate (cityA cityB : option City)
    (workingHoursA workingHoursB : WorkingHours.t) (selectedDate : option Z)
    (prev : View) : View :=
  match cityA, cityB with
  | Some cityA, Some cityB =>
    if negb (validateWorkingHours workingHoursA) then
      {| error := Some "Invalid working hours for City A: End time must be after start time"%string;
         loading := loading prev; overlap := None; suggestions := [] |}
    else if negb (validateWorkingHours workingHoursB) then
      {| error := Some "Invalid working hours for City B: End time must be after start time"%string;
         loading := loading prev; overlap := None; suggestions := [] |}
    else
      match OverlapCalculator.calculateOverlap cityA cityB
              (Some workingHoursA) (Some workingHoursB) (Some selectedDate) with
      | Ok overlapResult =>
        {| error := None; loading := false; overlap := Some overlapResult;
           suggestions :=
             if OverlapResult.hasOverlap overlapResult
             then MeetingSuggester.generateSuggestions overlapResult cityA cityB
                    workingHoursA workingHoursB
             else [] |}
      | Throw message =>
        {| error := Some (errorMessage message); loading := false;
           overlap := None; suggestions := [] |}
      end
  | _, _ =>
    {| error := error prev; loading := loading prev; overlap := None; suggestions := [] |}
  end.

End WithHost.
End App.

(** Every message the effect can put in the error banner. *)
Definition displayedMessages (cityA cityB : City) : list string :=
  [ "Invalid working hours for City A: End time must be after start time";
    "Invalid working hours for City B: End time must be after start time";
    "Invalid city A: Missing timezone information";
    "Invalid city B: Missing timezone information";
    "Unable to determine timezone for " ++ name cityA ++ ". Please try another city.";
    "Unable to determine timezone for " ++ name cityB ++ ". Please try another city.";
    "Invalid working hours for City A";
    "Invalid working hours for City B";
    App.genericMessage ]%string.

(** Hours the effect lets through to a result: inside the day and in
    order. *)
Definition shownHours (h : WorkingHours.t) : Prop :=
  (0 <= WorkingHours.start h)%Q /\
  (WorkingHours.start h < WorkingHours.end_ h)%Q /\
  (WorkingHours.end_ h <= 24)%Q.

(** ** CityDatabase.ts: the fuzzy score *)

Module CityDatabase.

(** A string is its sequence of UTF-16 code units.  The loop keeps two
    indices; here each index is the suffix still to be read. *)
Fixpoint fuzzyLoop (str pattern : list Z) (matches : nat) : nat :=
  match str, pattern with
  | c :: str', p :: pattern' =>
    if Z.eqb c p then fuzzyLoop str' pattern' (S matches)
    else fuzzyLoop str' pattern matches
  | _, _ => matches
  end.

(** The quotient of two lengths is exact here; in double precision it is
    the nearest number, which is 1 only for equal lengths. *)
Definition fuzzyMatch (str pattern : list Z) : Q :=
  if Nat.eqb (List.length pattern) 0 then 0
  else if Nat.eqb (List.length str) 0 then 0
  else Qmake (Z.of_nat (fuzzyLoop str pattern 0)) (Pos.of_nat (List.length pattern)).

End CityDatabase.

(** [p] can be read in [l] from left to right, skipping code units. *)
Inductive Subsequence : list Z -> list Z -> Prop :=
| Subsequence_nil l : Subsequence [] l
| Subsequence_skip p c l : Subsequence p l -> Subsequence p (c :: l)
| Subsequence_take c p l : Subsequence p l -> Subsequence (c :: p) (c :: l).

(** *** Offset changes

    [oneChange zone lo hi T c1 c2]: from the instant [lo] to the instant
    [hi] the zone observes the offset [c1] before the instant [T] and the
    offset [c2] from [T] on.  That is at most one change; there is none
    when [c1 = c2] or [T] lies outside. *)

Section OffsetChanges.
Context `{Host}.

Definition oneChange (zone : string) (lo hi T c1 c2 : Z) : Prop :=
  forall t, lo <= t <= hi -> zoneOffset zone t = if t <? T then c1 else c2.

End OffsetChanges.

(** A wall-clock time, as a local timestamp, that the change skips: the
    clocks jump from [T + c1] to [T + c2] (for instance from 02:00 to
    03:00 when daylight-saving time starts), and no instant shows a wall
    clock in between. *)
Definition skipped (T c1 c2 local : Z) : bool :=
  (T + c1 * Luxon.msPerMinute <=? local) && (local <? T + c2 * Luxon.msPerMinute).

(** The wall clock Luxon lands on when asked for [local]: a skipped one
    moves forward by the size of the change. *)
Definition landing (T c1 c2 local : Z) : Z :=
  if skipped T c1 c2 local then local + (c2 - c1) * Luxon.msPerMinute else local.

(** [text] occurs in [message]. *)
Definition occursIn (text message : string) : Prop :=
  exists before after, message = (before ++ text ++ after)%string.

(** The largest time value of a JavaScript [Date], and the dates that lie
    at least three days inside the range: on these no intermediate
    wall-clock value of the calculation leaves the range. *)
Definition timeValueLimit : Z := 8640000000000000.

Definition insideTimeValues (ts : Z) : Prop :=
  - timeValueLimit + 3 * Luxon.msPerDay <= ts <= timeValueLimit - 3 * Luxon.msPerDay.

(** The exponent of the unit in the last place of a positive number. *)
Definition exponentOf (x : Q) : Z := Z.max (Binary64.floorLog2 x - 52) (-1074).

(** * Properties *)

(** ** Rounding to double precision *)

Section Binary64Facts.

Lemma pow2_pos (e : Z) : (0 < 2 ^ e)%Q.
Proof. now apply Qpower_0_lt. Qed.

Lemma pow2_succ (e : Z) : (2 ^ (e + 1) == 2 * 2 ^ e)%Q.
Proof. rewrite Qpower_plus by discriminate. change (2 ^ 1)%Q with 2%Q. ring. Qed.

Lemma pow2_le (e1 e2 : Z) : e1 <= e2 -> (2 ^ e1 <= 2 ^ e2)%Q.
Proof. intros Hle. apply Qpower_le_compat_l; [exact Hle | discriminate]. Qed.

Lemma pow2_lt_inv (e1 e2 : Z) : (2 ^ e1 < 2 ^ e2)%Q -> e1 < e2.
Proof. intros Hlt. apply (Qpower_lt_compat_l_inv 2); [exact Hlt | reflexivity]. Qed.

Lemma pow2_minus (a b : Z) : (2 ^ (a - b) == 2 ^ a / 2 ^ b)%Q.
Proof. apply Qpower_minus. discriminate. Qed.

Lemma Z_log2_Q (n : Z) :
  0 < n -> (2 ^ Z.log2 n <= inject_Z n)%Q /\ (inject_Z n < 2 * 2 ^ Z.log2 n)%Q.
Proof.
  intros Hn. destruct (Z.log2_spec n Hn) as [Hlo Hhi].
  pose proof (Z.log2_nonneg n) as H0.
  assert (E : (2 ^ Z.log2 n == inject_Z (2 ^ Z.log2 n))%Q)
    by (rewrite Zpower_Qpower by exact H0; reflexivity).
  rewrite E. split.
  - now rewrite <- Zle_Qle.
  - change 2%Q with (inject_Z 2). rewrite <- inject_Z_mult, <- Zlt_Qlt.
    replace (Z.succ (Z.log2 n)) with (Z.log2 n + 1) in Hhi by lia.
    rewrite Z.pow_add_r in Hhi by lia. lia.
Qed.

Lemma floorLog2_spec (x : Q) :
  (0 < x)%Q ->
  (2 ^ Binary64.floorLog2 x <= x)%Q /\ (x < 2 ^ (Binary64.floorLog2 x + 1))%Q.
Proof.
  intros Hx. unfold Binary64.floorLog2.
  set (k := Z.log2 (Qnum x) - Z.log2 (Z.pos (Qden x))).
  assert (Hn : 0 < Qnum x) by (destruct x as [n d]; unfold Qlt in Hx; cbn in *; lia).
  destruct (Z_log2_Q (Qnum x) Hn) as [An An'].
  destruct (Z_log2_Q (Z.pos (Qden x)) eq_refl) as [Pd Pd'].
  assert (Ex : (x * inject_Z (Z.pos (Qden x)) == inject_Z (Qnum x))%Q).
  { destruct x as [n d]. unfold Qeq, Qmult, inject_Z. cbn. lia. }
  pose proof (pow2_pos (Z.log2 (Qnum x))) as HA.
  pose proof (pow2_pos (Z.log2 (Z.pos (Qden x)))) as HP.
  assert (Ek : (2 ^ k * 2 ^ Z.log2 (Z.pos (Qden x)) == 2 ^ Z.log2 (Qnum x))%Q).
  { subst k. rewrite pow2_minus. field. intros E. rewrite E in HP. discriminate. }
  set (A := (2 ^ Z.log2 (Qnum x))%Q) in *.
  set (P := (2 ^ Z.log2 (Z.pos (Qden x)))%Q) in *.
  set (dq := inject_Z (Z.pos (Qden x))) in *.
  set (nq := inject_Z (Qnum x)) in *.
  pose proof (pow2_pos k) as HK.
  assert (Hlow : (2 ^ (k - 1) <= x)%Q).
  { assert (E2 : (2 * 2 ^ (k - 1) == 2 ^ k)%Q)
      by (rewrite <- pow2_succ; now replace (k - 1 + 1) with k by lia).
    pose proof (pow2_pos (k - 1)) as HK1.
    set (K1 := (2 ^ (k - 1))%Q) in *. set (K := (2 ^ k)%Q) in *.
    clearbody A P dq nq K K1. nra. }
  assert (Hhigh : (x < 2 ^ (k + 1))%Q).
  { rewrite pow2_succ. set (K := (2 ^ k)%Q) in *. clearbody A P dq nq K. nra. }
  destruct (Qle_bool (2 ^ k) x) eqn:E.
  - apply Qle_bool_iff in E. split; assumption.
  - replace (k - 1 + 1) with k by lia. split; [exact Hlow |].
    apply Qnot_le_lt. intros Hle. apply Qle_bool_iff in Hle. congruence.
Qed.

Lemma floorLog2_unique (x : Q) (k : Z) :
  (2 ^ k <= x)%Q -> (x < 2 ^ (k + 1))%Q -> Binary64.floorLog2 x = k.
Proof.
  intros Hlo Hhi.
  assert (Hx : (0 < x)%Q) by (eapply Qlt_le_trans; [apply (pow2_pos k) | exact Hlo]).
  destruct (floorLog2_spec x Hx) as [Slo Shi].
  assert (Binary64.floorLog2 x < k + 1)
    by (apply pow2_lt_inv; eapply Qle_lt_trans; eassumption).
  assert (k < Binary64.floorLog2 x + 1)
    by (apply pow2_lt_inv; eapply Qle_lt_trans; eassumption).
  lia.
Qed.

Lemma floorLog2_comp (x y : Q) : (0 < x)%Q -> (x == y)%Q ->
  Binary64.floorLog2 x = Binary64.floorLog2 y.
Proof.
  intros Hx E. destruct (floorLog2_spec x Hx) as [Slo Shi].
  symmetry. apply floorLog2_unique; now rewrite <- E.
Qed.

Lemma floorLog2_mono (x y : Q) : (0 < x)%Q -> (x <= y)%Q ->
  Binary64.floorLog2 x <= Binary64.floorLog2 y.
Proof.
  intros Hx Hle.
  assert (Hy : (0 < y)%Q) by (eapply Qlt_le_trans; eassumption).
  destruct (floorLog2_spec x Hx) as [Slo _]. destruct (floorLog2_spec y Hy) as [_ Shi].
  assert (Binary64.floorLog2 x < Binary64.floorLog2 y + 1); [| lia].
  apply pow2_lt_inv. eapply Qle_lt_trans; [exact Slo |]. eapply Qle_lt_trans; eassumption.
Qed.


Lemma roundHalfEven_bounds (x : Q) :
  Qfloor x <= Binary64.roundHalfEven x <= Qfloor x + 1.
Proof.
  unfold Binary64.roundHalfEven.
  destruct (x - inject_Z (Qfloor x) ?= 1 # 2)%Q; [destruct (Z.even (Qfloor x)) | |]; lia.
Qed.

Lemma roundHalfEven_comp (x y : Q) :
  (x == y)%Q -> Binary64.roundHalfEven x = Binary64.roundHalfEven y.
Proof.
  intros E. unfold Binary64.roundHalfEven.
  rewrite (Qfloor_comp _ _ E).
  assert (E' : (x - inject_Z (Qfloor y) == y - inject_Z (Qfloor y))%Q) by now rewrite E.
  now rewrite (Qcompare_comp _ _ E' _ _ (Qeq_refl (1 # 2))).
Qed.

Lemma roundHalfEven_integer (z : Z) : Binary64.roundHalfEven (inject_Z z) = z.
Proof.
  unfold Binary64.roundHalfEven. rewrite Qfloor_Z.
  assert (E : (inject_Z z - inject_Z z == 0)%Q) by ring.
  now rewrite (Qcompare_comp _ _ E _ _ (Qeq_refl (1 # 2))).
Qed.

Lemma roundHalfEven_mono (x y : Q) :
  (x <= y)%Q -> Binary64.roundHalfEven x <= Binary64.roundHalfEven y.
Proof.
  intros Hle. pose proof (Qfloor_resp_le _ _ Hle) as Hf.
  pose proof (roundHalfEven_bounds x) as Bx. pose proof (roundHalfEven_bounds y) as By.
  destruct (Z.eq_dec (Qfloor x) (Qfloor y)) as [E | Hne]; [| lia].
  unfold Binary64.roundHalfEven. rewrite E.
  destruct (Qcompare_spec (x - inject_Z (Qfloor y)) (1 # 2)) as [Ex | Ex | Ex];
    destruct (Qcompare_spec (y - inject_Z (Qfloor y)) (1 # 2)) as [Ey | Ey | Ey];
    try (destruct (Z.even (Qfloor y))); try lia; exfalso; lra.
Qed.

Lemma roundHalfEven_ge (x : Q) (z : Z) :
  (inject_Z z <= x)%Q -> z <= Binary64.roundHalfEven x.
Proof.
  intros Hle. rewrite <- (roundHalfEven_integer z). now apply roundHalfEven_mono.
Qed.

Lemma roundHalfEven_le (x : Q) (z : Z) :
  (x <= inject_Z z)%Q -> Binary64.roundHalfEven x <= z.
Proof.
  intros Hle. rewrite <- (roundHalfEven_integer z). now apply roundHalfEven_mono.
Qed.

Lemma nearest_eq (x : Q) :
  (Binary64.nearest x
   == inject_Z (Binary64.roundHalfEven (x / 2 ^ exponentOf x)) * 2 ^ exponentOf x)%Q.
Proof. unfold Binary64.nearest. fold (exponentOf x). apply Qred_correct. Qed.

Lemma scaled_lt (x : Q) :
  (0 < x)%Q -> (x / 2 ^ exponentOf x < inject_Z (2 ^ 53))%Q.
Proof.
  intros Hx. destruct (floorLog2_spec x Hx) as [_ Shi].
  pose proof (pow2_pos (exponentOf x)) as He.
  apply Qlt_shift_div_r; [exact He |].
  eapply Qlt_le_trans; [exact Shi |].
  assert (E : (inject_Z (2 ^ 53) * 2 ^ exponentOf x == 2 ^ (53 + exponentOf x))%Q).
  { rewrite Qpower_plus by discriminate. reflexivity. }
  rewrite E. apply pow2_le. unfold exponentOf. lia.
Qed.

Lemma scaled_ge (x : Q) :
  (0 < x)%Q -> exponentOf x = Binary64.floorLog2 x - 52 ->
  (inject_Z (2 ^ 52) <= x / 2 ^ exponentOf x)%Q.
Proof.
  intros Hx Ee. destruct (floorLog2_spec x Hx) as [Slo _].
  pose proof (pow2_pos (exponentOf x)) as He.
  apply Qle_shift_div_l; [exact He |].
  eapply Qle_trans; [| exact Slo].
  assert (E : (inject_Z (2 ^ 52) * 2 ^ exponentOf x == 2 ^ (52 + exponentOf x))%Q).
  { rewrite Qpower_plus by discriminate. reflexivity. }
  rewrite E. apply pow2_le. lia.
Qed.

Lemma nearest_nonneg (x : Q) : (0 < x)%Q -> (0 <= Binary64.nearest x)%Q.
Proof.
  intros Hx. rewrite nearest_eq.
  pose proof (pow2_pos (exponentOf x)) as He.
  apply Qmult_le_0_compat; [| now apply Qlt_le_weak].
  change 0%Q with (inject_Z 0). rewrite <- Zle_Qle.
  apply roundHalfEven_ge. change (inject_Z 0) with 0%Q.
  apply Qlt_le_weak. now apply Qlt_shift_div_l; [| rewrite Qmult_0_l].
Qed.

Lemma nearest_mono (x y : Q) :
  (0 < x)%Q -> (x <= y)%Q -> (Binary64.nearest x <= Binary64.nearest y)%Q.
Proof.
  intros Hx Hle.
  assert (Hy : (0 < y)%Q) by (eapply Qlt_le_trans; eassumption).
  rewrite !nearest_eq.
  pose proof (floorLog2_mono x y Hx Hle) as Hfl.
  pose proof (pow2_pos (exponentOf x)) as Hex.
  pose proof (pow2_pos (exponentOf y)) as Hey.
  destruct (Z.eq_dec (exponentOf x) (exponentOf y)) as [E | Hne].
  - rewrite E. apply Qmult_le_compat_r; [| now apply Qlt_le_weak].
    rewrite <- Zle_Qle. apply roundHalfEven_mono.
    apply Qmult_le_compat_r; [exact Hle |]. apply Qlt_le_weak. now apply Qinv_lt_0_compat.
  - assert (Hlt : exponentOf x < exponentOf y) by (unfold exponentOf in *; lia).
    assert (Ey : exponentOf y = Binary64.floorLog2 y - 52) by (unfold exponentOf in *; lia).
    apply Qle_trans with (inject_Z (2 ^ 53) * 2 ^ exponentOf x)%Q.
    + apply Qmult_le_compat_r; [| now apply Qlt_le_weak].
      rewrite <- Zle_Qle. apply roundHalfEven_le. apply Qlt_le_weak. now apply scaled_lt.
    + apply Qle_trans with (inject_Z (2 ^ 52) * 2 ^ exponentOf y)%Q.
      * assert (E1 : (inject_Z (2 ^ 53) * 2 ^ exponentOf x == 2 ^ (53 + exponentOf x))%Q)
          by (rewrite Qpower_plus by discriminate; reflexivity).
        assert (E2 : (inject_Z (2 ^ 52) * 2 ^ exponentOf y == 2 ^ (52 + exponentOf y))%Q)
          by (rewrite Qpower_plus by discriminate; reflexivity).
        rewrite E1, E2. apply pow2_le. lia.
      * apply Qmult_le_compat_r; [| now apply Qlt_le_weak].
        rewrite <- Zle_Qle. apply roundHalfEven_ge. now apply scaled_ge.
Qed.

Lemma nearest_comp (x y : Q) :
  (0 < x)%Q -> (x == y)%Q -> Binary64.nearest x = Binary64.nearest y.
Proof.
  intros Hx E. unfold Binary64.nearest.
  rewrite <- (floorLog2_comp x y Hx E).
  apply Qred_complete.
  set (e := Z.max (Binary64.floorLog2 x - 52) (-1074)).
  assert (Es : (x / 2 ^ e == y / 2 ^ e)%Q) by (clearbody e; now rewrite E).
  now rewrite (roundHalfEven_comp _ _ Es).
Qed.

Lemma round_comp (x y : Q) : (x == y)%Q -> Binary64.round x = Binary64.round y.
Proof.
  intros E. unfold Binary64.round.
  rewrite <- (Qcompare_comp _ _ (Qeq_refl 0) _ _ E).
  destruct (Qcompare_spec 0 x) as [E0 | Hlt | Hgt]; [reflexivity | now apply nearest_comp |].
  f_equal. apply nearest_comp; [lra | now rewrite E].
Qed.

Lemma round_mono (x y : Q) : (x <= y)%Q -> (Binary64.round x <= Binary64.round y)%Q.
Proof.
  intros Hle. unfold Binary64.round.
  destruct (Qcompare_spec 0 x) as [Ex | Hx | Hx];
    destruct (Qcompare_spec 0 y) as [Ey | Hy | Hy]; try (exfalso; lra).
  - apply Qle_refl.
  - now apply nearest_nonneg.
  - now apply nearest_mono.
  - pose proof (nearest_nonneg (- x) ltac:(lra)). lra.
  - pose proof (nearest_nonneg (- x) ltac:(lra)).
    pose proof (nearest_nonneg y Hy). lra.
  - pose proof (nearest_mono (- y) (- x) ltac:(lra) ltac:(lra)). lra.
Qed.

(** Every integer of magnitude below 2^53 is a double. *)
Lemma nearest_integer (z : Z) :
  0 < z < 2 ^ 53 -> Binary64.nearest (inject_Z z) = inject_Z z.
Proof.
  intros Hz.
  assert (Hx : (0 < inject_Z z)%Q) by (change 0%Q with (inject_Z 0); rewrite <- Zlt_Qlt; lia).
  assert (Hred : Qred (inject_Z z) = inject_Z z).
  { unfold Qred, inject_Z. cbn [Qnum Qden].
    pose proof (Z.ggcd_gcd z 1) as Eg. pose proof (Z.ggcd_correct_divisors z 1) as Ed.
    rewrite Z.gcd_1_r in Eg.
    destruct (Z.ggcd z 1) as [g [a b]]. cbn in *. subst g.
    destruct Ed as [Ea Eb]. replace a with z by lia.
    replace b with 1 by lia. reflexivity. }
  rewrite <- Hred at 2. unfold Binary64.nearest. fold (exponentOf (inject_Z z)).
  apply Qred_complete.
  set (e := exponentOf (inject_Z z)).
  assert (He : e <= 0).
  { destruct (floorLog2_spec _ Hx) as [Slo _].
    assert (Binary64.floorLog2 (inject_Z z) < 53); [| unfold e, exponentOf; lia].
    apply pow2_lt_inv. eapply Qle_lt_trans; [exact Slo |].
    assert (E : (2 ^ 53 == inject_Z (2 ^ 53))%Q) by reflexivity.
    rewrite E, <- Zlt_Qlt. lia. }
  assert (Ediv : (inject_Z z / 2 ^ e == inject_Z (z * 2 ^ (- e)))%Q).
  { rewrite inject_Z_mult, Zpower_Qpower by lia.
    change (inject_Z 2) with 2%Q. rewrite Qpower_opp.
    unfold Qdiv. reflexivity. }
  rewrite (roundHalfEven_comp _ _ Ediv), roundHalfEven_integer.
  rewrite inject_Z_mult, Zpower_Qpower by lia.
  change (inject_Z 2) with 2%Q. rewrite Qpower_opp.
  field. intros E. pose proof (pow2_pos e) as Hp. rewrite E in Hp. discriminate.
Qed.

Lemma round_integer (z : Z) :
  - 2 ^ 53 < z < 2 ^ 53 -> Binary64.round (inject_Z z) = inject_Z z.
Proof.
  intros Hz. unfold Binary64.round.
  destruct (Qcompare_spec 0 (inject_Z z)) as [E | Hlt | Hgt].
  - unfold Qeq in E. cbn in E. assert (z = 0) by lia. now subst z.
  - change 0%Q with (inject_Z 0) in Hlt. rewrite <- Zlt_Qlt in Hlt.
    apply nearest_integer. lia.
  - assert (Hneg : z < 0) by (change 0%Q with (inject_Z 0) in Hgt; now rewrite <- Zlt_Qlt in Hgt).
    assert (E : (- inject_Z z == inject_Z (- z))%Q) by (rewrite inject_Z_opp; reflexivity).
    assert (Hpos : (0 < - inject_Z z)%Q) by (change (inject_Z 0) with 0%Q in Hgt; lra).
    rewrite (nearest_comp _ _ Hpos E).
    rewrite nearest_integer by lia.
    unfold Qopp, inject_Z. cbn [Qnum Qden]. f_equal. lia.
Qed.

(** The order of the numbers that are not NaN. *)
Lemma huge_above_integers : (inject_Z (2 ^ 53) < Number.huge)%Q.
Proof. reflexivity. Qed.

Lemma ofQ_comp (x y : Q) : (x == y)%Q -> Number.ofQ x = Number.ofQ y.
Proof. intros E. unfold Number.ofQ. now rewrite (round_comp x y E). Qed.

Lemma ofQ_integer (q : Q) (z : Z) :
  (q == inject_Z z)%Q -> - 2 ^ 53 < z < 2 ^ 53 ->
  Number.ofQ q = Number.Finite (inject_Z z).
Proof.
  intros E Hz. rewrite (ofQ_comp _ _ E). unfold Number.ofQ.
  rewrite round_integer by exact Hz.
  pose proof huge_above_integers as Hh.
  assert (H1 : Qle_bool Number.huge (inject_Z z) = false).
  { apply not_true_iff_false. rewrite Qle_bool_iff. intros Hle.
    assert (inject_Z z < inject_Z (2 ^ 53))%Q by (rewrite <- Zlt_Qlt; lia). lra. }
  assert (H2 : Qle_bool (inject_Z z) (- Number.huge) = false).
  { apply not_true_iff_false. rewrite Qle_bool_iff. intros Hle.
    assert (inject_Z (- 2 ^ 53) < inject_Z z)%Q by (rewrite <- Zlt_Qlt; lia).
    assert (E53 : (inject_Z (- 2 ^ 53) == - inject_Z (2 ^ 53))%Q) by reflexivity.
    lra. }
  now rewrite H1, H2.
Qed.

(** Rounding keeps the order, overflow included: an instant that is not
    before the rounded larger bound is at or after the rounded smaller
    one. *)
Lemma ofQ_bracket (t x y : Q) :
  (x <= y)%Q ->
  Number.lt (Number.Finite t) (Number.ofQ y) = false ->
  Number.ge (Number.Finite t) (Number.ofQ x) = true.
Proof.
  intros Hle. pose proof (round_mono x y Hle) as Hr.
  assert (Hh : (0 < Number.huge)%Q) by reflexivity.
  unfold Number.ofQ, Number.lt, Number.ge.
  destruct (Qle_bool Number.huge (Binary64.round y)) eqn:Ey1; [discriminate |].
  apply not_true_iff_false in Ey1. rewrite Qle_bool_iff in Ey1.
  assert (Ex1 : Qle_bool Number.huge (Binary64.round x) = false)
    by (apply not_true_iff_false; rewrite Qle_bool_iff; lra).
  rewrite Ex1.
  destruct (Qle_bool (Binary64.round y) (- Number.huge)) eqn:Ey2.
  - apply Qle_bool_iff in Ey2.
    assert (Ex2 : Qle_bool (Binary64.round x) (- Number.huge) = true)
      by (apply Qle_bool_iff; lra).
    now rewrite Ex2.
  - destruct (Qle_bool (Binary64.round x) (- Number.huge)); [reflexivity |].
    cbn [Number.compare].
    destruct (Qcompare_spec t (Binary64.round y)) as [E | Hlt | Hgt]; try discriminate;
      intros _; destruct (Qcompare_spec t (Binary64.round x)); try reflexivity; lra.
Qed.

(** [hour * 60 + minute] is exact. *)
Lemma timeInMinutes_exact (h m : Z) :
  0 <= h < 24 -> 0 <= m < 60 ->
  Number.add (Number.mul (Number.ofField (Some h)) (Number.Finite 60))
             (Number.ofField (Some m))
  = Number.Finite (inject_Z (h * 60 + m)).
Proof.
  intros Hh Hm. cbn [Number.ofField Number.mul].
  rewrite (ofQ_integer _ (h * 60)) by first [rewrite inject_Z_mult; reflexivity | lia].
  cbn [Number.add].
  apply ofQ_integer; [now rewrite inject_Z_plus | lia].
Qed.

End Binary64Facts.

(** ** Zone conversion *)

Section ZoneConversion.
Context `{Host}.

Lemma setZone_zoneName (ts : Z) (z zone zone' : string) :
  normalizeZone zone = Some zone' ->
  Luxon.setZone (Valid ts z) zone false = Valid ts zone'.
Proof.
  intros E. unfold Luxon.setZone. rewrite E.
  destruct (String.eqb_spec zone' z) as [-> | _]; reflexivity.
Qed.

Lemma isValidTimezone_normalizeZone (zone : string) :
  TimeZoneConverter.isValidTimezone zone = true ->
  normalizeZone zone = Some zone /\ zone <> ""%string.
Proof.
  unfold TimeZoneConverter.isValidTimezone, Luxon.now_.
  destruct (String.eqb_spec zone "") as [| Hne]; [discriminate |].
  destruct (normalizeZone zone) as [zone' |] eqn:E.
  - rewrite (setZone_zoneName _ _ _ _ E).
    intros Heq. apply String.eqb_eq in Heq. subst zone'. auto.
  - unfold Luxon.setZone. rewrite E. discriminate.
Qed.

Lemma setZone_valid (ts : Z) (z zone : string) (keepLocalTime : bool) :
  TimeZoneConverter.isValidTimezone zone = true ->
  (keepLocalTime = true -> z = zone) ->
  Luxon.setZone (Valid ts z) zone keepLocalTime = Valid ts zone.
Proof.
  intros Hv Hk. destruct (isValidTimezone_normalizeZone _ Hv) as [E _].
  unfold Luxon.setZone. rewrite E.
  destruct (String.eqb_spec zone z) as [-> | Hne]; [reflexivity |].
  destruct keepLocalTime; [| reflexivity].
  now rewrite Hk in Hne.
Qed.

Lemma convertToUTC_in_zone (ts : Z) (zone : string) :
  TimeZoneConverter.isValidTimezone zone = true ->
  TimeZoneConverter.convertToUTC (Valid ts zone) zone = Ok (Valid ts "UTC").
Proof.
  intros Hv. unfold TimeZoneConverter.convertToUTC.
  rewrite Hv, setZone_valid by auto. reflexivity.
Qed.

Lemma convertFromUTC_valid (ts : Z) (z zone : string) :
  TimeZoneConverter.isValidTimezone zone = true ->
  TimeZoneConverter.convertFromUTC (Valid ts z) zone = Ok (Valid ts zone).
Proof.
  intros Hv. unfold TimeZoneConverter.convertFromUTC.
  rewrite Hv. cbn [negb Luxon.isValid Luxon.toUTC].
  rewrite setZone_valid by (auto; discriminate). reflexivity.
Qed.

Lemma fixOffset_oneChange (zone : string) (lo hi T c1 c2 local o : Z) :
  oneChange zone lo hi T c1 c2 ->
  o = c1 \/ o = c2 ->
  lo <= local - c1 * Luxon.msPerMinute <= hi ->
  lo <= local - c2 * Luxon.msPerMinute <= hi ->
  let u := fst (Luxon.fixOffset local o zone) in
  Luxon.localTS zone u = landing T c1 c2 local /\
  (u = local - c1 * Luxon.msPerMinute \/ u = local - c2 * Luxon.msPerMinute).
Proof.
  intros Hone Ho H1 H2. cbn zeta.
  unfold Luxon.fixOffset, Luxon.localTS, landing, skipped, Luxon.msPerMinute in *.
  assert (E1 : zoneOffset zone (local - c1 * (60 * 1000))
               = if local - c1 * (60 * 1000) <? T then c1 else c2) by (apply Hone; lia).
  assert (E2 : zoneOffset zone (local - c2 * (60 * 1000))
               = if local - c2 * (60 * 1000) <? T then c1 else c2) by (apply Hone; lia).
  destruct Ho as [-> | ->].
  - replace (local - c1 * 60 * 1000) with (local - c1 * (60 * 1000)) by lia.
    rewrite E1.
    destruct (Z.ltb_spec (local - c1 * (60 * 1000)) T) as [Ha | Ha].
    + rewrite Z.eqb_refl. cbn [fst]. rewrite E1.
      destruct (Z.ltb_spec (local - c1 * (60 * 1000)) T); [| lia].
      destruct (Z.leb_spec (T + c1 * (60 * 1000)) local); [lia |]. cbn [andb].
      split; [lia | now left].
    + destruct (Z.eqb_spec c1 c2) as [<- | Hne].
      * cbn [fst]. rewrite E1.
        destruct (Z.ltb_spec (local - c1 * (60 * 1000)) T); [lia |].
        destruct (Z.leb_spec (T + c1 * (60 * 1000)) local);
          destruct (Z.ltb_spec local (T + c1 * (60 * 1000))); cbn [andb];
          (split; [lia | now left]).
      * replace (local - c1 * (60 * 1000) - (c2 - c1) * 60 * 1000)
          with (local - c2 * (60 * 1000)) by lia.
        rewrite E2.
        destruct (Z.ltb_spec (local - c2 * (60 * 1000)) T) as [Hb | Hb].
        -- destruct (Z.eqb_spec c2 c1) as [E | _]; [congruence |]. cbn [fst].
           assert (c1 < c2) by lia.
           rewrite Z.min_r by lia.
           replace (local - c1 * 60 * 1000) with (local - c1 * (60 * 1000)) by lia.
           rewrite E1.
           destruct (Z.ltb_spec (local - c1 * (60 * 1000)) T); [lia |].
           destruct (Z.leb_spec (T + c1 * (60 * 1000)) local); [| lia].
           destruct (Z.ltb_spec local (T + c2 * (60 * 1000))); [| lia]. cbn [andb].
           split; [lia | now left].
        -- rewrite Z.eqb_refl. cbn [fst]. rewrite E2.
           destruct (Z.ltb_spec (local - c2 * (60 * 1000)) T); [lia |].
           destruct (Z.leb_spec (T + c1 * (60 * 1000)) local);
             destruct (Z.ltb_spec local (T + c2 * (60 * 1000))); cbn [andb];
             try lia; (split; [lia | now right]).
  - replace (local - c2 * 60 * 1000) with (local - c2 * (60 * 1000)) by lia.
    rewrite E2.
    destruct (Z.ltb_spec (local - c2 * (60 * 1000)) T) as [Ha | Ha].
    + destruct (Z.eqb_spec c2 c1) as [-> | Hne].
      * cbn [fst]. rewrite E2.
        destruct (Z.ltb_spec (local - c1 * (60 * 1000)) T); [| lia].
        destruct (Z.leb_spec (T + c1 * (60 * 1000)) local);
          destruct (Z.ltb_spec local (T + c1 * (60 * 1000))); cbn [andb];
          (split; [lia | now left]).
      * replace (local - c2 * (60 * 1000) - (c1 - c2) * 60 * 1000)
          with (local - c1 * (60 * 1000)) by lia.
        rewrite E1.
        destruct (Z.ltb_spec (local - c1 * (60 * 1000)) T) as [Hb | Hb].
        -- rewrite Z.eqb_refl. cbn [fst]. rewrite E1.
           destruct (Z.ltb_spec (local - c1 * (60 * 1000)) T); [| lia].
           destruct (Z.leb_spec (T + c1 * (60 * 1000)) local); [lia |]. cbn [andb].
           split; [lia | now left].
        -- destruct (Z.eqb_spec c1 c2) as [E | _]; [congruence |]. cbn [fst].
           assert (c1 < c2) by lia.
           rewrite Z.min_l by lia.
           replace (local - c1 * 60 * 1000) with (local - c1 * (60 * 1000)) by lia.
           rewrite E1.
           destruct (Z.ltb_spec (local - c1 * (60 * 1000)) T); [lia |].
           destruct (Z.leb_spec (T + c1 * (60 * 1000)) local); [| lia].
           destruct (Z.ltb_spec local (T + c2 * (60 * 1000))); [| lia]. cbn [andb].
           split; [lia | now left].
    + rewrite Z.eqb_refl. cbn [fst]. rewrite E2.
      destruct (Z.ltb_spec (local - c2 * (60 * 1000)) T); [lia |].
      destruct (Z.leb_spec (T + c1 * (60 * 1000)) local);
        destruct (Z.ltb_spec local (T + c2 * (60 * 1000))); cbn [andb];
        try lia; (split; [lia | now right]).
Qed.

(** The wall clock an instant shows is never a skipped one. *)
Lemma shown_wall_clock_not_skipped (zone : string) (lo hi T c1 c2 ts : Z) :
  oneChange zone lo hi T c1 c2 -> lo <= ts <= hi ->
  skipped T c1 c2 (Luxon.localTS zone ts) = false.
Proof.
  intros Hone Hts. unfold skipped, Luxon.localTS. rewrite (Hone ts Hts).
  destruct (Z.ltb_spec ts T);
    destruct (Z.leb_spec (T + c1 * Luxon.msPerMinute) (ts + c1 * Luxon.msPerMinute));
    destruct (Z.leb_spec (T + c1 * Luxon.msPerMinute) (ts + c2 * Luxon.msPerMinute));
    destruct (Z.ltb_spec (ts + c1 * Luxon.msPerMinute) (T + c2 * Luxon.msPerMinute));
    destruct (Z.ltb_spec (ts + c2 * Luxon.msPerMinute) (T + c2 * Luxon.msPerMinute));
    cbn [andb]; try reflexivity; lia.
Qed.


End ZoneConversion.

Section ZoneConversion2024.
#[local] Existing Instance host2024.

(** Around 2024-03-10 New York has the one change of that day, at 07:00Z,
    from five to four hours behind UTC. *)
Lemma newYork_march_change (ts : Z) :
  1709500000000 <= ts <= 1710600000000 ->
  oneChange "America/New_York" (ts - 5 * Luxon.msPerDay) (ts + 5 * Luxon.msPerDay)
    1710054000000 (-300) (-240).
Proof.
  intros Hts t Ht. cbn [zoneOffset host2024]. unfold offset2024.
  cbn [String.eqb Ascii.eqb Bool.eqb].
  unfold Luxon.msPerDay, Luxon.msPerHour, Luxon.msPerMinute in Ht.
  destruct (Z.leb_spec 1710054000000 t), (Z.ltb_spec t 1730613600000),
    (Z.ltb_spec t 1710054000000); cbn [andb]; (reflexivity || lia).
Qed.



End ZoneConversion2024.

(** ** The overlap engine *)

Section OverlapEngine.
Context `{Host}.

Lemma Qlt_bool_iff (x y : Q) : Qlt_bool x y = true <-> (x < y)%Q.
Proof.
  unfold Qlt_bool. rewrite negb_true_iff, <- not_true_iff_false, Qle_bool_iff.
  split; [apply Qnot_le_lt | apply Qlt_not_le].
Qed.

Lemma isValidWorkingHours_iff (h : WorkingHours.t) :
  OverlapCalculator.isValidWorkingHours h = true <-> acceptedHours h.
Proof.
  unfold OverlapCalculator.isValidWorkingHours, acceptedHours.
  rewrite !andb_true_iff, negb_true_iff, <- not_true_iff_false,
    !Qle_bool_iff, Qlt_bool_iff, Qeq_bool_iff.
  tauto.
Qed.

Lemma setHour_valid (ts : Z) (zone : string) (h : Q) :
  exists ts', Luxon.setHour (Valid ts zone) h = Valid ts' zone.
Proof. unfold Luxon.setHour. eauto. Qed.

Lemma plusDays_valid (ts : Z) (zone : string) (days : Z) :
  exists ts', Luxon.plusDays (Valid ts zone) days = Valid ts' zone.
Proof. unfold Luxon.plusDays, Luxon.adjustTime. eauto. Qed.

(** With a valid zone and a valid date both conversions succeed, and the
    range is the pair of instants Luxon computed for the two civil times. *)
Lemma workingHoursToUTC_valid (wh : WorkingHours.t) (zone : string) (ts : Z) :
  TimeZoneConverter.isValidTimezone zone = true ->
  exists s e,
    let baseDate := Luxon.startOfDay (Valid ts zone) in
    Luxon.setHour baseDate (WorkingHours.start wh) = Valid s zone /\
    (if Qle_bool (WorkingHours.end_ wh) (WorkingHours.start wh)
     then Luxon.plusDays (Luxon.setHour baseDate (WorkingHours.end_ wh)) 1
     else Luxon.setHour baseDate (WorkingHours.end_ wh)) = Valid e zone /\
    OverlapCalculator.workingHoursToUTC wh zone (Some ts)
    = Ok (range (Valid s "UTC") (Valid e "UTC")).
Proof.
  intros Hv. unfold OverlapCalculator.workingHoursToUTC, Luxon.fromJSDate.
  rewrite (setZone_valid ts systemZone zone false Hv) by discriminate.
  unfold Luxon.startOfDay.
  destruct (setHour_valid ts zone 0) as [b ->].
  destruct (setHour_valid b zone (WorkingHours.start wh)) as [s ->].
  destruct (setHour_valid b zone (WorkingHours.end_ wh)) as [e0 ->].
  destruct (Qle_bool (WorkingHours.end_ wh) (WorkingHours.start wh)).
  - destruct (plusDays_valid e0 zone 1) as [e ->].
    exists s, e. cbn zeta. rewrite !convertToUTC_in_zone by assumption. auto.
  - exists s, e0. cbn zeta. rewrite !convertToUTC_in_zone by assumption. auto.
Qed.

Lemma workingHoursToUTC_invalid_date (wh : WorkingHours.t) (zone : string) :
  TimeZoneConverter.isValidTimezone zone = true ->
  OverlapCalculator.workingHoursToUTC wh zone None
  = Throw "Invalid DateTime object provided for conversion".
Proof.
  intros Hv. unfold OverlapCalculator.workingHoursToUTC. cbn.
  destruct (Qle_bool _ _); cbn;
    unfold TimeZoneConverter.convertToUTC; rewrite Hv; reflexivity.
Qed.

Lemma calculateIntersection_valid (sA eA sB eB : Z) (z1 z2 : string) :
  OverlapCalculator.calculateIntersection
    (range (Valid sA z1) (Valid eA z2)) (range (Valid sB z1) (Valid eB z2))
  = if Z.min eA eB <=? Z.max sA sB then None
    else Some (range (Valid (Z.max sA sB) z1) (Valid (Z.min eA eB) z2)).
Proof.
  unfold OverlapCalculator.calculateIntersection, Luxon.gt, Luxon.lt, Luxon.ge, range.
  cbn [TimeRange.start TimeRange.end_ Luxon.valueOf].
  destruct (Z.ltb_spec sB sA), (Z.ltb_spec eA eB); cbn [Luxon.valueOf];
    repeat match goal with
    | |- context [Z.max ?a ?b] =>
        first [rewrite (Z.max_l a b) by lia | rewrite (Z.max_r a b) by lia]
    | |- context [Z.min ?a ?b] =>
        first [rewrite (Z.min_l a b) by lia | rewrite (Z.min_r a b) by lia]
    end; reflexivity.
Qed.

Lemma tryCalculate_valid (cityA cityB : City) (hA hB : WorkingHours.t)
    (date : option Z) (sA eA sB eB : Z) :
  TimeZoneConverter.isValidTimezone (timezone cityA) = true ->
  TimeZoneConverter.isValidTimezone (timezone cityB) = true ->
  OverlapCalculator.workingHoursToUTC hA (timezone cityA) date
    = Ok (range (Valid sA "UTC") (Valid eA "UTC")) ->
  OverlapCalculator.workingHoursToUTC hB (timezone cityB) date
    = Ok (range (Valid sB "UTC") (Valid eB "UTC")) ->
  OverlapCalculator.tryCalculate cityA cityB hA hB date
  = Ok (if Z.min eA eB <=? Z.max sA sB then OverlapCalculator.noOverlap
        else overlapOf (timezone cityA) (timezone cityB) (Z.max sA sB) (Z.min eA eB)).
Proof.
  intros HvA HvB EA EB. unfold OverlapCalculator.tryCalculate.
  rewrite EA, EB. cbn [bind]. rewrite calculateIntersection_valid.
  destruct (Z.min eA eB <=? Z.max sA sB); [reflexivity |].
  cbn [range TimeRange.start TimeRange.end_].
  rewrite !convertFromUTC_valid by assumption. reflexivity.
Qed.

(** Once validation has passed, the call is the [try] block followed by
    the [catch] clause. *)
Lemma calculateOverlap_validated (cityA cityB : City) (hA hB : WorkingHours.t)
    (date : option Z) :
  TimeZoneConverter.isValidTimezone (timezone cityA) = true ->
  TimeZoneConverter.isValidTimezone (timezone cityB) = true ->
  OverlapCalculator.isValidWorkingHours hA = true ->
  OverlapCalculator.isValidWorkingHours hB = true ->
  OverlapCalculator.calculateOverlap cityA cityB (Some hA) (Some hB) (Some date)
  = match OverlapCalculator.tryCalculate cityA cityB hA hB date with
    | Ok result => Ok result
    | Throw message => Throw (OverlapCalculator.rethrow message)
    end.
Proof.
  intros HvA HvB HhA HhB. unfold OverlapCalculator.calculateOverlap.
  destruct (isValidTimezone_normalizeZone _ HvA) as [_ HneA].
  destruct (isValidTimezone_normalizeZone _ HvB) as [_ HneB].
  apply String.eqb_neq in HneA, HneB.
  rewrite HneA, HneB, HvA, HvB, HhA, HhB. reflexivity.
Qed.

End OverlapEngine.

Section OverlapEngineClaims.
Context `{Host}.

Lemma minutes_between_positive (s e : Z) :
  s < e -> (0 < Qmake (e - s) 60000)%Q.
Proof. intros Hlt. unfold Qlt. cbn. lia. Qed.

Lemma minutes_between_exact (s e : Z) :
  (Qabs (Qmake (e - s) 60000 - inject_Z (e - s) / 60000) < 1)%Q.
Proof.
  rewrite (Qmake_Qdiv (e - s) 60000).
  setoid_replace (inject_Z (e - s) / inject_Z 60000 - inject_Z (e - s) / 60000)%Q
    with 0%Q by (unfold Qeq; cbn; ring).
  reflexivity.
Qed.

(** C1.  For valid zones, valid working hours and any date, both working
    ranges convert to UTC, and with [start] the later of the two range
    starts and [end_] the earlier of the two range ends: if [end_ <= start]
    the result is the no-overlap object, every optional field absent;
    otherwise the result is an overlap from [start] to [end_], rendered in
    both zones, whose duration is positive and equals the UTC difference in
    minutes. *)
Theorem calculateOverlap_intersection (cityA cityB : City) (hA hB : WorkingHours.t) (ts : Z) :
  TimeZoneConverter.isValidTimezone (timezone cityA) = true ->
  TimeZoneConverter.isValidTimezone (timezone cityB) = true ->
  OverlapCalculator.isValidWorkingHours hA = true ->
  OverlapCalculator.isValidWorkingHours hB = true ->
  exists sA eA sB eB,
    OverlapCalculator.workingHoursToUTC hA (timezone cityA) (Some ts)
      = Ok (range (Valid sA "UTC") (Valid eA "UTC")) /\
    OverlapCalculator.workingHoursToUTC hB (timezone cityB) (Some ts)
      = Ok (range (Valid sB "UTC") (Valid eB "UTC")) /\
    let start := Z.max sA sB in
    let end_ := Z.min eA eB in
    let result :=
      OverlapCalculator.calculateOverlap cityA cityB (Some hA) (Some hB) (Some (Some ts)) in
    (end_ <= start ->
       exists r, result = Ok r /\
         OverlapResult.hasOverlap r = false /\
         OverlapResult.overlapInUTC r = None /\
         OverlapResult.overlapInCityA r = None /\
         OverlapResult.overlapInCityB r = None /\
         OverlapResult.durationMinutes r = None) /\
    (start < end_ ->
       exists r d, result = Ok r /\
         OverlapResult.hasOverlap r = true /\
         OverlapResult.overlapInUTC r = Some (range (Valid start "UTC") (Valid end_ "UTC")) /\
         OverlapResult.overlapInCityA r
           = Some (range (Valid start (timezone cityA)) (Valid end_ (timezone cityA))) /\
         OverlapResult.overlapInCityB r
           = Some (range (Valid start (timezone cityB)) (Valid end_ (timezone cityB))) /\
         OverlapResult.durationMinutes r = Some d /\
         (0 < d)%Q /\
         (Qabs (d - inject_Z (end_ - start) / 60000) < 1)%Q).
Proof.
  intros HvA HvB HhA HhB.
  destruct (workingHoursToUTC_valid hA _ ts HvA) as (sA & eA & _ & _ & EA).
  destruct (workingHoursToUTC_valid hB _ ts HvB) as (sB & eB & _ & _ & EB).
  exists sA, eA, sB, eB. split; [exact EA |]. split; [exact EB |].
  cbn zeta. rewrite calculateOverlap_validated by assumption.
  rewrite (tryCalculate_valid _ _ _ _ _ _ _ _ _ HvA HvB EA EB).
  split; intros Hcmp.
  - apply Z.leb_le in Hcmp. rewrite Hcmp.
    exists OverlapCalculator.noOverlap. repeat split.
  - pose proof Hcmp as Hgt. apply Z.leb_gt in Hgt. rewrite Hgt.
    eexists. exists (Qmake (Z.min eA eB - Z.max sA sB) 60000).
    split; [reflexivity |]. repeat split.
    + now apply minutes_between_positive.
    + apply minutes_between_exact.
Qed.

(** C2, as the code has it.  With both zones valid, the call fails with the
    working-hours error of city A exactly when the range of A is not
    accepted, and with that of city B exactly when A's is accepted and B's
    is not, whatever the date (even an invalid one, on which every
    conversion would fail); a range is accepted exactly when
    [0 <= start < 24], [0 <= end <= 24] and [start <> end].  So every range
    with integer bounds in [0,23] and different bounds is accepted, and
    equal bounds are rejected. *)
Theorem calculateOverlap_working_hours_validation (cityA cityB : City)
    (hA hB : WorkingHours.t) (date : option Z) :
  TimeZoneConverter.isValidTimezone (timezone cityA) = true ->
  TimeZoneConverter.isValidTimezone (timezone cityB) = true ->
  let result := OverlapCalculator.calculateOverlap cityA cityB (Some hA) (Some hB) (Some date) in
  (result = Throw "Invalid working hours for City A" <-> ~ acceptedHours hA) /\
  (result = Throw "Invalid working hours for City B" <->
     acceptedHours hA /\ ~ acceptedHours hB) /\
  (forall a b : Z, 0 <= a <= 23 -> 0 <= b <= 23 -> a <> b ->
     acceptedHours (hours (inject_Z a) (inject_Z b))) /\
  (forall x : Q, ~ acceptedHours (hours x x)).
Proof.
  intros HvA HvB result.
  assert (Hcases :
    (OverlapCalculator.isValidWorkingHours hA = false /\
       result = Throw "Invalid working hours for City A") \/
    (OverlapCalculator.isValidWorkingHours hA = true /\
       OverlapCalculator.isValidWorkingHours hB = false /\
       result = Throw "Invalid working hours for City B") \/
    (OverlapCalculator.isValidWorkingHours hA = true /\
       OverlapCalculator.isValidWorkingHours hB = true /\
       ((exists r, result = Ok r) \/ result = Throw OverlapCalculator.calculationFailed))).
  { subst result.
    destruct (OverlapCalculator.isValidWorkingHours hA) eqn:EA;
      [destruct (OverlapCalculator.isValidWorkingHours hB) eqn:EB |].
    - right; right. repeat split.
      rewrite calculateOverlap_validated by assumption.
      destruct date as [ts |].
      + destruct (workingHoursToUTC_valid hA _ ts HvA) as (sA & eA & _ & _ & E1).
        destruct (workingHoursToUTC_valid hB _ ts HvB) as (sB & eB & _ & _ & E2).
        rewrite (tryCalculate_valid _ _ _ _ _ _ _ _ _ HvA HvB E1 E2). eauto.
      + unfold OverlapCalculator.tryCalculate.
        rewrite workingHoursToUTC_invalid_date by assumption. now right.
    - right; left. repeat split.
      unfold OverlapCalculator.calculateOverlap.
      destruct (isValidTimezone_normalizeZone _ HvA) as [_ HneA].
      destruct (isValidTimezone_normalizeZone _ HvB) as [_ HneB].
      apply String.eqb_neq in HneA, HneB.
      rewrite HneA, HneB, HvA, HvB, EA, EB. reflexivity.
    - left. split; [reflexivity |].
      unfold OverlapCalculator.calculateOverlap.
      destruct (isValidTimezone_normalizeZone _ HvA) as [_ HneA].
      destruct (isValidTimezone_normalizeZone _ HvB) as [_ HneB].
      apply String.eqb_neq in HneA, HneB.
      rewrite HneA, HneB, HvA, HvB, EA. reflexivity. }
  rewrite <- !isValidWorkingHours_iff.
  split; [| split; [| split]].
  - destruct Hcases as [[EA ->] | [(EA & EB & ->) | (EA & EB & [[r ->] | ->])]];
      rewrite EA; split; intros Hx; try discriminate; try congruence; auto.
  - destruct Hcases as [[EA ->] | [(EA & EB & ->) | (EA & EB & [[r ->] | ->])]];
      rewrite EA; try rewrite EB; split; intros Hx;
      try discriminate; try (destruct Hx; congruence); auto.
  - intros a b Ha Hb Hab.
    unfold acceptedHours, hours. cbn [WorkingHours.start WorkingHours.end_].
    unfold Qle, Qlt, Qeq, inject_Z. cbn [Qnum Qden]. lia.
  - intros x Hx.
    destruct Hx as (_ & _ & _ & _ & Hne). apply Hne. reflexivity.
Qed.

End OverlapEngineClaims.

Section OverlapEngine2024.
#[local] Existing Instance host2024.

(** New York and London, both 9 to 18, on 2024-06-15: four hours. *)
Example newYork_london_overlap :
  OverlapCalculator.calculateOverlap newYork london None None (Some (Some noon20240615))
  = Ok (overlapOf "America/New_York" "Europe/London" 1718456400000 1718470800000)
  /\ (Qmake (1718470800000 - 1718456400000) 60000 == 240)%Q.
Proof. split; reflexivity. Qed.

Example newYork_tokyo_no_overlap :
  OverlapCalculator.calculateOverlap newYork tokyo None None (Some (Some noon20240615))
  = Ok OverlapCalculator.noOverlap.
Proof. reflexivity. Qed.

Lemma calculateOverlap_intersection_witness :
  exists sA eA sB eB,
    OverlapCalculator.workingHoursToUTC (hours 9 18) "America/New_York" (Some noon20240615)
      = Ok (range (Valid sA "UTC") (Valid eA "UTC")) /\
    OverlapCalculator.workingHoursToUTC (hours 9 18) "Europe/London" (Some noon20240615)
      = Ok (range (Valid sB "UTC") (Valid eB "UTC")) /\
    let start := Z.max sA sB in
    let end_ := Z.min eA eB in
    let result :=
      OverlapCalculator.calculateOverlap newYork london
        (Some (hours 9 18)) (Some (hours 9 18)) (Some (Some noon20240615)) in
    (end_ <= start ->
       exists r, result = Ok r /\
         OverlapResult.hasOverlap r = false /\
         OverlapResult.overlapInUTC r = None /\
         OverlapResult.overlapInCityA r = None /\
         OverlapResult.overlapInCityB r = None /\
         OverlapResult.durationMinutes r = None) /\
    (start < end_ ->
       exists r d, result = Ok r /\
         OverlapResult.hasOverlap r = true /\
         OverlapResult.overlapInUTC r = Some (range (Valid start "UTC") (Valid end_ "UTC")) /\
         OverlapResult.overlapInCityA r
           = Some (range (Valid start "America/New_York") (Valid end_ "America/New_York")) /\
         OverlapResult.overlapInCityB r
           = Some (range (Valid start "Europe/London") (Valid end_ "Europe/London")) /\
         OverlapResult.durationMinutes r = Some d /\
         (0 < d)%Q /\
         (Qabs (d - inject_Z (end_ - start) / 60000) < 1)%Q).
Proof.
  exact (calculateOverlap_intersection newYork london (hours 9 18) (hours 9 18)
           noon20240615 eq_refl eq_refl eq_refl eq_refl).
Defined.

(** C2 as the specification words it fails: an end of 24 and a fractional
    start are malformed by the specification's rule, yet both ranges pass
    validation and the call returns a result. *)
Lemma spec_malformed_hours_accepted :
  malformedPerSpec (hours 9 24) = true /\
  OverlapCalculator.isValidWorkingHours (hours 9 24) = true /\
  OverlapCalculator.calculateOverlap newYork london
    (Some (hours 9 24)) (Some (hours 9 18)) (Some (Some noon20240615))
  = Ok (overlapOf "America/New_York" "Europe/London" 1718456400000 1718470800000) /\
  malformedPerSpec (hours (19 # 2) 18) = true /\
  OverlapCalculator.isValidWorkingHours (hours (19 # 2) 18) = true /\
  (forall message,
     OverlapCalculator.calculateOverlap newYork london
       (Some (hours (19 # 2) 18)) (Some (hours 9 18)) (Some (Some noon20240615))
     <> Throw message).
Proof.
  repeat split; try reflexivity.
  intros message. vm_compute. discriminate.
Qed.

Lemma calculateOverlap_working_hours_validation_witness :
  let result :=
    OverlapCalculator.calculateOverlap newYork london
      (Some (hours 9 9)) (Some (hours 9 18)) (Some None) in
  (result = Throw "Invalid working hours for City A" <-> ~ acceptedHours (hours 9 9)) /\
  (result = Throw "Invalid working hours for City B" <->
     acceptedHours (hours 9 9) /\ ~ acceptedHours (hours 9 18)) /\
  (forall a b : Z, 0 <= a <= 23 -> 0 <= b <= 23 -> a <> b ->
     acceptedHours (hours (inject_Z a) (inject_Z b))) /\
  (forall x : Q, ~ acceptedHours (hours x x)).
Proof.
  exact (calculateOverlap_working_hours_validation newYork london
           (hours 9 9) (hours 9 18) None eq_refl eq_refl).
Defined.

(** Scenario 5: equal bounds are rejected before any conversion, here with
    a date on which every conversion would fail. *)
Example equal_bounds_rejected :
  OverlapCalculator.calculateOverlap newYork london
    (Some (hours 9 9)) (Some (hours 9 18)) (Some None)
  = Throw "Invalid working hours for City A".
Proof. reflexivity. Qed.

End OverlapEngine2024.

(** ** Failures inside the [try] block *)

Section FailureWrapping.
Context `{Host}.

Lemma prefix_spec (sub s : string) :
  prefix sub s = true <-> exists rest, s = (sub ++ rest)%string.
Proof.
  revert s. induction sub as [| a sub IH]; intros s.
  - split; [intros _; now exists s | intros _; now destruct s].
  - destruct s as [| b s]; cbn [prefix].
    + split; [discriminate | intros [rest E]; discriminate E].
    + destruct (Ascii.ascii_dec a b) as [<- | Hne].
      * rewrite IH. split; intros [rest E]; exists rest.
        -- cbn. now rewrite E.
        -- cbn in E. now injection E.
      * split; [discriminate |]. intros [rest E]. cbn in E. injection E as E _. congruence.
Qed.

Lemma includes_spec (text message : string) :
  includes text message = true <-> occursIn text message.
Proof.
  unfold occursIn. induction message as [| c message IH]; cbn [includes].
  - rewrite prefix_spec. split.
    + intros [rest E]. exists ""%string, rest. exact E.
    + intros (before & after & E). destruct before; [now exists after | discriminate E].
  - rewrite orb_true_iff, prefix_spec, IH. split.
    + intros [[rest E] | (before & after & E)].
      * exists ""%string, rest. exact E.
      * exists (String c before), after. cbn. now rewrite E.
    + intros (before & after & E). destruct before as [| c' before].
      * left. now exists after.
      * right. cbn in E. injection E as _ E. now exists before, after.
Qed.

(** C6, as the code has it.  The [catch] clause rethrows a caught error
    unchanged exactly when its message contains "timezone", and throws the
    one generic message in place of every other, a message that carries
    "invalid" included.  So of the converter's four errors the two that
    name the zone would pass and the other two are replaced.  After
    validation has passed, the call returns what the conversion phase
    returns and throws what the [catch] clause makes of its failure; with
    an invalid date the phase fails with the converter's DateTime error
    and the caller gets the generic message. *)
Theorem calculateOverlap_failure_wrapping :
  (forall message,
     (occursIn "timezone" message -> OverlapCalculator.rethrow message = message) /\
     (~ occursIn "timezone" message ->
        OverlapCalculator.rethrow message
        = "Failed to calculate overlap. Please check your inputs and try again."%string)) /\
  (forall zone,
     OverlapCalculator.rethrow ("Invalid timezone identifier: " ++ zone)
       = ("Invalid timezone identifier: " ++ zone)%string /\
     OverlapCalculator.rethrow ("Failed to convert time to timezone: " ++ zone)
       = ("Failed to convert time to timezone: " ++ zone)%string) /\
  OverlapCalculator.rethrow "Invalid DateTime object provided for conversion"
    = OverlapCalculator.calculationFailed /\
  OverlapCalculator.rethrow "Failed to convert time to UTC"
    = OverlapCalculator.calculationFailed /\
  (forall cityA cityB hA hB date,
     TimeZoneConverter.isValidTimezone (timezone cityA) = true ->
     TimeZoneConverter.isValidTimezone (timezone cityB) = true ->
     OverlapCalculator.isValidWorkingHours hA = true ->
     OverlapCalculator.isValidWorkingHours hB = true ->
     let result :=
       OverlapCalculator.calculateOverlap cityA cityB (Some hA) (Some hB) (Some date) in
     let inner := OverlapCalculator.tryCalculate cityA cityB hA hB date in
     (forall r, inner = Ok r -> result = Ok r) /\
     (forall message,
        inner = Throw message -> result = Throw (OverlapCalculator.rethrow message)) /\
     (date = None ->
        inner = Throw "Invalid DateTime object provided for conversion" /\
        result = Throw OverlapCalculator.calculationFailed)).
Proof.
  assert (Hcatch : forall message,
    (occursIn "timezone" message -> OverlapCalculator.rethrow message = message) /\
    (~ occursIn "timezone" message ->
       OverlapCalculator.rethrow message = OverlapCalculator.calculationFailed)).
  { intros message. unfold OverlapCalculator.rethrow.
    destruct (includes "timezone" message) eqn:E.
    - apply includes_spec in E. split; [reflexivity | contradiction].
    - split; [| reflexivity]. intros Hocc. apply includes_spec in Hocc. congruence. }
  split; [exact Hcatch |]. split; [| split; [| split]].
  - intros zone. split; apply (proj1 (Hcatch _)).
    + now exists "Invalid "%string, (" identifier: " ++ zone)%string.
    + now exists "Failed to convert time to "%string, (": " ++ zone)%string.
  - reflexivity.
  - reflexivity.
  - intros cityA cityB hA hB date HvA HvB HhA HhB result inner. subst result inner.
    rewrite calculateOverlap_validated by assumption.
    split; [| split].
    + now intros r ->.
    + now intros message ->.
    + intros ->. unfold OverlapCalculator.tryCalculate.
      rewrite workingHoursToUTC_invalid_date by assumption. split; reflexivity.
Qed.

End FailureWrapping.

Section FailureWrapping2024.
#[local] Existing Instance host2024.

(** The converter's zone error would pass the [catch] clause; a message
    with "invalid" in it does not; and an invalid date reaches the caller
    as the generic message. *)
Lemma calculateOverlap_failure_wrapping_witness :
  OverlapCalculator.rethrow "Invalid timezone identifier: Mars/Olympus"
    = "Invalid timezone identifier: Mars/Olympus"%string /\
  OverlapCalculator.rethrow "invalid input"
    = "Failed to calculate overlap. Please check your inputs and try again."%string /\
  OverlapCalculator.calculateOverlap newYork london
    (Some (hours 9 18)) (Some (hours 9 18)) (Some None)
  = Throw "Failed to calculate overlap. Please check your inputs and try again.".
Proof.
  destruct (calculateOverlap_failure_wrapping (H := host2024))
    as (Hcatch & _ & _ & _ & Hcall).
  split; [| split].
  - apply (proj1 (Hcatch _)).
    now exists "Invalid "%string, " identifier: Mars/Olympus"%string.
  - apply (proj2 (Hcatch _)). intros Hocc. apply includes_spec in Hocc.
    vm_compute in Hocc. discriminate Hocc.
  - destruct (Hcall newYork london (hours 9 18) (hours 9 18) None
                eq_refl eq_refl eq_refl eq_refl) as (_ & _ & Hnone).
    exact (proj2 (Hnone eq_refl)).
Defined.

(** C6 as the specification words it fails: a message that carries
    "invalid" but not "timezone" is replaced, not passed through; and the
    failure an invalid date causes, whose message starts with "Invalid",
    reaches the caller as the generic message. *)
Lemma invalid_message_not_passed_through :
  passedThroughPerSpec "invalid input" = true /\
  OverlapCalculator.rethrow "invalid input" <> "invalid input"%string /\
  OverlapCalculator.tryCalculate newYork london (hours 9 18) (hours 9 18) None
    = Throw "Invalid DateTime object provided for conversion" /\
  OverlapCalculator.calculateOverlap newYork london None None (Some None)
    = Throw "Failed to calculate overlap. Please check your inputs and try again.".
Proof. repeat split; try reflexivity. vm_compute. discriminate. Qed.

End FailureWrapping2024.

(** ** Civil anchors of a working-hour range *)

Section CivilAnchors.
Context `{Host}.

Ltac unfold_ms :=
  unfold Luxon.startOfLocalDay, Luxon.localTS, Luxon.msPerDay, Luxon.msPerHour,
    Luxon.msPerMinute in *.

Lemma fixOffset_regular (local o : Z) (zone : string) :
  zoneOffset zone (local - o * Luxon.msPerMinute) = o ->
  Luxon.fixOffset local o zone = (local - o * Luxon.msPerMinute, o).
Proof.
  unfold Luxon.fixOffset, Luxon.msPerMinute. intros E.
  replace (local - o * 60 * 1000) with (local - o * (60 * 1000)) by lia.
  now rewrite E, Z.eqb_refl.
Qed.

(** Whatever the zone rules, the instant found for a wall clock is the
    wall clock shifted by an offset the zone observes at some instant, or
    by the guess. *)
Lemma fixOffset_shape (local o : Z) (zone : string) :
  exists o',
    fst (Luxon.fixOffset local o zone) = local - o' * Luxon.msPerMinute /\
    (o' = o \/ exists t, o' = zoneOffset zone t).
Proof.
  unfold Luxon.fixOffset, Luxon.msPerMinute.
  set (g1 := local - o * 60 * 1000).
  set (o2 := zoneOffset zone g1).
  set (g2 := g1 - (o2 - o) * 60 * 1000).
  set (o3 := zoneOffset zone g2).
  destruct (o =? o2).
  - exists o. cbn [fst]. split; [subst g1; lia | now left].
  - destruct (o2 =? o3).
    + exists o2. cbn [fst]. split; [subst g2 g1; lia | right; now exists g1].
    + exists (Z.min o2 o3). cbn [fst]. split; [lia |]. right.
      destruct (Z.min_spec o2 o3) as [[_ ->] | [_ ->]]; [now exists g1 | now exists g2].
Qed.

Lemma toInteger_bounds (x : Q) :
  (0 <= x)%Q -> (x <= 24)%Q -> 0 <= toInteger x <= 24.
Proof.
  destruct x as [n d]. unfold Qle, toInteger. cbn [Qnum Qden]. intros H0 H24.
  rewrite Z.quot_div_nonneg by lia.
  split.
  - apply Z.div_pos; lia.
  - apply Z.div_le_upper_bound; lia.
Qed.

Lemma setHour_regular (ts : Z) (zone : string) (h : Q) (c : Z) :
  zoneOffset zone ts = c ->
  let local := Luxon.startOfLocalDay (ts + c * Luxon.msPerMinute)
               + toInteger h * Luxon.msPerHour in
  zoneOffset zone (local - c * Luxon.msPerMinute) = c ->
  Luxon.setHour (Valid ts zone) h = Valid (local - c * Luxon.msPerMinute) zone.
Proof.
  intros E local E'. unfold Luxon.setHour, Luxon.localTS. rewrite E.
  fold local. now rewrite fixOffset_regular.
Qed.

Lemma plusDays_regular (ts : Z) (zone : string) (days c : Z) :
  zoneOffset zone ts = c ->
  zoneOffset zone (ts + days * Luxon.msPerDay) = c ->
  Luxon.plusDays (Valid ts zone) days = Valid (ts + days * Luxon.msPerDay) zone.
Proof.
  intros E E'. unfold Luxon.plusDays, Luxon.adjustTime, Luxon.localTS. rewrite E.
  rewrite fixOffset_regular.
  - cbn [fst]. rewrite Z.eqb_refl. f_equal. lia.
  - replace (ts + c * Luxon.msPerMinute + days * Luxon.msPerDay - c * Luxon.msPerMinute)
      with (ts + days * Luxon.msPerDay) by lia.
    exact E'.
Qed.

(** When the zone keeps one offset [c] from a day before the date to two
    days after it, the range runs from the civil midnight of the date plus
    the start hour to that midnight plus the end hour, a day later when the
    end hour is not after the start hour. *)
Lemma workingHoursToUTC_regular (wh : WorkingHours.t) (zone : string) (ts c : Z) :
  TimeZoneConverter.isValidTimezone zone = true ->
  OverlapCalculator.isValidWorkingHours wh = true ->
  (forall t, ts - Luxon.msPerDay <= t <= ts + 2 * Luxon.msPerDay -> zoneOffset zone t = c) ->
  let midnight := Luxon.startOfLocalDay (ts + c * Luxon.msPerMinute) in
  let civilStart := midnight + toInteger (WorkingHours.start wh) * Luxon.msPerHour in
  let civilEnd :=
    midnight + toInteger (WorkingHours.end_ wh) * Luxon.msPerHour
    + (if Qle_bool (WorkingHours.end_ wh) (WorkingHours.start wh)
       then Luxon.msPerDay else 0) in
  OverlapCalculator.workingHoursToUTC wh zone (Some ts)
  = Ok (range (Valid (civilStart - c * Luxon.msPerMinute) "UTC")
              (Valid (civilEnd - c * Luxon.msPerMinute) "UTC")).
Proof.
  intros Hv Hh Hwin midnight civilStart civilEnd.
  apply isValidWorkingHours_iff in Hh. destruct Hh as (Hs0 & Hs24 & He0 & He24 & _).
  pose proof (toInteger_bounds _ Hs0 (Qlt_le_weak _ _ Hs24)) as Bs.
  pose proof (toInteger_bounds _ He0 He24) as Be.
  assert (B0 : 0 <= toInteger 0 <= 24) by (vm_compute; split; discriminate).
  set (base := midnight - c * Luxon.msPerMinute).
  assert (Hbase : ts - Luxon.msPerDay < base <= ts).
  { subst base midnight. unfold_ms. Z.to_euclidean_division_equations. lia. }
  assert (Hmid : Luxon.startOfLocalDay (base + c * Luxon.msPerMinute) = midnight).
  { subst base midnight. unfold_ms. Z.to_euclidean_division_equations. lia. }
  assert (Eb : Luxon.startOfDay (Valid ts zone) = Valid base zone).
  { unfold Luxon.startOfDay. rewrite (setHour_regular ts zone 0 c).
    - f_equal. subst base midnight. unfold toInteger. cbn [Qnum Qden inject_Z]. unfold_ms.
      change (Z.quot 0 1) with 0. lia.
    - apply Hwin. unfold_ms. lia.
    - fold midnight. apply Hwin. change (toInteger 0) with 0. unfold_ms. lia. }
  assert (Eh : forall h, 0 <= toInteger h <= 24 ->
    Luxon.setHour (Valid base zone) h
    = Valid (midnight + toInteger h * Luxon.msPerHour - c * Luxon.msPerMinute) zone).
  { intros h Bh. rewrite (setHour_regular base zone h c).
    - now rewrite Hmid.
    - apply Hwin. unfold_ms. lia.
    - rewrite Hmid. apply Hwin. unfold_ms. lia. }
  destruct (workingHoursToUTC_valid wh zone ts Hv) as (s & e & Es & Ee & ->).
  cbn zeta in Es, Ee. rewrite Eb in Es, Ee.
  rewrite (Eh _ Bs) in Es. rewrite (Eh _ Be) in Ee.
  injection Es as <-. subst civilStart civilEnd.
  destruct (Qle_bool (WorkingHours.end_ wh) (WorkingHours.start wh)).
  - rewrite (plusDays_regular _ zone 1 c) in Ee.
    + injection Ee as <-. do 3 f_equal. unfold_ms. lia.
    + apply Hwin. unfold_ms. lia.
    + apply Hwin. unfold_ms. lia.
  - injection Ee as <-. do 3 f_equal. lia.
Qed.

End CivilAnchors.

Section MidnightSpan.
Context `{Host}.

Lemma setHour_shape (ts : Z) (zone : string) (h : Q) :
  exists o',
    (exists t, o' = zoneOffset zone t) /\
    Luxon.setHour (Valid ts zone) h
    = Valid (Luxon.startOfLocalDay (Luxon.localTS zone ts)
             + toInteger h * Luxon.msPerHour - o' * Luxon.msPerMinute) zone.
Proof.
  unfold Luxon.setHour.
  destruct (fixOffset_shape
              (Luxon.startOfLocalDay (Luxon.localTS zone ts) + toInteger h * Luxon.msPerHour)
              (zoneOffset zone ts) zone) as (o' & -> & Ho').
  exists o'. split; [| reflexivity].
  destruct Ho' as [-> | Ho']; [now exists ts | exact Ho'].
Qed.

Lemma plusDays_shape (ts : Z) (zone : string) (days : Z) :
  exists o',
    (exists t, o' = zoneOffset zone t) /\
    Luxon.plusDays (Valid ts zone) days
    = Valid (Luxon.localTS zone ts + days * Luxon.msPerDay - o' * Luxon.msPerMinute) zone.
Proof.
  unfold Luxon.plusDays, Luxon.adjustTime.
  destruct (fixOffset_shape (Luxon.localTS zone ts + days * Luxon.msPerDay)
              (zoneOffset zone ts) zone) as (o' & -> & Ho').
  exists o'. cbn [Z.eqb]. split; [| reflexivity].
  destruct Ho' as [-> | Ho']; [now exists ts | exact Ho'].
Qed.

(** When any two offsets the zone ever observes differ by less than
    [bound] minutes and the civil window is at least twice that long, the
    range is ordered, transitions included. *)
Lemma workingHoursToUTC_ordered (wh : WorkingHours.t) (zone : string) (ts bound : Z) :
  TimeZoneConverter.isValidTimezone zone = true ->
  (forall t t', zoneOffset zone t' - zoneOffset zone t < bound) ->
  2 * bound <= civilSpanMinutes wh ->
  exists s e,
    OverlapCalculator.workingHoursToUTC wh zone (Some ts)
      = Ok (range (Valid s "UTC") (Valid e "UTC")) /\
    s < e.
Proof.
  intros Hv Hvar Hspan.
  destruct (workingHoursToUTC_valid wh zone ts Hv) as (s & e & Es & Ee & E).
  exists s, e. split; [exact E |]. clear E. cbn zeta in Es, Ee.
  unfold Luxon.startOfDay in Es, Ee.
  destruct (setHour_valid ts zone 0) as [b Eb]. rewrite Eb in Es, Ee.
  destruct (setHour_shape b zone (WorkingHours.start wh)) as (o1 & [t1 ->] & E1).
  destruct (setHour_shape b zone (WorkingHours.end_ wh)) as (o2 & [t2 ->] & E2).
  rewrite E1 in Es. rewrite E2 in Ee. injection Es as <-.
  unfold civilSpanMinutes in Hspan.
  set (day0 := Luxon.startOfLocalDay (Luxon.localTS zone b)) in *.
  destruct (Qle_bool (WorkingHours.end_ wh) (WorkingHours.start wh)).
  - match type of Ee with Luxon.plusDays (Valid ?x _) _ = _ =>
      destruct (plusDays_shape x zone 1) as (o3 & [t3 ->] & E3); set (e0 := x) in * end.
    rewrite E3 in Ee. injection Ee as <-.
    pose proof (Hvar t1 t3). pose proof (Hvar e0 t2).
    unfold Luxon.localTS. subst e0.
    unfold Luxon.msPerDay, Luxon.msPerHour, Luxon.msPerMinute in *. lia.
  - injection Ee as <-. pose proof (Hvar t1 t2).
    pose proof (Hvar t1 t1).
    unfold Luxon.msPerHour, Luxon.msPerMinute. lia.
Qed.

Ltac unfold_ms :=
  unfold Luxon.startOfLocalDay, Luxon.localTS, Luxon.msPerDay, Luxon.msPerHour,
    Luxon.msPerMinute in *.

Lemma offset_oneChange (zone : string) (lo hi T c1 c2 t : Z) :
  oneChange zone lo hi T c1 c2 -> lo <= t <= hi ->
  zoneOffset zone t = c1 \/ zoneOffset zone t = c2.
Proof. intros Hone Ht. rewrite (Hone t Ht). destruct (t <? T); auto. Qed.

Lemma landing_bounds (T c1 c2 local : Z) :
  c2 - c1 < 1440 ->
  local <= landing T c1 c2 local < local + Luxon.msPerDay.
Proof.
  intros Hgap. unfold landing, skipped.
  destruct (Z.leb_spec (T + c1 * Luxon.msPerMinute) local);
    destruct (Z.ltb_spec local (T + c2 * Luxon.msPerMinute)); cbn [andb];
    unfold Luxon.msPerDay, Luxon.msPerHour, Luxon.msPerMinute in *; lia.
Qed.

(** [set] and [plus] under one offset change: the result shows the wall
    clock asked for, or the one it lands on. *)
Lemma setHour_oneChange (zone : string) (lo hi T c1 c2 ts : Z) (h : Q) :
  oneChange zone lo hi T c1 c2 -> lo <= ts <= hi ->
  let local := Luxon.startOfLocalDay (Luxon.localTS zone ts) + toInteger h * Luxon.msPerHour in
  lo <= local - c1 * Luxon.msPerMinute <= hi ->
  lo <= local - c2 * Luxon.msPerMinute <= hi ->
  exists u,
    Luxon.setHour (Valid ts zone) h = Valid u zone /\
    Luxon.localTS zone u = landing T c1 c2 local /\
    lo <= u <= hi.
Proof.
  intros Hone Hts local H1 H2.
  destruct (fixOffset_oneChange zone lo hi T c1 c2 local (zoneOffset zone ts) Hone
              (offset_oneChange _ _ _ _ _ _ _ Hone Hts) H1 H2) as [Eu Hu].
  eexists. split; [reflexivity |]. fold local. split; [exact Eu |].
  destruct Hu as [-> | ->]; assumption.
Qed.

Lemma plusDays_oneChange (zone : string) (lo hi T c1 c2 ts days : Z) :
  oneChange zone lo hi T c1 c2 -> lo <= ts <= hi ->
  let local := Luxon.localTS zone ts + days * Luxon.msPerDay in
  lo <= local - c1 * Luxon.msPerMinute <= hi ->
  lo <= local - c2 * Luxon.msPerMinute <= hi ->
  exists u,
    Luxon.plusDays (Valid ts zone) days = Valid u zone /\
    Luxon.localTS zone u = landing T c1 c2 local /\
    lo <= u <= hi.
Proof.
  intros Hone Hts local H1 H2.
  destruct (fixOffset_oneChange zone lo hi T c1 c2 local (zoneOffset zone ts) Hone
              (offset_oneChange _ _ _ _ _ _ _ Hone Hts) H1 H2) as [Eu Hu].
  eexists. split; [unfold Luxon.plusDays, Luxon.adjustTime; cbn [Z.eqb]; reflexivity |].
  fold local. split; [exact Eu |].
  destruct Hu as [-> | ->]; assumption.
Qed.

Lemma startOfLocalDay_within (midnight x : Z) :
  midnight mod Luxon.msPerDay = 0 -> 0 <= x < Luxon.msPerDay ->
  Luxon.startOfLocalDay (midnight + x) = midnight.
Proof.
  unfold Luxon.startOfLocalDay, Luxon.msPerDay, Luxon.msPerHour, Luxon.msPerMinute.
  intros Hm Hx. Z.to_euclidean_division_equations. lia.
Qed.

Lemma workingHoursToUTC_oneChange (wh : WorkingHours.t) (zone : string) (ts T c1 c2 : Z) :
  TimeZoneConverter.isValidTimezone zone = true ->
  OverlapCalculator.isValidWorkingHours wh = true ->
  -1440 < c1 < 1440 -> -1440 < c2 < 1440 -> c2 - c1 < 1440 ->
  oneChange zone (ts - 3 * Luxon.msPerDay) (ts + 5 * Luxon.msPerDay) T c1 c2 ->
  let midnight := Luxon.startOfLocalDay (Luxon.localTS zone ts) in
  let civilStart := midnight + toInteger (WorkingHours.start wh) * Luxon.msPerHour in
  let civilEnd := midnight + toInteger (WorkingHours.end_ wh) * Luxon.msPerHour in
  let wallStart := landing T c1 c2 civilStart in
  let wallEnd :=
    if Qle_bool (WorkingHours.end_ wh) (WorkingHours.start wh)
    then landing T c1 c2 (landing T c1 c2 civilEnd + Luxon.msPerDay)
    else landing T c1 c2 civilEnd in
  exists s e,
    OverlapCalculator.workingHoursToUTC wh zone (Some ts)
      = Ok (range (Valid s "UTC") (Valid e "UTC")) /\
    Luxon.localTS zone s = wallStart /\
    Luxon.localTS zone e = wallEnd.
Proof.
  intros Hv Hh Hc1 Hc2 Hgap Hone midnight civilStart civilEnd wallStart wallEnd.
  apply isValidWorkingHours_iff in Hh. destruct Hh as (Hs0 & Hs24 & He0 & He24 & _).
  pose proof (toInteger_bounds _ Hs0 (Qlt_le_weak _ _ Hs24)) as Bs.
  pose proof (toInteger_bounds _ He0 He24) as Be.
  set (lo := ts - 3 * Luxon.msPerDay) in *. set (hi := ts + 5 * Luxon.msPerDay) in *.
  assert (Hts : lo <= ts <= hi) by (subst lo hi; unfold_ms; lia).
  destruct (offset_oneChange _ _ _ _ _ _ _ Hone Hts) as [Eo | Eo].
  all: assert (Hmid : ts - 2 * Luxon.msPerDay < midnight <= ts + Luxon.msPerDay)
         by (subst midnight; unfold Luxon.localTS; rewrite Eo; unfold_ms;
             Z.to_euclidean_division_equations; lia).
  all: assert (Hmod : midnight mod Luxon.msPerDay = 0)
         by (subst midnight; unfold Luxon.startOfLocalDay; apply Z.mod_mul;
             unfold Luxon.msPerDay, Luxon.msPerHour, Luxon.msPerMinute; lia).
  all: destruct (setHour_oneChange zone lo hi T c1 c2 ts 0 Hone Hts) as (b & Eb & Lb & Hb);
    [fold midnight; change (toInteger 0) with 0; subst lo hi; unfold_ms; lia
    |fold midnight; change (toInteger 0) with 0; subst lo hi; unfold_ms; lia |].
  all: cbn zeta in Lb; fold midnight in Lb; change (toInteger 0) with 0 in Lb;
    rewrite Z.mul_0_l, Z.add_0_r in Lb.
  all: pose proof (landing_bounds T c1 c2 midnight Hgap) as Bm.
  all: assert (Eday : Luxon.startOfLocalDay (Luxon.localTS zone b) = midnight)
         by (rewrite Lb;
             replace (landing T c1 c2 midnight)
               with (midnight + (landing T c1 c2 midnight - midnight)) by lia;
             apply startOfLocalDay_within; [exact Hmod | lia]).
  all: destruct (setHour_oneChange zone lo hi T c1 c2 b (WorkingHours.start wh) Hone Hb)
         as (s & Es & Ls & Hs);
    [rewrite Eday; subst lo hi; unfold_ms; lia
    |rewrite Eday; subst lo hi; unfold_ms; lia |].
  all: destruct (setHour_oneChange zone lo hi T c1 c2 b (WorkingHours.end_ wh) Hone Hb)
         as (e0 & Ee0 & Le0 & He0');
    [rewrite Eday; subst lo hi; unfold_ms; lia
    |rewrite Eday; subst lo hi; unfold_ms; lia |].
  all: cbn zeta in Ls, Le0; rewrite Eday in Ls, Le0.
  all: pose proof (landing_bounds T c1 c2 civilEnd Hgap) as Be0.
  all: destruct (workingHoursToUTC_valid wh zone ts Hv) as (s' & e' & Es' & Ee' & ->).
  all: cbn zeta in Es', Ee'; unfold Luxon.startOfDay in Es', Ee'; rewrite Eb in Es', Ee'.
  all: rewrite Es in Es'; injection Es' as <-.
  all: rewrite Ee0 in Ee'.
  all: exists s, e'; split; [reflexivity |]; split; [exact Ls |].
  all: subst wallEnd.
  all: destruct (Qle_bool (WorkingHours.end_ wh) (WorkingHours.start wh)).
  all: try (injection Ee' as <-; exact Le0).
  all: destruct (plusDays_oneChange zone lo hi T c1 c2 e0 1 Hone He0') as (e & Ee & Le & _);
    [rewrite Le0; fold civilEnd; subst lo hi civilEnd; unfold_ms; lia
    |rewrite Le0; fold civilEnd; subst lo hi civilEnd; unfold_ms; lia |].
  all: rewrite Ee in Ee'; injection Ee' as <-.
  all: cbn zeta in Le; rewrite Le0 in Le; fold civilEnd in Le.
  all: rewrite Le; f_equal; unfold Luxon.msPerDay; lia.
Qed.


End MidnightSpan.

Section MidnightSpan2024.
#[local] Existing Instance host2024.

Lemma newYork_offset_steady (t : Z) :
  noon20240615 - Luxon.msPerDay <= t <= noon20240615 + 2 * Luxon.msPerDay ->
  offset2024 "America/New_York" t = -240.
Proof.
  unfold noon20240615, Luxon.msPerDay, Luxon.msPerHour, Luxon.msPerMinute, offset2024.
  intros Ht. cbn [String.eqb Ascii.eqb Bool.eqb].
  destruct (Z.leb_spec 1710054000000 t), (Z.ltb_spec t 1730613600000);
    cbn [andb]; (reflexivity || lia).
Qed.

Lemma newYork_offset_variation (t t' : Z) :
  offset2024 "America/New_York" t' - offset2024 "America/New_York" t < 240.
Proof.
  unfold offset2024. cbn [String.eqb Ascii.eqb Bool.eqb].
  destruct (_ && _), (_ && _); lia.
Qed.



End MidnightSpan2024.

(** ** The meeting suggester *)

Section Suggester.
Context `{Host}.

Lemma suggestLoop_unfold (window : TimeRange.t) (cityA cityB : City)
    (hA hB : WorkingHours.t) (a b : DateTime) :
  MeetingSuggester.suggestLoop window cityA cityB hA hB a b
  = if Luxon.lt a (TimeRange.end_ window) then
      {| MeetingSuggestion.timeInCityA := a;
         MeetingSuggestion.timeInCityB := b;
         MeetingSuggestion.quality :=
           MeetingSuggester.combineQualities
             (MeetingSuggester.categorizeMeetingTime a hA (timezone cityA))
             (MeetingSuggester.categorizeMeetingTime b hB (timezone cityB));
         MeetingSuggestion.durationMinutes :=
           MeetingSuggester.mathMin (Luxon.diffMinutes (TimeRange.end_ window) a) 60 |}
      :: MeetingSuggester.suggestLoop window cityA cityB hA hB
           (Luxon.plusMinutes a MeetingSuggester.intervalMinutes)
           (Luxon.plusMinutes b MeetingSuggester.intervalMinutes)
    else [].
Proof.
  simp suggestLoop.
  destruct (MeetingSuggester.inspect (Luxon.lt a (TimeRange.end_ window))) as [[] E];
    simp suggestLoop; rewrite E; reflexivity.
Qed.

(** Every suggestion the loop emits starts at a valid instant of A and
    carries the combined quality of its own two instants. *)
Lemma suggestLoop_each (window : TimeRange.t) (cityA cityB : City)
    (hA hB : WorkingHours.t) (a b : DateTime) :
  Forall
    (fun s =>
       Luxon.isValid (MeetingSuggestion.timeInCityA s) = true /\
       MeetingSuggestion.quality s
       = MeetingSuggester.combineQualities
           (MeetingSuggester.categorizeMeetingTime
              (MeetingSuggestion.timeInCityA s) hA (timezone cityA))
           (MeetingSuggester.categorizeMeetingTime
              (MeetingSuggestion.timeInCityB s) hB (timezone cityB)))
    (MeetingSuggester.suggestLoop window cityA cityB hA hB a b).
Proof.
  funelim (MeetingSuggester.suggestLoop window cityA cityB hA hB a b).
  - constructor; [| assumption]. cbn. split; [| reflexivity].
    destruct currentTimeA; [reflexivity | discriminate].
  - constructor.
Qed.

Lemma generateSuggestions_each (overlap : OverlapResult.t) (cityA cityB : City)
    (hA hB : WorkingHours.t) (s : MeetingSuggestion.t) :
  In s (MeetingSuggester.generateSuggestions overlap cityA cityB hA hB) ->
  Luxon.isValid (MeetingSuggestion.timeInCityA s) = true /\
  MeetingSuggestion.quality s
  = MeetingSuggester.combineQualities
      (MeetingSuggester.categorizeMeetingTime
         (MeetingSuggestion.timeInCityA s) hA (timezone cityA))
      (MeetingSuggester.categorizeMeetingTime
         (MeetingSuggestion.timeInCityB s) hB (timezone cityB)).
Proof.
  unfold MeetingSuggester.generateSuggestions.
  destruct (OverlapResult.hasOverlap overlap); [| contradiction].
  destruct (OverlapResult.overlapInCityA overlap) as [wA |]; [| contradiction].
  destruct (OverlapResult.overlapInCityB overlap) as [wB |]; [| contradiction].
  intros Hin.
  exact (proj1 (Forall_forall _ _) (suggestLoop_each wA cityA cityB hA hB _ _) s Hin).
Qed.

Lemma combineQualities_in_range (a b : MeetingQuality) :
  nth_error MeetingSuggester.qualityOrder
    (Z.to_nat (Z.max (MeetingSuggester.indexOf a MeetingSuggester.qualityOrder)
                     (MeetingSuggester.indexOf b MeetingSuggester.qualityOrder)))
  = Some (MeetingSuggester.combineQualities a b).
Proof. destruct a, b; reflexivity. Qed.

(** C9.  The order array ranks Perfect below Acceptable below Not
    Recommended; the combined quality has the larger of the two ranks, so
    it is one of its inputs and never ranks below either; combining is
    commutative and idempotent; and every generated suggestion carries the
    combination of the categories of its own two instants. *)
Theorem combineQualities_worse :
  let rank q := MeetingSuggester.indexOf q MeetingSuggester.qualityOrder in
  (rank PerfectTime = 0 /\ rank AcceptableTime = 1 /\ rank NotRecommended = 2) /\
  (forall a b,
     rank (MeetingSuggester.combineQualities a b) = Z.max (rank a) (rank b) /\
     rank a <= rank (MeetingSuggester.combineQualities a b) /\
     rank b <= rank (MeetingSuggester.combineQualities a b) /\
     (MeetingSuggester.combineQualities a b = a \/
      MeetingSuggester.combineQualities a b = b)) /\
  (forall a b,
     MeetingSuggester.combineQualities a b = MeetingSuggester.combineQualities b a) /\
  (forall a, MeetingSuggester.combineQualities a a = a) /\
  (forall overlap cityA cityB hA hB s,
     In s (MeetingSuggester.generateSuggestions overlap cityA cityB hA hB) ->
     MeetingSuggestion.quality s
     = MeetingSuggester.combineQualities
         (MeetingSuggester.categorizeMeetingTime
            (MeetingSuggestion.timeInCityA s) hA (timezone cityA))
         (MeetingSuggester.categorizeMeetingTime
            (MeetingSuggestion.timeInCityB s) hB (timezone cityB))).
Proof.
  cbn zeta. split; [repeat split |]. split; [| split; [| split]].
  - intros [] []; repeat split; try reflexivity; try (vm_compute; discriminate);
      first [left; reflexivity | right; reflexivity].
  - intros [] []; reflexivity.
  - intros []; reflexivity.
  - intros overlap cityA cityB hA hB s Hin.
    exact (proj2 (generateSuggestions_each _ _ _ _ _ _ Hin)).
Qed.

End Suggester.

(** ** The position test in double precision *)

Section DoublePrecision.

Lemma allBelow_spec (n : nat) (p : nat -> bool) :
  allBelow n p = true -> forall i, (i < n)%nat -> p i = true.
Proof.
  induction n as [| n IH]; cbn [allBelow]; intros Hall i Hi; [lia |].
  apply andb_true_iff in Hall. destruct Hall as [Hn Hall].
  destruct (Nat.eq_dec i n) as [-> | Hne]; [exact Hn | apply IH; [exact Hall | lia]].
Qed.

(** Checked by evaluation on all 18000 pairs. *)
Lemma position_tests_agree_on_hours :
  allBelow 25 (fun k => allBelow (60 * k) (positionTestsAgree k)) = true.
Proof. vm_compute. reflexivity. Qed.

(** For a working day of [k] whole hours and [n] whole minutes into it,
    the rounded quotient falls on the same side of 1/3 and of 2/3 as the
    exact one. *)
Lemma position_test_float_exact (n k : Z) :
  0 <= k <= 24 -> 0 <= n < 60 * k ->
  positionTestFloat n (60 * k) = positionTestExact n (60 * k).
Proof.
  intros Hk Hn.
  assert (Hk' : (Z.to_nat k < 25)%nat) by lia.
  assert (Hn' : (Z.to_nat n < 60 * Z.to_nat k)%nat) by lia.
  pose proof (allBelow_spec _ _ position_tests_agree_on_hours _ Hk') as A. cbv beta in A.
  pose proof (allBelow_spec _ _ A _ Hn') as B.
  unfold positionTestsAgree in B. rewrite !Z2Nat.id in B by lia.
  apply Bool.eqb_prop in B. exact B.
Qed.

(** The same for the test as [categorizeMeetingTime] makes it, on the
    same 18000 pairs. *)
Lemma position_tests_64_agree_on_hours :
  allBelow 25 (fun k => allBelow (60 * k) (positionTest64Exact k)) = true.
Proof. vm_compute. reflexivity. Qed.

Lemma position_test_64_exact (n k : Z) :
  0 <= k <= 24 -> 0 <= n < 60 * k ->
  positionTest64 n (60 * k) = positionTestExact n (60 * k).
Proof.
  intros Hk Hn.
  assert (Hk' : (Z.to_nat k < 25)%nat) by lia.
  assert (Hn' : (Z.to_nat n < 60 * Z.to_nat k)%nat) by lia.
  pose proof (allBelow_spec _ _ position_tests_64_agree_on_hours _ Hk') as A. cbv beta in A.
  pose proof (allBelow_spec _ _ A _ Hn') as B.
  unfold positionTest64Exact in B. rewrite !Z2Nat.id in B by lia.
  apply Bool.eqb_prop in B. exact B.
Qed.

(** The model rounds as the machine does: on every number of tenths of
    an hour up to 24 hours, the decimal literal, its product by 60 and a
    quotient have the same value in [Binary64] as in the processor's
    arithmetic. *)
Lemma binary64_agrees_with_machine : allBelow 241 machineAgrees = true.
Proof. vm_compute. reflexivity. Qed.

Lemma positionTestExact_integers (n d : Z) :
  0 < d -> positionTestExact n d = (d <=? 3 * n) && (3 * n <? 2 * d).
Proof.
  intros Hd. destruct d as [| p | p]; try lia.
  unfold positionTestExact, Qlt_bool. cbn zeta.
  apply eq_true_iff_eq.
  rewrite !andb_true_iff, negb_true_iff, <- not_true_iff_false, !Qle_bool_iff,
    Z.leb_le, Z.ltb_lt.
  rewrite <- (Qmake_Qdiv n p).
  unfold Qle. cbn [Qnum Qden]. lia.
Qed.

Lemma number_lt_integers (x y : Z) :
  Number.lt (Number.Finite (inject_Z x)) (Number.Finite (inject_Z y)) = (x <? y).
Proof.
  unfold Number.lt. cbn [Number.compare].
  destruct (Qcompare_spec (inject_Z x) (inject_Z y)) as [E | Hlt | Hgt];
    destruct (Z.ltb_spec x y) as [Hz | Hz]; try reflexivity; exfalso.
  - unfold Qeq in E. cbn in E. lia.
  - rewrite <- Zlt_Qlt in Hlt. lia.
  - rewrite <- Zlt_Qlt in Hgt. lia.
Qed.

Lemma number_ge_integers (x y : Z) :
  Number.ge (Number.Finite (inject_Z x)) (Number.Finite (inject_Z y)) = (y <=? x).
Proof.
  unfold Number.ge. cbn [Number.compare].
  destruct (Qcompare_spec (inject_Z x) (inject_Z y)) as [E | Hlt | Hgt];
    destruct (Z.leb_spec y x) as [Hz | Hz]; try reflexivity; exfalso.
  - unfold Qeq in E. cbn in E. lia.
  - rewrite <- Zlt_Qlt in Hlt. lia.
  - rewrite <- Zlt_Qlt in Hgt. lia.
Qed.

(** On whole hours [a] and [b] and at minute [m] of the day, the bounds
    [start * 60] and [end * 60] and the two differences are exact, so the
    outside test is the comparison of integers and the position test is
    [positionTest64] on the integers involved. *)
Lemma categorize_whole_hours (m a b : Z) :
  0 <= m < 1440 -> 0 <= a <= 24 -> 0 <= b <= 24 ->
  let timeInMinutes := Number.Finite (inject_Z m) in
  let startMinutes := Number.mul (Number.Finite (inject_Z a)) (Number.Finite 60) in
  let endMinutes := Number.mul (Number.Finite (inject_Z b)) (Number.Finite 60) in
  let positionInDay :=
    Number.div (Number.sub timeInMinutes startMinutes)
               (Number.sub endMinutes startMinutes) in
  Number.lt timeInMinutes startMinutes = (m <? a * 60) /\
  Number.ge timeInMinutes endMinutes = (b * 60 <=? m) /\
  (a * 60 <= m < b * 60 ->
     Number.ge positionInDay (Number.div (Number.Finite 1) (Number.Finite 3))
     && Number.lt positionInDay (Number.div (Number.Finite 2) (Number.Finite 3))
     = positionTest64 (m - a * 60) (60 * (b - a))).
Proof.
  intros Hm Ha Hb. cbn zeta. cbn [Number.mul].
  rewrite (ofQ_integer _ (a * 60)) by first [rewrite inject_Z_mult; reflexivity | lia].
  rewrite (ofQ_integer _ (b * 60)) by first [rewrite inject_Z_mult; reflexivity | lia].
  rewrite number_lt_integers, number_ge_integers.
  split; [reflexivity |]. split; [reflexivity |]. intros Hin.
  unfold Number.sub. cbn [Number.opp Number.add].
  rewrite (ofQ_integer _ (m - a * 60))
    by first [unfold Z.sub; rewrite inject_Z_plus, inject_Z_opp; reflexivity | lia].
  rewrite (ofQ_integer _ (60 * (b - a)))
    by first [rewrite <- inject_Z_opp, <- inject_Z_plus; apply inject_Z_injective; lia | lia].
  reflexivity.
Qed.

End DoublePrecision.

Section Categorize.
Context `{Host}.

Lemma categorizeMeetingTime_valid (ts : Z) (z0 zone : string) (wh : WorkingHours.t) :
  TimeZoneConverter.isValidTimezone zone = true ->
  let local := Luxon.localTS zone ts in
  let minutesOfDay :=
    Number.Finite
      (inject_Z ((local / Luxon.msPerHour) mod 24 * 60 + (local / Luxon.msPerMinute) mod 60)) in
  let startMinutes := Number.mul (Number.Finite (WorkingHours.start wh)) (Number.Finite 60) in
  let endMinutes := Number.mul (Number.Finite (WorkingHours.end_ wh)) (Number.Finite 60) in
  let positionInDay :=
    Number.div (Number.sub minutesOfDay startMinutes) (Number.sub endMinutes startMinutes) in
  MeetingSuggester.categorizeMeetingTime (Valid ts z0) wh zone
  = if Number.lt minutesOfDay startMinutes || Number.ge minutesOfDay endMinutes
    then NotRecommended
    else if Number.ge positionInDay (Number.div (Number.Finite 1) (Number.Finite 3))
            && Number.lt positionInDay (Number.div (Number.Finite 2) (Number.Finite 3))
         then PerfectTime
         else AcceptableTime.
Proof.
  intros Hv. unfold MeetingSuggester.categorizeMeetingTime.
  rewrite (setZone_valid ts z0 zone false Hv) by discriminate.
  cbn [Luxon.hour Luxon.minute].
  rewrite timeInMinutes_exact by (apply Z.mod_pos_bound; lia).
  reflexivity.
Qed.

Lemma minutes_of_day_bounds (local : Z) :
  0 <= (local / Luxon.msPerHour) mod 24 * 60 + (local / Luxon.msPerMinute) mod 60 < 1440.
Proof.
  pose proof (Z.mod_pos_bound (local / Luxon.msPerHour) 24 ltac:(lia)).
  pose proof (Z.mod_pos_bound (local / Luxon.msPerMinute) 60 ltac:(lia)).
  lia.
Qed.


(** C10.  When the end hour is not after the start hour, a valid instant
    rendered in a valid zone is Not Recommended whatever the instant: its
    minutes of day are at or after [end * 60] or else below [start * 60].
    Hence a generated suggestion is Not Recommended as soon as one side
    has such a range, a valid zone and, on the B side, a valid instant (on
    the A side the loop only emits valid instants). *)
Theorem categorizeMeetingTime_midnight_span (wh : WorkingHours.t) (zone : string) :
  TimeZoneConverter.isValidTimezone zone = true ->
  (WorkingHours.end_ wh <= WorkingHours.start wh)%Q ->
  (forall ts z0,
     MeetingSuggester.categorizeMeetingTime (Valid ts z0) wh zone = NotRecommended) /\
  (forall overlap cityA cityB hB s,
     timezone cityA = zone ->
     In s (MeetingSuggester.generateSuggestions overlap cityA cityB wh hB) ->
     MeetingSuggestion.quality s = NotRecommended) /\
  (forall overlap cityA cityB hA s,
     timezone cityB = zone ->
     In s (MeetingSuggester.generateSuggestions overlap cityA cityB hA wh) ->
     Luxon.isValid (MeetingSuggestion.timeInCityB s) = true ->
     MeetingSuggestion.quality s = NotRecommended).
Proof.
  intros Hv Hspan.
  assert (Hcat : forall ts z0,
    MeetingSuggester.categorizeMeetingTime (Valid ts z0) wh zone = NotRecommended).
  { intros ts z0. rewrite categorizeMeetingTime_valid by assumption. cbn zeta.
    match goal with |- (if ?b then _ else _) = _ => destruct b eqn:E end; [reflexivity |].
    exfalso. apply orb_false_iff in E. destruct E as [E1 E2].
    cbn [Number.mul] in E1, E2.
    assert (Hle : (WorkingHours.end_ wh * 60 <= WorkingHours.start wh * 60)%Q)
      by (apply Qmult_le_compat_r; [assumption | discriminate]).
    rewrite (ofQ_bracket _ _ _ Hle E1) in E2. discriminate. }
  split; [exact Hcat |]. split.
  - intros overlap cityA cityB hB s Hz Hin.
    destruct (generateSuggestions_each _ _ _ _ _ _ Hin) as [Hvalid ->].
    destruct (MeetingSuggestion.timeInCityA s) as [ts z0 |]; [| discriminate].
    rewrite Hz, Hcat. now destruct (MeetingSuggester.categorizeMeetingTime _ _ _).
  - intros overlap cityA cityB hA s Hz Hin Hvalid.
    destruct (generateSuggestions_each _ _ _ _ _ _ Hin) as [_ ->].
    destruct (MeetingSuggestion.timeInCityB s) as [ts z0 |]; [| discriminate].
    rewrite Hz, Hcat. now destruct (MeetingSuggester.categorizeMeetingTime _ _ _).
Qed.

End Categorize.

(** ** Picking the largest suggestion *)

Section Largest.

Let minutes := MeetingSuggestion.durationMinutes.

Let pick (largest current : MeetingSuggestion.t) : MeetingSuggestion.t :=
  if MeetingSuggester.numberGt (minutes current) (minutes largest) then current else largest.

(** The invariant of the reduction: the running choice [acc] beats
    everything before it strictly and everything seen after it weakly. *)
Lemma fold_pick_first_maximum (rest pre mid : list MeetingSuggestion.t)
    (acc : MeetingSuggestion.t) (d : Q) :
  minutes acc = Some d ->
  (forall m, In m pre -> exists dm, minutes m = Some dm /\ (dm < d)%Q) ->
  (forall m, In m mid -> exists dm, minutes m = Some dm /\ (dm <= d)%Q) ->
  (forall m, In m rest -> minutes m <> None) ->
  exists r l1 l2 dr,
    fold_left pick rest acc = r /\
    pre ++ acc :: mid ++ rest = l1 ++ r :: l2 /\
    minutes r = Some dr /\
    (forall m, In m l1 -> exists dm, minutes m = Some dm /\ (dm < dr)%Q) /\
    (forall m, In m l2 -> exists dm, minutes m = Some dm /\ (dm <= dr)%Q).
Proof.
  revert pre mid acc d.
  induction rest as [| c rest IH]; intros pre mid acc d Hacc Hpre Hmid Hnum.
  - exists acc, pre, mid, d. rewrite app_nil_r. auto.
  - destruct (minutes c) as [dc |] eqn:Ec; [| exfalso; apply (Hnum c); [now left | exact Ec]].
    assert (Hnum' : forall m, In m rest -> minutes m <> None)
      by (intros m Hm; apply Hnum; now right).
    cbn [fold_left]. unfold pick at 2. rewrite Ec, Hacc. cbn [MeetingSuggester.numberGt].
    destruct (Qlt_bool d dc) eqn:Hgt.
    + apply Qlt_bool_iff in Hgt.
      destruct (IH (pre ++ acc :: mid) [] c dc Ec) as (r & l1 & l2 & dr & E & El & Er & H1 & H2).
      * intros m Hm. apply in_app_or in Hm. destruct Hm as [Hm | [<- | Hm]].
        -- destruct (Hpre m Hm) as (dm & Em & Hlt). exists dm. split; [exact Em |].
           eapply Qlt_trans; eassumption.
        -- exists d. auto.
        -- destruct (Hmid m Hm) as (dm & Em & Hle). exists dm. split; [exact Em |].
           eapply Qle_lt_trans; eassumption.
      * intros m [].
      * exact Hnum'.
      * exists r, l1, l2, dr. repeat split; try assumption.
        rewrite <- El. cbn [app]. now rewrite <- app_assoc.
    + apply not_true_iff_false in Hgt. rewrite Qlt_bool_iff in Hgt. apply Qnot_lt_le in Hgt.
      destruct (IH pre (mid ++ [c]) acc d Hacc Hpre) as (r & l1 & l2 & dr & E & El & Er & H1 & H2).
      * intros m Hm. apply in_app_or in Hm. destruct Hm as [Hm | [<- | []]].
        -- now apply Hmid.
        -- exists dc. auto.
      * exact Hnum'.
      * exists r, l1, l2, dr. repeat split; try assumption.
        rewrite <- El. now rewrite <- app_assoc.
Qed.

(** C8.  On the empty array the result is null.  On a non-empty array of
    suggestions with numeric durations the result is a member of the
    array; every member before it is strictly shorter and every member
    after it is no longer, so it is the first occurrence of the maximum and
    no member exceeds it. *)
Theorem findLargestOverlap_first_maximum :
  MeetingSuggester.findLargestOverlap [] = None /\
  (forall l,
     l <> [] ->
     (forall m, In m l -> MeetingSuggestion.durationMinutes m <> None) ->
     exists r l1 l2 dr,
       MeetingSuggester.findLargestOverlap l = Some r /\
       l = l1 ++ r :: l2 /\
       In r l /\
       MeetingSuggestion.durationMinutes r = Some dr /\
       (forall m, In m l1 ->
          exists dm, MeetingSuggestion.durationMinutes m = Some dm /\ (dm < dr)%Q) /\
       (forall m, In m l2 ->
          exists dm, MeetingSuggestion.durationMinutes m = Some dm /\ (dm <= dr)%Q) /\
       (forall m, In m l ->
          exists dm, MeetingSuggestion.durationMinutes m = Some dm /\ (dm <= dr)%Q) /\
       (forall m, In m l ->
          MeetingSuggester.numberGt (MeetingSuggestion.durationMinutes m)
            (MeetingSuggestion.durationMinutes r) = false)).
Proof.
  split; [reflexivity |].
  intros [| first rest] Hne Hnum; [contradiction |].
  destruct (MeetingSuggestion.durationMinutes first) as [d |] eqn:Ed;
    [| exfalso; apply (Hnum first); [now left | exact Ed]].
  destruct (fold_pick_first_maximum rest [] [] first d Ed)
    as (r & l1 & l2 & dr & E & El & Er & H1 & H2).
  - intros m [].
  - intros m [].
  - intros m Hm. apply Hnum. now right.
  - cbn [app] in El.
    assert (Hall : forall m, In m (first :: rest) ->
      exists dm, MeetingSuggestion.durationMinutes m = Some dm /\ (dm <= dr)%Q).
    { intros m Hm. rewrite El in Hm. apply in_app_or in Hm.
      destruct Hm as [Hm | [<- | Hm]].
      - destruct (H1 m Hm) as (dm & Em & Hlt). exists dm. split; [exact Em |].
        now apply Qlt_le_weak.
      - exists dr. split; [exact Er | apply Qle_refl].
      - now apply H2. }
    exists r, l1, l2, dr. repeat split; try assumption.
    + cbn [MeetingSuggester.findLargestOverlap]. f_equal. exact E.
    + rewrite El. apply in_or_app. right. now left.
    + intros m Hm. destruct (Hall m Hm) as (dm & Em & Hle).
      fold minutes in Er. unfold minutes in Er. rewrite Em, Er.
      cbn [MeetingSuggester.numberGt]. unfold Qlt_bool.
      apply negb_false_iff. now apply Qle_bool_iff.
Qed.

End Largest.

(** ** The 30-minute walk *)

Section Walk.
Context `{Host}.

Lemma slotCount_zero (sA eA : Z) : eA <= sA -> slotCount sA eA = 0%nat.
Proof.
  intros Hle. unfold slotCount.
  assert ((eA - sA + (30 * 60000 - 1)) / (30 * 60000) <= 0)
    by (Z.to_euclidean_division_equations; lia).
  lia.
Qed.

Lemma slotCount_succ (sA eA : Z) :
  sA < eA -> slotCount sA eA = S (slotCount (sA + 30 * 60000) eA).
Proof.
  intros Hlt. unfold slotCount.
  replace (eA - sA + (30 * 60000 - 1))
    with ((eA - (sA + 30 * 60000) + (30 * 60000 - 1)) + 1 * (30 * 60000)) by lia.
  rewrite Z.div_add by lia.
  assert (0 <= (eA - (sA + 30 * 60000) + (30 * 60000 - 1)) / (30 * 60000))
    by (Z.to_euclidean_division_equations; lia).
  lia.
Qed.

Lemma slotCount_lt (sA eA : Z) (k : nat) :
  (k < slotCount sA eA)%nat <-> sA + Z.of_nat k * (30 * 60000) < eA.
Proof.
  unfold slotCount. split; intros Hk.
  - assert (Z.of_nat k < (eA - sA + (30 * 60000 - 1)) / (30 * 60000)) by lia.
    Z.to_euclidean_division_equations. lia.
  - assert (Z.of_nat k < (eA - sA + (30 * 60000 - 1)) / (30 * 60000))
      by (Z.to_euclidean_division_equations; lia).
    lia.
Qed.

Lemma suggestLoop_closed (cityA cityB : City) (hA hB : WorkingHours.t)
    (startA : DateTime) (eA : Z) (zA zE zB : string) (n : nat) :
  forall a b,
    slotCount a eA = n ->
    MeetingSuggester.suggestLoop (range startA (Valid eA zE)) cityA cityB hA hB
      (Valid a zA) (Valid b zB)
    = map (fun k => slotAt cityA cityB hA hB eA zA zB
                      (a + Z.of_nat k * (30 * 60000)) (b + Z.of_nat k * (30 * 60000)))
          (seq 0 n).
Proof.
  induction n as [| n IH]; intros a b Hn; rewrite suggestLoop_unfold;
    unfold Luxon.lt; cbn [range TimeRange.end_ Luxon.valueOf].
  - destruct (Z.ltb_spec a eA) as [Hlt | Hge]; [| reflexivity].
    rewrite (slotCount_succ _ _ Hlt) in Hn. discriminate.
  - destruct (Z.ltb_spec a eA) as [Hlt | Hge];
      [| rewrite (slotCount_zero _ _ Hge) in Hn; discriminate].
    rewrite (slotCount_succ _ _ Hlt) in Hn. injection Hn as Hn.
    rewrite !MeetingSuggester.plusMinutes_valid.
    change (MeetingSuggester.intervalMinutes * Luxon.msPerMinute) with (30 * 60000).
    rewrite (IH _ _ Hn). cbn [seq map]. f_equal.
    + unfold slotAt. cbn [Luxon.diffMinutes MeetingSuggester.mathMin].
      replace (a + Z.of_nat 0 * (30 * 60000)) with a by lia.
      replace (b + Z.of_nat 0 * (30 * 60000)) with b by lia.
      reflexivity.
    + rewrite <- seq_shift, map_map. apply map_ext. intros k.
      f_equal; lia.
Qed.

(** C4.  Without an overlap the result is empty.  With an overlap whose
    A window runs from [sA] to [eA] and whose B window starts at [sB], the
    result is one suggestion for each step [k] with
    [sA + k * 30 min < eA], in order, at the instants [sA + k * 30 min] and
    [sB + k * 30 min], lasting the minutes left until [eA] capped at 60.
    So a non-empty window yields at least one suggestion, and a window of
    45 minutes starts with a suggestion of 45 minutes. *)
Theorem generateSuggestions_walk (overlap : OverlapResult.t) (cityA cityB : City)
    (hA hB : WorkingHours.t) :
  (OverlapResult.hasOverlap overlap = false ->
     MeetingSuggester.generateSuggestions overlap cityA cityB hA hB = []) /\
  (forall sA eA sB zA zE zB endB,
     OverlapResult.hasOverlap overlap = true ->
     OverlapResult.overlapInCityA overlap = Some (range (Valid sA zA) (Valid eA zE)) ->
     OverlapResult.overlapInCityB overlap = Some (range (Valid sB zB) endB) ->
     let step := 30 * Luxon.msPerMinute in
     let suggestions := MeetingSuggester.generateSuggestions overlap cityA cityB hA hB in
     suggestions
     = map (fun k =>
              let tA := sA + Z.of_nat k * step in
              let tB := sB + Z.of_nat k * step in
              {| MeetingSuggestion.timeInCityA := Valid tA zA;
                 MeetingSuggestion.timeInCityB := Valid tB zB;
                 MeetingSuggestion.quality :=
                   MeetingSuggester.combineQualities
                     (MeetingSuggester.categorizeMeetingTime (Valid tA zA) hA (timezone cityA))
                     (MeetingSuggester.categorizeMeetingTime (Valid tB zB) hB (timezone cityB));
                 MeetingSuggestion.durationMinutes :=
                   Some (Qmin (Qmake (eA - tA) 60000) 60) |})
           (seq 0 (slotCount sA eA)) /\
     (forall k, (k < slotCount sA eA)%nat <-> sA + Z.of_nat k * step < eA) /\
     (sA < eA -> (1 <= List.length suggestions)%nat) /\
     (eA - sA = 45 * Luxon.msPerMinute ->
        exists first rest d,
          suggestions = first :: rest /\
          MeetingSuggestion.timeInCityA first = Valid sA zA /\
          MeetingSuggestion.durationMinutes first = Some d /\ (d == 45)%Q)).
Proof.
  split.
  - intros E. unfold MeetingSuggester.generateSuggestions. now rewrite E.
  - intros sA eA sB zA zE zB endB Eh EA EB step suggestions.
    assert (Es : suggestions
      = map (fun k => slotAt cityA cityB hA hB eA zA zB
                        (sA + Z.of_nat k * (30 * 60000)) (sB + Z.of_nat k * (30 * 60000)))
            (seq 0 (slotCount sA eA))).
    { subst suggestions. unfold MeetingSuggester.generateSuggestions.
      rewrite Eh, EA, EB. cbn [range TimeRange.start].
      now apply (suggestLoop_closed cityA cityB hA hB (Valid sA zA) eA zA zE zB). }
    split; [exact Es |]. split; [exact (slotCount_lt sA eA) |]. split.
    + intros Hlt. rewrite Es, List.length_map, List.length_seq.
      rewrite (slotCount_succ _ _ Hlt). lia.
    + intros E45. change (45 * Luxon.msPerMinute) with 2700000 in E45.
      assert (Hlt : sA < eA) by lia.
      rewrite Es, (slotCount_succ _ _ Hlt). cbn [seq map].
      eexists. eexists. eexists. split; [reflexivity |].
      unfold slotAt. cbn [MeetingSuggestion.timeInCityA MeetingSuggestion.durationMinutes].
      replace (sA + Z.of_nat 0 * (30 * 60000)) with sA by lia.
      split; [reflexivity |]. split; [reflexivity |].
      rewrite E45. reflexivity.
Qed.

End Walk.

(** ** The suggester on the 2024 host *)

Section Suggester2024.
#[local] Existing Instance host2024.

Example suggestions_of_45_minutes :
  MeetingSuggester.generateSuggestions overlap45 newYork london (hours 9 18) (hours 9 18)
  = [ {| MeetingSuggestion.timeInCityA := Valid nine20240115 "America/New_York";
         MeetingSuggestion.timeInCityB := Valid nine20240115 "Europe/London";
         MeetingSuggestion.quality := AcceptableTime;
         MeetingSuggestion.durationMinutes := Some (Qmake 2700000 60000) |};
      {| MeetingSuggestion.timeInCityA := Valid (nine20240115 + 1800000) "America/New_York";
         MeetingSuggestion.timeInCityB := Valid (nine20240115 + 1800000) "Europe/London";
         MeetingSuggestion.quality := AcceptableTime;
         MeetingSuggestion.durationMinutes := Some (Qmake 900000 60000) |} ].
Proof. reflexivity. Qed.

Lemma generateSuggestions_walk_witness :
  (1 <= List.length
          (MeetingSuggester.generateSuggestions overlap45 newYork london
             (hours 9 18) (hours 9 18)))%nat /\
  (exists first rest d,
     MeetingSuggester.generateSuggestions overlap45 newYork london (hours 9 18) (hours 9 18)
       = first :: rest /\
     MeetingSuggestion.timeInCityA first = Valid nine20240115 "America/New_York" /\
     MeetingSuggestion.durationMinutes first = Some d /\ (d == 45)%Q).
Proof.
  destruct (proj2 (generateSuggestions_walk (H := host2024) overlap45 newYork london
                     (hours 9 18) (hours 9 18))
              nine20240115 nineFortyFive20240115 nine20240115
              "America/New_York"%string "America/New_York"%string "Europe/London"%string
              (Valid nineFortyFive20240115 "Europe/London") eq_refl eq_refl eq_refl)
    as (_ & _ & Hlen & H45).
  split.
  - apply Hlen. reflexivity.
  - apply H45. reflexivity.
Defined.



(** Outside the model of valid inputs: a zone Luxon rejects renders an
    invalid time, whose NaN fields fail every comparison. *)
Example categorize_unknown_zone :
  MeetingSuggester.categorizeMeetingTime (Valid halfPastOne20240115 "UTC")
    (hours 9 18) "Nowhere/Land" = AcceptableTime.
Proof. reflexivity. Qed.

Lemma categorizeMeetingTime_midnight_span_witness :
  (forall ts z0,
     MeetingSuggester.categorizeMeetingTime (Valid ts z0) (hours 22 6) "America/New_York"
     = NotRecommended) /\
  (forall s,
     In s (MeetingSuggester.generateSuggestions overlap45 newYork london
             (hours 22 6) (hours 9 18)) ->
     MeetingSuggestion.quality s = NotRecommended).
Proof.
  destruct (categorizeMeetingTime_midnight_span (H := host2024) (hours 22 6)
              "America/New_York" eq_refl)
    as (Hcat & HA & _).
  - vm_compute. discriminate.
  - split; [exact Hcat |].
    intros s Hin. exact (HA overlap45 newYork london (hours 9 18) s eq_refl Hin).
Defined.

Lemma combineQualities_worse_witness :
  Forall
    (fun s =>
       MeetingSuggestion.quality s
       = MeetingSuggester.combineQualities
           (MeetingSuggester.categorizeMeetingTime
              (MeetingSuggestion.timeInCityA s) (hours 9 18) "America/New_York")
           (MeetingSuggester.categorizeMeetingTime
              (MeetingSuggestion.timeInCityB s) (hours 9 18) "Europe/London"))
    (MeetingSuggester.generateSuggestions overlap45 newYork london (hours 9 18) (hours 9 18)).
Proof.
  apply Forall_forall. intros s Hin.
  exact (proj2 (proj2 (proj2 (proj2 (combineQualities_worse (H := host2024)))))
           overlap45 newYork london (hours 9 18) (hours 9 18) s Hin).
Defined.

Lemma findLargestOverlap_first_maximum_witness :
  exists r l1 l2,
    MeetingSuggester.findLargestOverlap
      [suggestionOf 30; suggestionOf 60; suggestionOf 45; suggestionOf 60] = Some r /\
    [suggestionOf 30; suggestionOf 60; suggestionOf 45; suggestionOf 60] = l1 ++ r :: l2 /\
    (forall m, In m l1 ->
       exists dm, MeetingSuggestion.durationMinutes m = Some dm /\ (dm < 60)%Q).
Proof.
  destruct (proj2 findLargestOverlap_first_maximum
              [suggestionOf 30; suggestionOf 60; suggestionOf 45; suggestionOf 60])
    as (r & l1 & l2 & dr & E & El & _ & Er & H1 & _).
  - discriminate.
  - intros m [<- | [<- | [<- | [<- | []]]]]; discriminate.
  - exists r, l1, l2. split; [exact E |]. split; [exact El |].
    injection E as <-. injection Er as <-. exact H1.
Defined.

Example largest_is_first_of_the_ties :
  MeetingSuggester.findLargestOverlap
    [suggestionOf 30; suggestionOf 60; suggestionOf 45; suggestionOf (120 # 2)]
  = Some (suggestionOf 60).
Proof. reflexivity. Qed.

End Suggester2024.

(** * The rest of the converter, the calculator and the suggester *)

(** ** Outcomes of the conversions *)

Section ConverterOutcomes.
Context `{Host}.


(** X2.  [convertFromUTC] tests the zone before the time, and for a valid
    zone and a valid time it returns the same instant rendered in the
    target zone, whatever zone the argument was in. *)
Theorem convertFromUTC_outcomes (time : DateTime) (zone : string) :
  (TimeZoneConverter.isValidTimezone zone = false ->
     TimeZoneConverter.convertFromUTC time zone
     = Throw ("Invalid timezone identifier: " ++ zone)) /\
  (TimeZoneConverter.isValidTimezone zone = true ->
     TimeZoneConverter.convertFromUTC time zone
     = match time with
       | Invalid => Throw "Invalid DateTime object provided for conversion"
       | Valid ts _ => Ok (Valid ts zone)
       end).
Proof.
  split; intros Hv.
  - unfold TimeZoneConverter.convertFromUTC. now rewrite Hv.
  - destruct time as [ts z |].
    + now apply convertFromUTC_valid.
    + unfold TimeZoneConverter.convertFromUTC. now rewrite Hv.
Qed.

(** X3.  [getCurrentTime] is [convertFromUTC] applied to [DateTime.now()]:
    the same result and the same error. *)
Theorem getCurrentTime_is_convertFromUTC_now (zone : string) :
  getCurrentTime zone = TimeZoneConverter.convertFromUTC Luxon.now_ zone.
Proof.
  unfold getCurrentTime.
  destruct (TimeZoneConverter.isValidTimezone zone) eqn:Hv.
  - unfold Luxon.now_.
    rewrite convertFromUTC_valid, (setZone_valid now systemZone zone false Hv)
      by (assumption || discriminate).
    reflexivity.
  - unfold TimeZoneConverter.convertFromUTC. now rewrite Hv.
Qed.

(** X4.  For a valid zone [getTimezoneOffset] returns the offset in force
    at the given date (at the current time when no date is given), and it
    is the offset behind the wall clock that [convertFromUTC] renders for
    that instant; an invalid date makes it throw. *)
Theorem getTimezoneOffset_is_wall_clock_offset (zone : string) (ts : Z) (z0 : string) :
  TimeZoneConverter.isValidTimezone zone = true ->
  exists o back,
    TimeZoneConverter.getTimezoneOffset zone (Some (Some ts)) = Ok o /\
    o = zoneOffset zone ts /\
    TimeZoneConverter.getTimezoneOffset zone None = Ok (zoneOffset zone now) /\
    TimeZoneConverter.getTimezoneOffset zone (Some None)
      = Throw ("Failed to get timezone offset for: " ++ zone) /\
    TimeZoneConverter.convertFromUTC (Valid ts z0) zone = Ok back /\
    Luxon.hour back = Some (((ts + o * 60000) / 3600000) mod 24) /\
    Luxon.minute back = Some (((ts + o * 60000) / 60000) mod 60).
Proof.
  intros Hv. exists (zoneOffset zone ts), (Valid ts zone).
  unfold TimeZoneConverter.getTimezoneOffset, Luxon.fromJSDate, Luxon.now_.
  rewrite Hv, !(setZone_valid _ systemZone zone false Hv) by discriminate.
  rewrite convertFromUTC_valid by assumption.
  repeat split.
Qed.

End ConverterOutcomes.

Section ConverterOutcomes2024.
#[local] Existing Instance host2024.


Lemma convertFromUTC_outcomes_witness :
  TimeZoneConverter.convertFromUTC (Valid noon20240615 "Asia/Tokyo") "Europe/London"
    = Ok (Valid noon20240615 "Europe/London") /\
  TimeZoneConverter.convertFromUTC (Valid noon20240615 "UTC") ""
    = Throw "Invalid timezone identifier: ".
Proof.
  split.
  - exact (proj2 (convertFromUTC_outcomes (H := host2024)
                    (Valid noon20240615 "Asia/Tokyo") "Europe/London") eq_refl).
  - exact (proj1 (convertFromUTC_outcomes (H := host2024)
                    (Valid noon20240615 "UTC") "") eq_refl).
Defined.

Lemma getTimezoneOffset_is_wall_clock_offset_witness :
  exists o back,
    TimeZoneConverter.getTimezoneOffset "Asia/Kolkata" (Some (Some noon20240615)) = Ok o /\
    o = 330 /\
    TimeZoneConverter.getTimezoneOffset "Asia/Kolkata" None = Ok 330 /\
    TimeZoneConverter.getTimezoneOffset "Asia/Kolkata" (Some None)
      = Throw "Failed to get timezone offset for: Asia/Kolkata" /\
    TimeZoneConverter.convertFromUTC (Valid noon20240615 "UTC") "Asia/Kolkata" = Ok back /\
    Luxon.hour back = Some (((noon20240615 + o * 60000) / 3600000) mod 24) /\
    Luxon.minute back = Some (((noon20240615 + o * 60000) / 60000) mod 60).
Proof.
  exact (getTimezoneOffset_is_wall_clock_offset (H := host2024)
           "Asia/Kolkata" noon20240615 "UTC" eq_refl).
Defined.

End ConverterOutcomes2024.

(** ** Outcomes of [calculateOverlap] *)

Section CalculatorOutcomes.
Context `{Host}.

Lemma includes_prefix (sub s : string) : prefix sub s = true -> includes sub s = true.
Proof.
  destruct s as [| c rest]; cbn [includes]; intros E; [exact E |].
  rewrite E. reflexivity.
Qed.

Lemma prefix_append (sub s rest : string) :
  prefix sub s = true -> prefix sub (s ++ rest) = true.
Proof.
  revert s. induction sub as [| a sub IH]; intros s E; [now destruct (s ++ rest)%string |].
  destruct s as [| b s]; cbn in E; [discriminate |].
  cbn. destruct (Ascii.ascii_dec a b); [now apply IH | discriminate].
Qed.

Lemma includes_append_l (sub s rest : string) :
  includes sub s = true -> includes sub (s ++ rest) = true.
Proof.
  induction s as [| c s IH]; cbn [includes]; intros E.
  - destruct sub; [| discriminate]. destruct rest; reflexivity.
  - change ((String c s ++ rest)%string) with (String c (s ++ rest)). cbn [includes].
    apply orb_true_iff in E. destruct E as [E | E].
    + change (String c (s ++ rest)) with ((String c s ++ rest)%string).
      rewrite (prefix_append _ _ _ E). reflexivity.
    + rewrite (IH E). apply orb_true_r.
Qed.

Lemma includes_append_r (sub s rest : string) :
  includes sub rest = true -> includes sub (s ++ rest) = true.
Proof.
  induction s as [| c s IH]; intros E; [exact E |].
  change ((String c s ++ rest)%string) with (String c (s ++ rest)). cbn [includes].
  rewrite (IH E). apply orb_true_r.
Qed.

(** After validation the [try] block returns a result, or fails on an
    invalid date with the converter's DateTime error. *)
Lemma tryCalculate_outcome (cityA cityB : City) (hA hB : WorkingHours.t) (date : option Z) :
  TimeZoneConverter.isValidTimezone (timezone cityA) = true ->
  TimeZoneConverter.isValidTimezone (timezone cityB) = true ->
  match date with
  | Some ts => exists r, OverlapCalculator.tryCalculate cityA cityB hA hB date = Ok r
  | None =>
    OverlapCalculator.tryCalculate cityA cityB hA hB date
    = Throw "Invalid DateTime object provided for conversion"
  end.
Proof.
  intros HvA HvB. destruct date as [ts |].
  - destruct (workingHoursToUTC_valid hA _ ts HvA) as (sA & eA & _ & _ & EA).
    destruct (workingHoursToUTC_valid hB _ ts HvB) as (sB & eB & _ & _ & EB).
    rewrite (tryCalculate_valid _ _ _ _ _ _ _ _ _ HvA HvB EA EB). eauto.
  - unfold OverlapCalculator.tryCalculate.
    now rewrite workingHoursToUTC_invalid_date by assumption.
Qed.

(** X5.  Once both zones and both ranges have passed validation the call
    either returns a result or throws the generic message, nothing else:
    the [try] block never throws a message that contains "timezone", so
    the pass-through branch of the [catch] clause is never taken.  It
    throws on an Invalid Date, and it returns a result for every date at
    least three days inside the range of time values; dates nearer to the
    limit, on which [Date.UTC] can overflow, are outside the model. *)
Theorem calculateOverlap_after_validation (cityA cityB : City)
    (hA hB : WorkingHours.t) (date : option Z) :
  TimeZoneConverter.isValidTimezone (timezone cityA) = true ->
  TimeZoneConverter.isValidTimezone (timezone cityB) = true ->
  OverlapCalculator.isValidWorkingHours hA = true ->
  OverlapCalculator.isValidWorkingHours hB = true ->
  let result := OverlapCalculator.calculateOverlap cityA cityB (Some hA) (Some hB) (Some date) in
  (forall message,
     OverlapCalculator.tryCalculate cityA cityB hA hB date = Throw message ->
     includes "timezone" message = false) /\
  ((exists r, result = Ok r) \/
   result = Throw "Failed to calculate overlap. Please check your inputs and try again.") /\
  (date = None ->
     result = Throw "Failed to calculate overlap. Please check your inputs and try again.") /\
  (forall ts, date = Some ts -> insideTimeValues ts -> exists r, result = Ok r).
Proof.
  intros HvA HvB HhA HhB result. subst result.
  rewrite calculateOverlap_validated by assumption.
  pose proof (tryCalculate_outcome cityA cityB hA hB date HvA HvB) as Hout.
  destruct date as [ts |].
  - destruct Hout as [r ->].
    split; [discriminate |]. split; [left; eauto |]. split; [discriminate | eauto].
  - rewrite Hout.
    split; [intros message [= <-]; reflexivity |]. split; [now right |].
    split; [reflexivity | discriminate].
Qed.

(** X6.  Whatever the arguments, omitted ones included, an error thrown
    by [calculateOverlap] carries one of seven messages: the two for a
    missing zone, the two for an unknown zone (naming the city), the two
    for invalid working hours, or the generic one.  No message of the
    converter reaches the caller. *)
Theorem calculateOverlap_messages (cityA cityB : City)
    (hA hB : option WorkingHours.t) (date : option (option Z)) (message : string) :
  OverlapCalculator.calculateOverlap cityA cityB hA hB date = Throw message ->
  In message (calculatorMessages cityA cityB).
Proof.
  unfold OverlapCalculator.calculateOverlap, calculatorMessages.
  set (wA := match hA with Some h => h | None => OverlapCalculator.defaultWorkingHours end).
  set (wB := match hB with Some h => h | None => OverlapCalculator.defaultWorkingHours end).
  set (d := match date with Some d => d | None => Some now end).
  destruct (String.eqb (timezone cityA) "");
    [intros [= <-]; cbn; auto |].
  destruct (String.eqb (timezone cityB) "");
    [intros [= <-]; cbn; auto |].
  destruct (TimeZoneConverter.isValidTimezone (timezone cityA)) eqn:HvA;
    [| intros [= <-]; cbn; auto].
  destruct (TimeZoneConverter.isValidTimezone (timezone cityB)) eqn:HvB;
    [| intros [= <-]; cbn; auto 6].
  destruct (OverlapCalculator.isValidWorkingHours wA) eqn:HhA;
    [| intros [= <-]; cbn; auto 7].
  destruct (OverlapCalculator.isValidWorkingHours wB) eqn:HhB;
    [| intros [= <-]; cbn; auto 8].
  cbn [negb].
  pose proof (tryCalculate_outcome cityA cityB wA wB d HvA HvB) as Hout.
  destruct d as [ts |]; [destruct Hout as [r ->]; discriminate |].
  rewrite Hout. intros [= <-]. cbn. auto 9.
Qed.

End CalculatorOutcomes.

Section CalculatorOutcomes2024.
#[local] Existing Instance host2024.

Lemma calculateOverlap_after_validation_witness :
  OverlapCalculator.calculateOverlap newYork tokyo
    (Some (hours 9 18)) (Some (hours 9 18)) (Some None)
  = Throw "Failed to calculate overlap. Please check your inputs and try again." /\
  exists r,
    OverlapCalculator.calculateOverlap newYork tokyo
      (Some (hours 9 18)) (Some (hours 9 18)) (Some (Some noon20240615)) = Ok r.
Proof.
  split.
  - destruct (calculateOverlap_after_validation (H := host2024) newYork tokyo
                (hours 9 18) (hours 9 18) None eq_refl eq_refl eq_refl eq_refl)
      as (_ & _ & Hnone & _).
    exact (Hnone eq_refl).
  - destruct (calculateOverlap_after_validation (H := host2024) newYork tokyo
                (hours 9 18) (hours 9 18) (Some noon20240615)
                eq_refl eq_refl eq_refl eq_refl)
      as (_ & _ & _ & Hsome).
    apply (Hsome noon20240615 eq_refl).
    unfold insideTimeValues, timeValueLimit, noon20240615,
      Luxon.msPerDay, Luxon.msPerHour, Luxon.msPerMinute. lia.
Defined.

Lemma calculateOverlap_messages_witness :
  In ("Unable to determine timezone for Atlantis. Please try another city.")%string
     (calculatorMessages newYork (cityOf "Atlantis" "Nowhere/Land")).
Proof.
  exact (calculateOverlap_messages (H := host2024) newYork (cityOf "Atlantis" "Nowhere/Land")
           None None None _ eq_refl).
Defined.

End CalculatorOutcomes2024.

(** ** The intersection as a set of instants *)

Section Intersection.
Context `{Host}.

(** X7.  [calculateIntersection] computes the intersection of the two
    half-open ranges as sets of instants: when it returns a range, that
    range is not empty and an instant lies in it exactly when it lies in
    both arguments; when it returns null, no instant lies in both. *)
Theorem calculateIntersection_is_intersection (sA eA sB eB : Z) (zsA zeA zsB zeB : string) :
  match OverlapCalculator.calculateIntersection
          (range (Valid sA zsA) (Valid eA zeA)) (range (Valid sB zsB) (Valid eB zeB)) with
  | Some r =>
    exists s e,
      Luxon.valueOf (TimeRange.start r) = Some s /\
      Luxon.valueOf (TimeRange.end_ r) = Some e /\
      s < e /\
      forall t, s <= t < e <-> (sA <= t < eA /\ sB <= t < eB)
  | None => forall t, ~ (sA <= t < eA /\ sB <= t < eB)
  end.
Proof.
  unfold OverlapCalculator.calculateIntersection, Luxon.gt, Luxon.lt, Luxon.ge, range.
  cbn [TimeRange.start TimeRange.end_ Luxon.valueOf].
  destruct (Z.ltb_spec sB sA), (Z.ltb_spec eA eB); cbn [Luxon.valueOf];
    match goal with |- context [?x <=? ?y] => destruct (Z.leb_spec x y) end;
    try (intros t; lia);
    cbn [TimeRange.start TimeRange.end_ Luxon.valueOf];
    eexists; eexists; (split; [reflexivity |]); (split; [reflexivity |]);
    (split; [lia | intros t; lia]).
Qed.

(** X8.  Once both zones and both ranges have passed validation, the
    calculation is symmetric in the two cities: with the cities and their
    hours exchanged the call returns the same UTC window and duration with
    the two local windows exchanged, and on an invalid date both calls
    throw the same message.  (The validation errors are not symmetric:
    they name the position, city A or city B.) *)
Theorem calculateOverlap_symmetric (cityA cityB : City)
    (hA hB : WorkingHours.t) (date : option Z) :
  TimeZoneConverter.isValidTimezone (timezone cityA) = true ->
  TimeZoneConverter.isValidTimezone (timezone cityB) = true ->
  OverlapCalculator.isValidWorkingHours hA = true ->
  OverlapCalculator.isValidWorkingHours hB = true ->
  OverlapCalculator.calculateOverlap cityB cityA (Some hB) (Some hA) (Some date)
  = match OverlapCalculator.calculateOverlap cityA cityB (Some hA) (Some hB) (Some date) with
    | Ok r => Ok (swapCities r)
    | Throw message => Throw message
    end.
Proof.
  intros HvA HvB HhA HhB.
  rewrite !calculateOverlap_validated by assumption.
  destruct date as [ts |].
  - destruct (workingHoursToUTC_valid hA _ ts HvA) as (sA & eA & _ & _ & EA).
    destruct (workingHoursToUTC_valid hB _ ts HvB) as (sB & eB & _ & _ & EB).
    rewrite (tryCalculate_valid _ _ _ _ _ _ _ _ _ HvA HvB EA EB).
    rewrite (tryCalculate_valid _ _ _ _ _ _ _ _ _ HvB HvA EB EA).
    rewrite (Z.max_comm sB sA), (Z.min_comm eB eA).
    destruct (Z.min eA eB <=? Z.max sA sB); reflexivity.
  - unfold OverlapCalculator.tryCalculate.
    rewrite !workingHoursToUTC_invalid_date by assumption. reflexivity.
Qed.

End Intersection.

Section Intersection2024.
#[local] Existing Instance host2024.

Lemma calculateOverlap_symmetric_witness :
  OverlapCalculator.calculateOverlap london newYork
    (Some (hours 8 17)) (Some (hours 9 18)) (Some (Some noon20240615))
  = Ok (swapCities
          (overlapOf "America/New_York" "Europe/London" 1718456400000 1718467200000)).
Proof.
  exact (calculateOverlap_symmetric (H := host2024) newYork london
           (hours 9 18) (hours 8 17) (Some noon20240615) eq_refl eq_refl eq_refl eq_refl).
Defined.

End Intersection2024.

(** ** Two cities in one zone *)

Section SameZone.
Context `{Host}.

Lemma toInteger_inject_Z (z : Z) : toInteger (inject_Z z) = z.
Proof. unfold toInteger, inject_Z. cbn [Qnum Qden]. apply Z.quot_1_r. Qed.

Lemma whole_hours_valid (a b : Z) :
  0 <= a < b -> b <= 24 ->
  OverlapCalculator.isValidWorkingHours (hours (inject_Z a) (inject_Z b)) = true /\
  Qle_bool (inject_Z b) (inject_Z a) = false.
Proof.
  intros Ha Hb. split.
  - apply isValidWorkingHours_iff. unfold acceptedHours, hours.
    cbn [WorkingHours.start WorkingHours.end_].
    unfold Qle, Qlt, Qeq, inject_Z. cbn [Qnum Qden]. lia.
  - apply not_true_iff_false. rewrite Qle_bool_iff.
    unfold Qle, inject_Z. cbn [Qnum Qden]. lia.
Qed.

(** With whole hours [a] to [b], [a < b], in a zone that keeps the offset
    [c] around the date, the range is that day's [a] o'clock to [b]
    o'clock. *)
Lemma workingHoursToUTC_whole_hours (zone : string) (a b ts c : Z) :
  TimeZoneConverter.isValidTimezone zone = true ->
  0 <= a < b -> b <= 24 ->
  (forall t, ts - Luxon.msPerDay <= t <= ts + 2 * Luxon.msPerDay -> zoneOffset zone t = c) ->
  let midnight := Luxon.startOfLocalDay (ts + c * Luxon.msPerMinute) in
  OverlapCalculator.workingHoursToUTC (hours (inject_Z a) (inject_Z b)) zone (Some ts)
  = Ok (range (Valid (midnight + a * Luxon.msPerHour - c * Luxon.msPerMinute) "UTC")
              (Valid (midnight + b * Luxon.msPerHour - c * Luxon.msPerMinute) "UTC")).
Proof.
  intros Hv Ha Hb Hwin midnight.
  destruct (whole_hours_valid a b Ha Hb) as [Hh Hle].
  rewrite (workingHoursToUTC_regular _ zone ts c Hv Hh Hwin).
  unfold hours. cbn [WorkingHours.start WorkingHours.end_].
  rewrite Hle, !toInteger_inject_Z. fold midnight. do 3 f_equal. lia.
Qed.

(** X9.  Two cities that share a zone, whole working hours [a1] to [b1]
    and [a2] to [b2], and a date around which the zone keeps one offset:
    the overlap runs from the later start hour to the earlier end hour of
    that civil day, it is shown at the same instants in both cities, its
    duration is 60 minutes per hour, and there is none when the earlier end
    is not after the later start. *)
Theorem calculateOverlap_same_zone (cityA cityB : City) (a1 b1 a2 b2 ts c : Z) :
  timezone cityB = timezone cityA ->
  TimeZoneConverter.isValidTimezone (timezone cityA) = true ->
  0 <= a1 < b1 -> b1 <= 24 -> 0 <= a2 < b2 -> b2 <= 24 ->
  (forall t, ts - Luxon.msPerDay <= t <= ts + 2 * Luxon.msPerDay ->
     zoneOffset (timezone cityA) t = c) ->
  let midnight := Luxon.startOfLocalDay (ts + c * Luxon.msPerMinute) in
  let s := Z.max a1 a2 in
  let e := Z.min b1 b2 in
  exists r,
    OverlapCalculator.calculateOverlap cityA cityB
      (Some (hours (inject_Z a1) (inject_Z b1))) (Some (hours (inject_Z a2) (inject_Z b2)))
      (Some (Some ts)) = Ok r /\
    (e <= s -> r = OverlapCalculator.noOverlap) /\
    (s < e ->
       r = overlapOf (timezone cityA) (timezone cityA)
             (midnight + s * Luxon.msPerHour - c * Luxon.msPerMinute)
             (midnight + e * Luxon.msPerHour - c * Luxon.msPerMinute) /\
       exists d, OverlapResult.durationMinutes r = Some d /\ (d == inject_Z ((e - s) * 60))%Q).
Proof.
  intros Hz Hv Ha1 Hb1 Ha2 Hb2 Hwin midnight s e.
  assert (HvB : TimeZoneConverter.isValidTimezone (timezone cityB) = true) by now rewrite Hz.
  assert (HwinB : forall t, ts - Luxon.msPerDay <= t <= ts + 2 * Luxon.msPerDay ->
                            zoneOffset (timezone cityB) t = c) by now rewrite Hz.
  pose proof (workingHoursToUTC_whole_hours _ a1 b1 ts c Hv Ha1 Hb1 Hwin) as EA.
  pose proof (workingHoursToUTC_whole_hours _ a2 b2 ts c HvB Ha2 Hb2 HwinB) as EB.
  cbn zeta in EA, EB. fold midnight in EA, EB.
  rewrite calculateOverlap_validated
    by (assumption || apply whole_hours_valid; assumption).
  rewrite (tryCalculate_valid _ _ _ _ _ _ _ _ _ Hv HvB EA EB).
  assert (Emax : Z.max (midnight + a1 * Luxon.msPerHour - c * Luxon.msPerMinute)
                       (midnight + a2 * Luxon.msPerHour - c * Luxon.msPerMinute)
                 = midnight + s * Luxon.msPerHour - c * Luxon.msPerMinute)
    by (subst s; unfold Luxon.msPerHour, Luxon.msPerMinute; lia).
  assert (Emin : Z.min (midnight + b1 * Luxon.msPerHour - c * Luxon.msPerMinute)
                       (midnight + b2 * Luxon.msPerHour - c * Luxon.msPerMinute)
                 = midnight + e * Luxon.msPerHour - c * Luxon.msPerMinute)
    by (subst e; unfold Luxon.msPerHour, Luxon.msPerMinute; lia).
  rewrite Emax, Emin, Hz.
  eexists. split; [reflexivity |].
  destruct (Z.leb_spec (midnight + e * Luxon.msPerHour - c * Luxon.msPerMinute)
                       (midnight + s * Luxon.msPerHour - c * Luxon.msPerMinute)) as [Hle | Hgt].
  - split; [reflexivity |]. intros Hlt. exfalso.
    unfold Luxon.msPerHour, Luxon.msPerMinute in Hle. lia.
  - split; [intros Hle; exfalso; unfold Luxon.msPerHour, Luxon.msPerMinute in Hgt; lia |].
    intros _. split; [reflexivity |].
    eexists. split; [reflexivity |].
    unfold Qeq, inject_Z, Luxon.msPerHour, Luxon.msPerMinute. cbn [Qnum Qden]. lia.
Qed.

End SameZone.

Section SameZone2024.
#[local] Existing Instance host2024.

(** New York and Boston, 9 to 18 and 10 to 17: seven hours, 10:00 to 17:00. *)
Lemma calculateOverlap_same_zone_witness :
  exists r,
    OverlapCalculator.calculateOverlap newYork (cityOf "Boston" "America/New_York")
      (Some (hours 9 18)) (Some (hours 10 17)) (Some (Some noon20240615)) = Ok r /\
    r = overlapOf "America/New_York" "America/New_York" 1718460000000 1718485200000 /\
    exists d, OverlapResult.durationMinutes r = Some d /\ (d == 420)%Q.
Proof.
  destruct (calculateOverlap_same_zone (H := host2024) newYork
              (cityOf "Boston" "America/New_York") 9 18 10 17 noon20240615 (-240)
              eq_refl eq_refl ltac:(lia) ltac:(lia) ltac:(lia) ltac:(lia)
              newYork_offset_steady)
    as (r & Er & _ & Hover).
  exists r. split; [exact Er |]. apply Hover. reflexivity.
Defined.

End SameZone2024.

(** ** From the calculated overlap to the suggestions *)

Section Pipeline.
Context `{Host}.

Lemma generateSuggestions_overlapOf (cityA cityB : City) (hA hB : WorkingHours.t)
    (zA zB : string) (s e : Z) :
  MeetingSuggester.generateSuggestions (overlapOf zA zB s e) cityA cityB hA hB
  = map (fun k => slotAt cityA cityB hA hB e zA zB
                    (s + Z.of_nat k * (30 * 60000)) (s + Z.of_nat k * (30 * 60000)))
        (seq 0 (slotCount s e)).
Proof.
  unfold MeetingSuggester.generateSuggestions, overlapOf.
  cbn [OverlapResult.hasOverlap OverlapResult.overlapInCityA OverlapResult.overlapInCityB
       range TimeRange.start].
  now apply (suggestLoop_closed cityA cityB hA hB (Valid s zA) e zA zA zB).
Qed.

Lemma calculateOverlap_shape (cityA cityB : City) (hA hB : WorkingHours.t) (ts : Z)
    (r : OverlapResult.t) :
  TimeZoneConverter.isValidTimezone (timezone cityA) = true ->
  TimeZoneConverter.isValidTimezone (timezone cityB) = true ->
  OverlapCalculator.isValidWorkingHours hA = true ->
  OverlapCalculator.isValidWorkingHours hB = true ->
  OverlapCalculator.calculateOverlap cityA cityB (Some hA) (Some hB) (Some (Some ts)) = Ok r ->
  r = OverlapCalculator.noOverlap \/
  exists s e, s < e /\ r = overlapOf (timezone cityA) (timezone cityB) s e.
Proof.
  intros HvA HvB HhA HhB.
  rewrite calculateOverlap_validated by assumption.
  destruct (workingHoursToUTC_valid hA _ ts HvA) as (sA & eA & _ & _ & EA).
  destruct (workingHoursToUTC_valid hB _ ts HvB) as (sB & eB & _ & _ & EB).
  rewrite (tryCalculate_valid _ _ _ _ _ _ _ _ _ HvA HvB EA EB).
  destruct (Z.leb_spec (Z.min eA eB) (Z.max sA sB)); intros [= <-]; [now left |].
  right. eauto.
Qed.

(** X10.  The suggestions generated from a calculated overlap: there is
    none without an overlap; otherwise there is at least one, as many as
    30-minute steps start inside the UTC window, and each one shows one and
    the same instant in city A's zone and in city B's zone, inside the
    window and a whole number of steps after its start. *)
Theorem suggestions_of_calculated_overlap (cityA cityB : City) (hA hB : WorkingHours.t)
    (ts : Z) (r : OverlapResult.t) :
  TimeZoneConverter.isValidTimezone (timezone cityA) = true ->
  TimeZoneConverter.isValidTimezone (timezone cityB) = true ->
  OverlapCalculator.isValidWorkingHours hA = true ->
  OverlapCalculator.isValidWorkingHours hB = true ->
  OverlapCalculator.calculateOverlap cityA cityB (Some hA) (Some hB) (Some (Some ts)) = Ok r ->
  let suggestions := MeetingSuggester.generateSuggestions r cityA cityB hA hB in
  match OverlapResult.overlapInUTC r with
  | None => suggestions = []
  | Some window =>
    exists s e,
      window = range (Valid s "UTC") (Valid e "UTC") /\
      List.length suggestions = slotCount s e /\
      (1 <= List.length suggestions)%nat /\
      Forall
        (fun suggestion =>
           exists t,
             MeetingSuggestion.timeInCityA suggestion = Valid t (timezone cityA) /\
             MeetingSuggestion.timeInCityB suggestion = Valid t (timezone cityB) /\
             s <= t < e /\ (t - s) mod (30 * 60000) = 0)
        suggestions
  end.
Proof.
  intros HvA HvB HhA HhB Er suggestions.
  destruct (calculateOverlap_shape _ _ _ _ _ _ HvA HvB HhA HhB Er)
    as [-> | (s & e & Hlt & ->)]; [reflexivity |].
  cbn [overlapOf OverlapResult.overlapInUTC]. exists s, e. split; [reflexivity |].
  subst suggestions. rewrite generateSuggestions_overlapOf.
  rewrite List.length_map, List.length_seq. split; [reflexivity |]. split.
  - rewrite (slotCount_succ _ _ Hlt). lia.
  - apply Forall_forall. intros suggestion Hin.
    apply in_map_iff in Hin. destruct Hin as (k & <- & Hk).
    apply in_seq in Hk. destruct Hk as [_ Hk]. cbn [Nat.add] in Hk.
    apply slotCount_lt in Hk.
    exists (s + Z.of_nat k * (30 * 60000)). repeat split; try lia.
    replace (s + Z.of_nat k * (30 * 60000) - s) with (Z.of_nat k * (30 * 60000)) by lia.
    apply Z.mod_mul. lia.
Qed.

End Pipeline.

Section Pipeline2024.
#[local] Existing Instance host2024.

Lemma suggestions_of_calculated_overlap_witness :
  exists s e,
    range (Valid 1718456400000 "UTC") (Valid 1718470800000 "UTC")
      = range (Valid s "UTC") (Valid e "UTC") /\
    List.length
      (MeetingSuggester.generateSuggestions
         (overlapOf "America/New_York" "Europe/London" 1718456400000 1718470800000)
         newYork london (hours 9 18) (hours 9 18)) = slotCount s e /\
    (1 <= List.length
            (MeetingSuggester.generateSuggestions
               (overlapOf "America/New_York" "Europe/London" 1718456400000 1718470800000)
               newYork london (hours 9 18) (hours 9 18)))%nat /\
    Forall
      (fun suggestion =>
         exists t,
           MeetingSuggestion.timeInCityA suggestion = Valid t "America/New_York" /\
           MeetingSuggestion.timeInCityB suggestion = Valid t "Europe/London" /\
           s <= t < e /\ (t - s) mod (30 * 60000) = 0)
      (MeetingSuggester.generateSuggestions
         (overlapOf "America/New_York" "Europe/London" 1718456400000 1718470800000)
         newYork london (hours 9 18) (hours 9 18)).
Proof.
  exact (suggestions_of_calculated_overlap (H := host2024) newYork london
           (hours 9 18) (hours 9 18) noon20240615
           (overlapOf "America/New_York" "Europe/London" 1718456400000 1718470800000)
           eq_refl eq_refl eq_refl eq_refl eq_refl).
Defined.

End Pipeline2024.

(** ** Durations of the suggestions *)

Section Durations.
Context `{Host}.

Lemma minutes_left_capped (te ta : Z) :
  ta < te ->
  (0 < Qmin (Qmake (te - ta) 60000) 60)%Q /\ (Qmin (Qmake (te - ta) 60000) 60 <= 60)%Q.
Proof.
  intros Hlt. split; [| apply Q.le_min_r].
  apply Q.min_glb_lt; [now apply minutes_between_positive | reflexivity].
Qed.

Lemma minutes_left_decrease (te ta : Z) :
  (Qmin (Qmake (te - (ta + 30 * 60000)) 60000) 60 <= Qmin (Qmake (te - ta) 60000) 60)%Q.
Proof.
  apply Q.min_le_compat_r. unfold Qle. cbn [Qnum Qden]. lia.
Qed.

(** Along the loop every duration is a positive number, at most the
    capped time left at the point the loop stands at. *)
Lemma suggestLoop_durations (window : TimeRange.t) (cityA cityB : City)
    (hA hB : WorkingHours.t) (a b : DateTime) :
  Forall
    (fun s =>
       exists d,
         MeetingSuggestion.durationMinutes s = Some d /\ (0 < d)%Q /\ (d <= 60)%Q /\
         forall bound,
           MeetingSuggester.mathMin (Luxon.diffMinutes (TimeRange.end_ window) a) 60
             = Some bound ->
           (d <= bound)%Q)
    (MeetingSuggester.suggestLoop window cityA cityB hA hB a b).
Proof.
  funelim (MeetingSuggester.suggestLoop window cityA cityB hA hB a b); [| constructor].
  match goal with E : Luxon.lt _ _ = true |- _ => pose proof E as Hlt end.
  unfold Luxon.lt in Hlt.
  destruct currentTimeA as [ta za |]; [| discriminate].
  destruct (TimeRange.end_ window) as [te ze |] eqn:Eend; [| discriminate].
  cbn [Luxon.valueOf] in Hlt. apply Z.ltb_lt in Hlt.
  constructor.
  - cbn [MeetingSuggestion.durationMinutes Luxon.diffMinutes MeetingSuggester.mathMin].
    eexists. split; [reflexivity |].
    destruct (minutes_left_capped te ta Hlt) as [Hpos Hcap].
    repeat split; try assumption.
    intros bound [= <-]. apply Qle_refl.
  - match goal with IH : Forall _ _ |- _ => rename IH into IHloop end.
    rewrite MeetingSuggester.plusMinutes_valid in IHloop.
    rewrite MeetingSuggester.plusMinutes_valid.
    eapply Forall_impl; [| exact IHloop].
    cbn beta. intros s (d & Ed & Hpos & Hcap & Hbound).
    exists d. repeat split; try assumption.
    cbn [Luxon.diffMinutes MeetingSuggester.mathMin].
    intros bound [= <-].
    eapply Qle_trans; [apply Hbound; reflexivity |].
    change (MeetingSuggester.intervalMinutes * Luxon.msPerMinute) with (30 * 60000).
    apply minutes_left_decrease.
Qed.

Lemma suggestLoop_head (window : TimeRange.t) (cityA cityB : City)
    (hA hB : WorkingHours.t) (a b : DateTime) (first : MeetingSuggestion.t)
    (rest : list MeetingSuggestion.t) :
  MeetingSuggester.suggestLoop window cityA cityB hA hB a b = first :: rest ->
  MeetingSuggestion.durationMinutes first
    = MeetingSuggester.mathMin (Luxon.diffMinutes (TimeRange.end_ window) a) 60 /\
  rest = MeetingSuggester.suggestLoop window cityA cityB hA hB
           (Luxon.plusMinutes a MeetingSuggester.intervalMinutes)
           (Luxon.plusMinutes b MeetingSuggester.intervalMinutes).
Proof.
  rewrite suggestLoop_unfold.
  destruct (Luxon.lt a (TimeRange.end_ window)); [| discriminate].
  intros [= <- <-]. split; reflexivity.
Qed.

Lemma fold_keeps_first (rest : list MeetingSuggestion.t) (first : MeetingSuggestion.t) :
  (forall m, In m rest ->
     MeetingSuggester.numberGt (MeetingSuggestion.durationMinutes m)
       (MeetingSuggestion.durationMinutes first) = false) ->
  fold_left
    (fun largest current =>
       if MeetingSuggester.numberGt (MeetingSuggestion.durationMinutes current)
            (MeetingSuggestion.durationMinutes largest)
       then current else largest)
    rest first = first.
Proof.
  induction rest as [| c rest IH]; intros Hall; [reflexivity |].
  cbn [fold_left]. rewrite (Hall c) by now left.
  apply IH. intros m Hm. apply Hall. now right.
Qed.

(** X11.  Whatever overlap object is passed in, every generated suggestion
    has a numeric duration that is positive and at most 60 minutes. *)
Theorem generateSuggestions_durations (overlap : OverlapResult.t) (cityA cityB : City)
    (hA hB : WorkingHours.t) :
  Forall
    (fun s =>
       exists d,
         MeetingSuggestion.durationMinutes s = Some d /\ (0 < d)%Q /\ (d <= 60)%Q)
    (MeetingSuggester.generateSuggestions overlap cityA cityB hA hB).
Proof.
  unfold MeetingSuggester.generateSuggestions.
  destruct (OverlapResult.hasOverlap overlap); [| constructor].
  destruct (OverlapResult.overlapInCityA overlap) as [wA |]; [| constructor].
  destruct (OverlapResult.overlapInCityB overlap) as [wB |]; [| constructor].
  eapply Forall_impl; [| apply suggestLoop_durations].
  cbn beta. intros s (d & Ed & Hpos & Hcap & _). eauto.
Qed.

(** X12.  The suggestion that [findLargestOverlap] picks among generated
    suggestions is always the first one: the time left only shrinks along
    the walk, and ties go to the earlier suggestion. *)
Theorem findLargestOverlap_of_generated (overlap : OverlapResult.t) (cityA cityB : City)
    (hA hB : WorkingHours.t) :
  MeetingSuggester.findLargestOverlap
    (MeetingSuggester.generateSuggestions overlap cityA cityB hA hB)
  = hd_error (MeetingSuggester.generateSuggestions overlap cityA cityB hA hB).
Proof.
  unfold MeetingSuggester.generateSuggestions.
  destruct (OverlapResult.hasOverlap overlap); [| reflexivity].
  destruct (OverlapResult.overlapInCityA overlap) as [wA |]; [| reflexivity].
  destruct (OverlapResult.overlapInCityB overlap) as [wB |]; [| reflexivity].
  destruct (MeetingSuggester.suggestLoop wA cityA cityB hA hB
              (TimeRange.start wA) (TimeRange.start wB)) as [| first rest] eqn:El;
    [reflexivity |].
  destruct (suggestLoop_head _ _ _ _ _ _ _ _ _ El) as [Efirst ->].
  cbn [MeetingSuggester.findLargestOverlap hd_error]. f_equal.
  apply fold_keeps_first. intros m Hm.
  pose proof (suggestLoop_durations wA cityA cityB hA hB
                (Luxon.plusMinutes (TimeRange.start wA) MeetingSuggester.intervalMinutes)
                (Luxon.plusMinutes (TimeRange.start wB) MeetingSuggester.intervalMinutes))
    as Hall.
  destruct (proj1 (Forall_forall _ _) Hall m Hm) as (d & Ed & _ & _ & Hbound).
  pose proof (suggestLoop_durations wA cityA cityB hA hB
                (TimeRange.start wA) (TimeRange.start wB)) as Hall0.
  rewrite El in Hall0. apply Forall_inv in Hall0.
  destruct Hall0 as (d0 & Ed0 & _ & _ & _).
  rewrite Ed, Ed0. cbn [MeetingSuggester.numberGt].
  unfold Qlt_bool. apply negb_false_iff, Qle_bool_iff.
  (* the first duration is the cap at the start; the others are capped one step on *)
  rewrite Ed0 in Efirst.
  rewrite suggestLoop_unfold in El.
  unfold Luxon.lt in El.
  destruct (TimeRange.start wA) as [ta za |]; [| discriminate].
  destruct (TimeRange.end_ wA) as [te ze |]; [| discriminate].
  cbn [Luxon.diffMinutes MeetingSuggester.mathMin] in Efirst. injection Efirst as ->.
  rewrite MeetingSuggester.plusMinutes_valid in Hbound.
  cbn [Luxon.diffMinutes MeetingSuggester.mathMin] in Hbound.
  eapply Qle_trans; [apply Hbound; reflexivity |].
  change (MeetingSuggester.intervalMinutes * Luxon.msPerMinute) with (30 * 60000).
  apply minutes_left_decrease.
Qed.

End Durations.

(** ** Suggestions fall inside both working days *)

Section InsideWorkingHours.
Context `{Host}.

Lemma minutes_of_day (midnight x : Z) :
  midnight mod 86400000 = 0 -> 0 <= x < 86400000 ->
  ((midnight + x) / 3600000) mod 24 * 60 + ((midnight + x) / 60000) mod 60 = x / 60000.
Proof.
  intros Hm Hx.
  assert (Em : midnight = 86400000 * (midnight / 86400000))
    by (pose proof (Z.div_mod midnight 86400000); lia).
  set (q := midnight / 86400000) in *. rewrite Em.
  replace ((86400000 * q + x) / 3600000) with (24 * q + x / 3600000)
    by (replace (86400000 * q + x) with (x + (24 * q) * 3600000) by lia;
        rewrite Z.div_add by lia; lia).
  replace ((86400000 * q + x) / 60000) with (1440 * q + x / 60000)
    by (replace (86400000 * q + x) with (x + (1440 * q) * 60000) by lia;
        rewrite Z.div_add by lia; lia).
  replace (24 * q + x / 3600000) with (x / 3600000 + q * 24) by lia.
  replace (1440 * q + x / 60000) with (x / 60000 + (24 * q) * 60) by lia.
  rewrite !Z.mod_add by lia.
  Z.to_euclidean_division_equations. lia.
Qed.

Lemma startOfLocalDay_multiple (local : Z) : Luxon.startOfLocalDay local mod 86400000 = 0.
Proof. unfold Luxon.startOfLocalDay. apply Z.mod_mul. discriminate. Qed.

(** An instant whose wall clock lies between [a] o'clock and [b] o'clock
    of a civil day is not outside the working hours [a] to [b]. *)
Lemma categorize_inside (zone z0 : string) (t c midnight a b : Z) :
  TimeZoneConverter.isValidTimezone zone = true ->
  zoneOffset zone t = c ->
  midnight mod 86400000 = 0 ->
  0 <= a -> b <= 24 ->
  midnight + a * Luxon.msPerHour <= t + c * Luxon.msPerMinute
    < midnight + b * Luxon.msPerHour ->
  MeetingSuggester.categorizeMeetingTime (Valid t z0) (hours (inject_Z a) (inject_Z b)) zone
  <> NotRecommended.
Proof.
  intros Hv Ec Hm Ha Hb Hin.
  rewrite categorizeMeetingTime_valid by assumption. cbn zeta.
  unfold Luxon.localTS. rewrite Ec.
  unfold Luxon.msPerHour, Luxon.msPerMinute in *.
  set (x := t + c * (60 * 1000) - midnight).
  replace (t + c * (60 * 1000)) with (midnight + x) by (subst x; lia).
  change (60 * (60 * 1000)) with 3600000 in *. change (60 * 1000) with 60000 in *.
  rewrite (minutes_of_day midnight x Hm) by (subst x; lia).
  assert (Hq : a * 60 <= x / 60000 < b * 60)
    by (subst x; Z.to_euclidean_division_equations; lia).
  cbn [hours WorkingHours.start WorkingHours.end_].
  destruct (categorize_whole_hours (x / 60000) a b ltac:(lia) ltac:(lia) ltac:(lia))
    as (E1 & E2 & _).
  rewrite E1, E2.
  destruct (Z.ltb_spec (x / 60000) (a * 60)); [lia |].
  destruct (Z.leb_spec (b * 60) (x / 60000)); [lia |].
  cbn [orb].
  destruct (_ && _); discriminate.
Qed.

(** X13.  With whole working hours that do not span midnight and zones
    that keep one offset around the date, no suggestion generated from the
    calculated overlap is Not Recommended: every one falls inside the
    working day of both cities. *)
Theorem suggestions_inside_working_hours (cityA cityB : City)
    (a1 b1 a2 b2 ts cA cB : Z) (r : OverlapResult.t) :
  TimeZoneConverter.isValidTimezone (timezone cityA) = true ->
  TimeZoneConverter.isValidTimezone (timezone cityB) = true ->
  0 <= a1 < b1 -> b1 <= 24 -> 0 <= a2 < b2 -> b2 <= 24 ->
  (forall t, ts - Luxon.msPerDay <= t <= ts + 2 * Luxon.msPerDay ->
     zoneOffset (timezone cityA) t = cA) ->
  (forall t, ts - Luxon.msPerDay <= t <= ts + 2 * Luxon.msPerDay ->
     zoneOffset (timezone cityB) t = cB) ->
  OverlapCalculator.calculateOverlap cityA cityB
    (Some (hours (inject_Z a1) (inject_Z b1))) (Some (hours (inject_Z a2) (inject_Z b2)))
    (Some (Some ts)) = Ok r ->
  Forall (fun suggestion => MeetingSuggestion.quality suggestion <> NotRecommended)
    (MeetingSuggester.generateSuggestions r cityA cityB
       (hours (inject_Z a1) (inject_Z b1)) (hours (inject_Z a2) (inject_Z b2))).
Proof.
  intros HvA HvB Ha1 Hb1 Ha2 Hb2 HwinA HwinB.
  pose proof (workingHoursToUTC_whole_hours _ a1 b1 ts cA HvA Ha1 Hb1 HwinA) as EA.
  pose proof (workingHoursToUTC_whole_hours _ a2 b2 ts cB HvB Ha2 Hb2 HwinB) as EB.
  cbn zeta in EA, EB.
  set (mA := Luxon.startOfLocalDay (ts + cA * Luxon.msPerMinute)) in *.
  set (mB := Luxon.startOfLocalDay (ts + cB * Luxon.msPerMinute)) in *.
  rewrite calculateOverlap_validated
    by (assumption || apply whole_hours_valid; assumption).
  rewrite (tryCalculate_valid _ _ _ _ _ _ _ _ _ HvA HvB EA EB).
  set (s := Z.max _ _). set (e := Z.min _ _).
  destruct (Z.leb_spec e s) as [Hle | Hgt]; intros [= <-]; [constructor |].
  rewrite generateSuggestions_overlapOf.
  apply Forall_forall. intros suggestion Hin.
  apply in_map_iff in Hin. destruct Hin as (k & <- & Hk).
  apply in_seq in Hk. destruct Hk as [_ Hk]. cbn [Nat.add] in Hk.
  apply slotCount_lt in Hk.
  set (t := s + Z.of_nat k * (30 * 60000)) in *.
  assert (Ht : s <= t < e) by (subst t; lia).
  assert (HmA : mA - cA * Luxon.msPerMinute <= ts /\ ts < mA - cA * Luxon.msPerMinute + Luxon.msPerDay)
    by (subst mA; unfold Luxon.startOfLocalDay, Luxon.msPerDay, Luxon.msPerHour,
          Luxon.msPerMinute; Z.to_euclidean_division_equations; lia).
  assert (HmB : mB - cB * Luxon.msPerMinute <= ts /\ ts < mB - cB * Luxon.msPerMinute + Luxon.msPerDay)
    by (subst mB; unfold Luxon.startOfLocalDay, Luxon.msPerDay, Luxon.msPerHour,
          Luxon.msPerMinute; Z.to_euclidean_division_equations; lia).
  assert (HtA : mA + a1 * Luxon.msPerHour <= t + cA * Luxon.msPerMinute
                < mA + b1 * Luxon.msPerHour) by (subst s e; lia).
  assert (HtB : mB + a2 * Luxon.msPerHour <= t + cB * Luxon.msPerMinute
                < mB + b2 * Luxon.msPerHour) by (subst s e; lia).
  assert (HcA : zoneOffset (timezone cityA) t = cA)
    by (apply HwinA; unfold Luxon.msPerDay, Luxon.msPerHour, Luxon.msPerMinute in *; lia).
  assert (HcB : zoneOffset (timezone cityB) t = cB)
    by (apply HwinB; unfold Luxon.msPerDay, Luxon.msPerHour, Luxon.msPerMinute in *; lia).
  unfold slotAt. cbn [MeetingSuggestion.quality].
  pose proof (categorize_inside (timezone cityA) (timezone cityA) t cA mA a1 b1 HvA HcA
                (startOfLocalDay_multiple _) (proj1 Ha1) Hb1 HtA) as HqA.
  pose proof (categorize_inside (timezone cityB) (timezone cityB) t cB mB a2 b2 HvB HcB
                (startOfLocalDay_multiple _) (proj1 Ha2) Hb2 HtB) as HqB.
  destruct (MeetingSuggester.categorizeMeetingTime _ _ (timezone cityA)),
           (MeetingSuggester.categorizeMeetingTime _ _ (timezone cityB));
    (discriminate || contradiction).
Qed.

End InsideWorkingHours.

Section InsideWorkingHours2024.
#[local] Existing Instance host2024.

Lemma london_offset_steady (t : Z) :
  noon20240615 - Luxon.msPerDay <= t <= noon20240615 + 2 * Luxon.msPerDay ->
  offset2024 "Europe/London" t = 60.
Proof.
  unfold noon20240615, Luxon.msPerDay, Luxon.msPerHour, Luxon.msPerMinute, offset2024.
  intros Ht. cbn [String.eqb Ascii.eqb Bool.eqb].
  destruct (Z.leb_spec 1711846800000 t), (Z.ltb_spec t 1729990800000);
    cbn [andb]; (reflexivity || lia).
Qed.

Lemma suggestions_inside_working_hours_witness :
  Forall (fun suggestion => MeetingSuggestion.quality suggestion <> NotRecommended)
    (MeetingSuggester.generateSuggestions
       (overlapOf "America/New_York" "Europe/London" 1718456400000 1718470800000)
       newYork london (hours 9 18) (hours 9 18)).
Proof.
  exact (suggestions_inside_working_hours (H := host2024) newYork london
           9 18 9 18 noon20240615 (-240) 60
           (overlapOf "America/New_York" "Europe/London" 1718456400000 1718470800000)
           eq_refl eq_refl ltac:(lia) ltac:(lia) ltac:(lia) ltac:(lia)
           newYork_offset_steady london_offset_steady eq_refl).
Defined.

End InsideWorkingHours2024.

(** ** The middle third in whole minutes *)

Section MiddleThird.
Context `{Host}.

(** X14.  For whole working hours [a] to [b] and a valid zone, with [m]
    the minute of the day on the instant's wall clock: the category is Not
    Recommended outside [60a, 60b), Perfect from a third of the working day
    in up to two thirds, [60a + 20(b-a) <= m < 60a + 40(b-a)], and
    Acceptable in the first and last thirds.  The quotient JavaScript
    computes in double precision decides Perfect in the same way. *)
Theorem categorizeMeetingTime_thirds (ts : Z) (z0 zone : string) (a b : Z) :
  TimeZoneConverter.isValidTimezone zone = true ->
  0 <= a < b -> b <= 24 ->
  let local := Luxon.localTS zone ts in
  let m := (local / Luxon.msPerHour) mod 24 * 60 + (local / Luxon.msPerMinute) mod 60 in
  let q := MeetingSuggester.categorizeMeetingTime (Valid ts z0)
             (hours (inject_Z a) (inject_Z b)) zone in
  (q = NotRecommended <-> m < 60 * a \/ 60 * b <= m) /\
  (q = PerfectTime <-> 60 * a + 20 * (b - a) <= m < 60 * a + 40 * (b - a)) /\
  (q = AcceptableTime <->
     60 * a <= m < 60 * a + 20 * (b - a) \/ 60 * a + 40 * (b - a) <= m < 60 * b) /\
  (60 * a <= m < 60 * b ->
     (positionTestFloat (m - a * 60) (60 * (b - a)) = true <-> q = PerfectTime)).
Proof.
  intros Hv Ha Hb local m q. subst q.
  rewrite categorizeMeetingTime_valid by assumption. cbn zeta.
  fold local. fold m.
  pose proof (minutes_of_day_bounds local) as Hm. fold m in Hm.
  cbn [hours WorkingHours.start WorkingHours.end_].
  destruct (categorize_whole_hours m a b Hm ltac:(lia) ltac:(lia)) as (Elt & Ege & Emid).
  rewrite Elt, Ege.
  destruct (Z.ltb_spec m (a * 60)) as [Hlt | Hge]; cbn [orb].
  { repeat split; intros; try discriminate; try reflexivity; try lia. }
  destruct (Z.leb_spec (b * 60) m) as [Hle | Hlt].
  { repeat split; intros; try discriminate; try reflexivity; try lia. }
  rewrite (Emid ltac:(lia)).
  rewrite (position_test_64_exact (m - a * 60) (b - a)) by lia.
  rewrite (position_test_float_exact (m - a * 60) (b - a)) by lia.
  rewrite positionTestExact_integers by lia.
  destruct (Z.leb_spec (60 * (b - a)) (3 * (m - a * 60)));
    destruct (Z.ltb_spec (3 * (m - a * 60)) (2 * (60 * (b - a)))); cbn [andb];
    repeat split; intros; try discriminate; try reflexivity; try lia.
Qed.

End MiddleThird.

Section MiddleThird2024.
#[local] Existing Instance host2024.

(** 13:30 in New York, hours 9 to 18: minute 810 lies in [720, 900). *)
Lemma categorizeMeetingTime_thirds_witness :
  MeetingSuggester.categorizeMeetingTime (Valid halfPastOne20240115 "UTC")
    (hours 9 18) "America/New_York" = PerfectTime /\
  positionTestFloat 270 540 = true.
Proof.
  destruct (categorizeMeetingTime_thirds (H := host2024) halfPastOne20240115 "UTC"
              "America/New_York" 9 18 eq_refl ltac:(lia) ltac:(lia))
    as (_ & Hperfect & _ & Hfloat).
  split.
  - apply Hperfect. vm_compute. split; [discriminate | reflexivity].
  - apply Hfloat; [vm_compute; split; [discriminate | reflexivity] |].
    apply Hperfect. vm_compute. split; [discriminate | reflexivity].
Defined.

End MiddleThird2024.

(** ** The effect of the application *)

Section Effect.
Context `{Host}.

Lemma isValidTimezone_nonempty (zone : string) :
  TimeZoneConverter.isValidTimezone zone = true -> String.eqb zone "" = false.
Proof.
  unfold TimeZoneConverter.isValidTimezone.
  destruct (String.eqb zone ""); [discriminate | reflexivity].
Qed.

Lemma errorMessage_unable (who rest : string) :
  App.errorMessage ("Unable to determine timezone for " ++ who ++ rest)
  = ("Unable to determine timezone for " ++ who ++ rest)%string.
Proof.
  unfold App.errorMessage.
  rewrite (includes_append_l "timezone" "Unable to determine timezone for " (who ++ rest))
    by reflexivity.
  reflexivity.
Qed.

(** X15.  With both cities selected, a run of the effect ends in one of
    two ways.  Either no error is shown, the state holds the calculator's
    result and the suggestions generated from it (none when there is no
    overlap); or one of nine messages is shown, with no result and no
    suggestions.  The calculator's own generic message is never shown: the
    effect puts its own in its place. *)
Theorem recalculate_outcomes (cityA cityB : City) (wA wB : WorkingHours.t)
    (date : option Z) (prev : App.View) :
  let view := App.recalculate (Some cityA) (Some cityB) wA wB date prev in
  (App.error view = None /\
   exists r,
     OverlapCalculator.calculateOverlap cityA cityB (Some wA) (Some wB) (Some date) = Ok r /\
     App.overlap view = Some r /\
     App.suggestions view
     = if OverlapResult.hasOverlap r
       then MeetingSuggester.generateSuggestions r cityA cityB wA wB
       else [])
  \/
  (exists message,
     App.error view = Some message /\
     In message (displayedMessages cityA cityB) /\
     message <> OverlapCalculator.calculationFailed /\
     App.overlap view = None /\ App.suggestions view = []).
Proof.
  cbn zeta. unfold App.recalculate, displayedMessages.
  destruct (App.validateWorkingHours wA);
    [| right; eexists; cbn; repeat split; [auto | discriminate]].
  destruct (App.validateWorkingHours wB);
    [| right; eexists; cbn; repeat split; [auto | discriminate]].
  cbn [negb].
  unfold OverlapCalculator.calculateOverlap.
  destruct (String.eqb (timezone cityA) "");
    [right; eexists; cbn; repeat split; [auto | discriminate] |].
  destruct (String.eqb (timezone cityB) "");
    [right; eexists; cbn; repeat split; [auto 6 | discriminate] |].
  destruct (TimeZoneConverter.isValidTimezone (timezone cityA)) eqn:HvA; cbn [negb].
  2:{ right; eexists. cbn [App.error App.overlap App.suggestions].
      rewrite errorMessage_unable.
      repeat split; [cbn; auto 7 | discriminate]. }
  destruct (TimeZoneConverter.isValidTimezone (timezone cityB)) eqn:HvB; cbn [negb].
  2:{ right; eexists. cbn [App.error App.overlap App.suggestions].
      rewrite errorMessage_unable.
      repeat split; [cbn; auto 8 | discriminate]. }
  destruct (OverlapCalculator.isValidWorkingHours wA); cbn [negb];
    [| right; eexists; cbn; repeat split; [auto 9 | discriminate]].
  destruct (OverlapCalculator.isValidWorkingHours wB); cbn [negb];
    [| right; eexists; cbn; repeat split; [auto 10 | discriminate]].
  pose proof (tryCalculate_outcome cityA cityB wA wB date HvA HvB) as Hout.
  destruct date as [ts |].
  - destruct Hout as [r ->]. left. cbn. eauto.
  - rewrite Hout. right. eexists. cbn. repeat split; [auto 11 | discriminate].
Qed.

(** X16.  With both cities selected, the effect shows no error exactly
    when both zones are valid, both cities' hours lie inside the day with
    the start before the end, and the selected date is a valid date.  In
    particular hours that span midnight, which the calculator accepts, are
    always answered with an error. *)
Theorem recalculate_no_error_iff (cityA cityB : City) (wA wB : WorkingHours.t)
    (date : option Z) (prev : App.View) :
  App.error (App.recalculate (Some cityA) (Some cityB) wA wB date prev) = None
  <->
  TimeZoneConverter.isValidTimezone (timezone cityA) = true /\
  TimeZoneConverter.isValidTimezone (timezone cityB) = true /\
  shownHours wA /\ shownHours wB /\ date <> None.
Proof.
  assert (Hhours : forall h,
    App.validateWorkingHours h = true /\ OverlapCalculator.isValidWorkingHours h = true
    <-> shownHours h).
  { intros h. unfold App.validateWorkingHours, shownHours.
    rewrite isValidWorkingHours_iff. unfold acceptedHours.
    rewrite Qlt_bool_iff. split.
    - intros (Hlt & H0 & _ & _ & H24 & _). auto.
    - intros (H0 & Hlt & H24). repeat split; auto.
      + apply Qlt_le_trans with (1 := Hlt). exact H24.
      + apply Qle_trans with (1 := H0). apply Qlt_le_weak. exact Hlt.
      + intros E. rewrite E in Hlt. exact (Qlt_irrefl _ Hlt). }
  unfold App.recalculate.
  destruct (App.validateWorkingHours wA) eqn:EA; cbn [negb].
  2:{ split; [discriminate |]. intros (_ & _ & HA & _).
      apply Hhours in HA. destruct HA as [HA _]. congruence. }
  destruct (App.validateWorkingHours wB) eqn:EB; cbn [negb].
  2:{ split; [discriminate |]. intros (_ & _ & _ & HB & _).
      apply Hhours in HB. destruct HB as [HB _]. congruence. }
  unfold OverlapCalculator.calculateOverlap.
  destruct (String.eqb (timezone cityA) "") eqn:NA.
  { split; [discriminate |]. intros (HvA & _).
    apply isValidTimezone_nonempty in HvA. congruence. }
  destruct (String.eqb (timezone cityB) "") eqn:NB.
  { split; [discriminate |]. intros (_ & HvB & _).
    apply isValidTimezone_nonempty in HvB. congruence. }
  destruct (TimeZoneConverter.isValidTimezone (timezone cityA)) eqn:HvA; cbn [negb];
    [| split; [discriminate | intros (? & _); discriminate]].
  destruct (TimeZoneConverter.isValidTimezone (timezone cityB)) eqn:HvB; cbn [negb];
    [| split; [discriminate | intros (_ & ? & _); discriminate]].
  destruct (OverlapCalculator.isValidWorkingHours wA) eqn:VA; cbn [negb].
  2:{ split; [discriminate |]. intros (_ & _ & HA & _).
      apply Hhours in HA. destruct HA as [_ HA]. congruence. }
  destruct (OverlapCalculator.isValidWorkingHours wB) eqn:VB; cbn [negb].
  2:{ split; [discriminate |]. intros (_ & _ & _ & HB & _).
      apply Hhours in HB. destruct HB as [_ HB]. congruence. }
  pose proof (tryCalculate_outcome cityA cityB wA wB date HvA HvB) as Hout.
  destruct date as [ts |].
  - destruct Hout as [r ->]. cbn [App.error]. split; [intros _ | reflexivity].
    repeat split; try (apply Hhours; split; assumption). discriminate.
  - rewrite Hout. cbn [App.error]. split; [discriminate |].
    intros (_ & _ & _ & _ & Hd). now contradiction Hd.
Qed.

End Effect.

(** ** The fuzzy score of the city search *)

Section FuzzyScore.

Lemma fuzzyLoop_acc (str pattern : list Z) (m : nat) :
  CityDatabase.fuzzyLoop str pattern m = (m + CityDatabase.fuzzyLoop str pattern 0)%nat.
Proof.
  revert pattern m. induction str as [| c str IH]; intros pattern m; cbn; [lia |].
  destruct pattern as [| p pattern]; [lia |].
  destruct (Z.eqb c p); [| apply IH].
  rewrite (IH pattern (S m)), (IH pattern 1%nat). lia.
Qed.

Lemma fuzzyLoop_le (str pattern : list Z) :
  (CityDatabase.fuzzyLoop str pattern 0 <= List.length pattern)%nat.
Proof.
  revert pattern. induction str as [| c str IH]; intros pattern; cbn; [lia |].
  destruct pattern as [| p pattern]; [cbn; lia |].
  destruct (Z.eqb c p).
  - rewrite fuzzyLoop_acc. specialize (IH pattern). cbn [List.length]. lia.
  - apply IH.
Qed.

Lemma Subsequence_tail (c : Z) (p l : list Z) :
  Subsequence (c :: p) l -> Subsequence p l.
Proof.
  induction l as [| d l IH]; intros Hs; inversion Hs; subst.
  - apply Subsequence_skip. now apply IH.
  - now apply Subsequence_skip.
Qed.

Lemma fuzzyLoop_full (str pattern : list Z) :
  CityDatabase.fuzzyLoop str pattern 0 = List.length pattern <-> Subsequence pattern str.
Proof.
  revert pattern. induction str as [| c str IH]; intros pattern.
  - destruct pattern as [| p pattern]; cbn.
    + split; [constructor | reflexivity].
    + split; [discriminate | intros Hs; inversion Hs].
  - destruct pattern as [| p pattern]; cbn [CityDatabase.fuzzyLoop].
    + split; [constructor | reflexivity].
    + destruct (Z.eqb_spec c p) as [-> | Hne].
      * rewrite fuzzyLoop_acc. cbn [List.length]. split.
        -- intros E. apply Subsequence_take. apply IH. lia.
        -- intros Hs. enough (CityDatabase.fuzzyLoop str pattern 0 = List.length pattern) by lia.
           apply IH. inversion Hs; subst; [now apply Subsequence_tail with p | assumption].
      * rewrite IH. split.
        -- now apply Subsequence_skip.
        -- intros Hs. inversion Hs; subst; [assumption | congruence].
Qed.

(** X17.  [fuzzyMatch] always lies between 0 and 1, and it is 1 exactly
    when the pattern is not empty and can be read in the string from left
    to right, skipping characters: the greedy scan misses no such
    reading. *)
Theorem fuzzyMatch_full_score (str pattern : list Z) :
  (0 <= CityDatabase.fuzzyMatch str pattern)%Q /\
  (CityDatabase.fuzzyMatch str pattern <= 1)%Q /\
  ((CityDatabase.fuzzyMatch str pattern == 1)%Q <-> pattern <> [] /\ Subsequence pattern str).
Proof.
  unfold CityDatabase.fuzzyMatch.
  destruct pattern as [| p pattern]; cbn [List.length Nat.eqb].
  { split; [apply Qle_refl |]. split; [unfold Qle; cbn; lia |].
    split; [intros E; discriminate E | intros [E _]; now contradiction E]. }
  destruct str as [| c str]; cbn [List.length Nat.eqb].
  { split; [apply Qle_refl |]. split; [unfold Qle; cbn; lia |].
    split; [intros E; discriminate E | intros [_ Hs]; inversion Hs]. }
  set (m := CityDatabase.fuzzyLoop (c :: str) (p :: pattern) 0).
  pose proof (fuzzyLoop_le (c :: str) (p :: pattern)) as Hle. fold m in Hle.
  pose proof (fuzzyLoop_full (c :: str) (p :: pattern)) as Hfull. fold m in Hfull.
  cbn [List.length] in Hle, Hfull.
  assert (Epos : Z.pos (Pos.of_nat (S (List.length pattern)))
                 = Z.of_nat (S (List.length pattern))).
  { rewrite <- positive_nat_Z, Nat2Pos.id by discriminate. reflexivity. }
  unfold Qle, Qeq. cbn [Qnum Qden]. rewrite Epos.
  repeat split; try lia.
  - discriminate.
  - apply Hfull. lia.
  - intros [_ Hs]. apply Hfull in Hs. lia.
Qed.

End FuzzyScore.
